(** * The motion-analytics engine of [backend/form_analyzer.py]

    A shallow embedding of the [FormAnalyzer] class: the rep-detection state
    machines, the movement-history scoring, the peak-based step detector, the
    activity classifier bridge and the calorie estimator.

    Conventions of the embedding.
    - A Python [float] is read as an exact rational ([Q]); [int] values
      (scores, counters, cadence) are [Z].  Rounding, infinities and NaN are
      outside the model.
    - [math.sqrt] / [np.std] need a square root, which [Q] does not have: the
      square root is an interface ([MathLib]) that the definitions take as a
      parameter.  No theorem below assumes anything about it.
    - Methods that mutate [self] take the analyzer state and return the new one.
      Readings of the wall clock ([datetime.now()], [time.time()]) are an
      explicit argument [clock], one reading per call of [analyze].
    - [HumanMesh] (forward kinematics for the 3-D view) is a separate object
      whose fields the analysis never reads; it is not part of the analyzer
      state.  Its update is the second statement of [analyze] and can raise.
    - A call that can raise is modelled in layers.  [_update_heart_rate] and
      [analyze] are the arithmetic of a call that returns: the state and the
      result it returns with.  [DemoMode_update_heart_rate],
      [analyze_with_mesh] and [FormAnalyzer_analyze] add how the call ends:
      the last one is the whole method, with the [ZeroDivisionError] of
      line 216 and the [AttributeError] of line 471. *)

From Stdlib Require Import QArith ZArith Bool String Ascii List.
From Stdlib Require Import Qminmax Qround Qabs Lia Lqa.
Import ListNotations.

Open Scope Q_scope.

(** ** Python arithmetic on rationals *)

Definition Qltb (x y : Q) : bool := negb (Qle_bool y x).
Definition Qgtb (x y : Q) : bool := Qltb y x.
Definition Qgeb (x y : Q) : bool := Qle_bool y x.

Infix "<?" := Qltb (at level 70, no associativity) : Q_scope.
Infix "<=?" := Qle_bool (at level 70, no associativity) : Q_scope.
Infix ">?" := Qgtb (at level 70, no associativity) : Q_scope.
Infix ">=?" := Qgeb (at level 70, no associativity) : Q_scope.

(** [int] to [float] promotion. *)
Definition float (n : Z) : Q := inject_Z n.

(** [sum(l)] *)
Definition sum (l : list Q) : Q := fold_left Qplus l 0.

(** [len(l)] as a number *)
Definition len {A} (l : list A) : Z := Z.of_nat (List.length l).

(** [max(l)] of a list; only called on non-empty lists. *)
Definition max_list (l : list Q) : Q :=
  match l with
  | [] => 0
  | x :: r => fold_left Qmax r x
  end.

(** [l[-n:]] *)
Definition last_n {A} (n : nat) (l : list A) : list A :=
  skipn (List.length l - n) l.

(** [np.mean] and [np.var] (population variance, [ddof = 0]). *)
Definition np_mean (l : list Q) : Q := sum l / float (len l).

Definition np_var (l : list Q) : Q :=
  let m := np_mean l in
  np_mean (map (fun x => (x - m) * (x - m)) l).

(** [round(x, ndigits)]: to the nearest multiple of [10^-ndigits], ties to the
    even one. *)
Definition round_half_even (x : Q) : Z :=
  let f := Qfloor x in
  let r := x - inject_Z f in
  if r <? 0.5 then f
  else if r >? 0.5 then (f + 1)%Z
  else if Z.even f then f else (f + 1)%Z.

Definition round (x : Q) (ndigits : nat) : Q :=
  let scale := inject_Z (10 ^ Z.of_nat ndigits) in
  inject_Z (round_half_even (x * scale)) / scale.

(** The square root of the [math] / [numpy] libraries. *)
Class MathLib := { math_sqrt : Q -> Q }.

(** An executable instance, exact on squares of rationals: the square root of
    a reduced fraction taken on numerator and denominator. *)
Definition sqrt_reduced (x : Q) : Q :=
  let r := Qred x in
  Qmake (Z.sqrt (Qnum r)) (Z.to_pos (Z.sqrt (Zpos (Qden r)))).

Definition ExactSquares : MathLib := {| math_sqrt := sqrt_reduced |}.

(** [str.lower()] on ASCII labels. *)
Definition lower_ascii (c : ascii) : ascii :=
  let n := nat_of_ascii c in
  if (Nat.leb 65 n && Nat.leb n 90)%bool then ascii_of_nat (n + 32) else c.

Fixpoint lower (s : string) : string :=
  match s with
  | EmptyString => EmptyString
  | String c r => String (lower_ascii c) (lower r)
  end.

(** [deque(maxlen=n).append(x)]: the oldest entry is dropped when full. *)
Definition deque_append {A} (maxlen : nat) (d : list A) (x : A) : list A :=
  last_n maxlen (d ++ [x]).

(** ** Data model *)

(** [self.rep_state]: only ever assigned ['up'] or ['down']. *)
Inductive RepState := up | down.

Definition RepState_eqb (a b : RepState) : bool :=
  match a, b with
  | up, up | down, down => true
  | _, _ => false
  end.

(** [self.mode]: [set_mode] accepts ['normal'] and ['workout'] only. *)
Inductive Mode := normal | workout.

(** The ['timestamp'] entry of a sample: a number, an ISO-8601 string (given
    by the epoch seconds it parses to), or something neither parser accepts. *)
Inductive Timestamp :=
| ts_number (t : Q)
| ts_iso (t : Q)
| ts_unparsable.

(** The sample dictionary: the keys the analyzer reads ([None] = key absent),
    and whether the dictionary holds any other key. *)
Record SensorData := {
  sd_ax : option Q;
  sd_ay : option Q;
  sd_az : option Q;
  sd_gx : option Q;
  sd_gy : option Q;
  sd_gz : option Q;
  sd_heartRate : option Q;
  sd_timestamp : option Timestamp;
  sd_other_keys : bool
}.

Definition is_some {A} (o : option A) : bool :=
  match o with Some _ => true | None => false end.

(** Truth value of a dictionary: non-empty. *)
Definition dict_truthy (d : SensorData) : bool :=
  is_some d.(sd_ax) || is_some d.(sd_ay) || is_some d.(sd_az) ||
  is_some d.(sd_gx) || is_some d.(sd_gy) || is_some d.(sd_gz) ||
  is_some d.(sd_heartRate) || is_some d.(sd_timestamp) || d.(sd_other_keys).

(** [if sensor_data:] for the optional argument. *)
Definition truthy (sensor_data : option SensorData) : bool :=
  match sensor_data with
  | Some d => dict_truthy d
  | None => false
  end.

(** [d.get(key, default)] *)
Definition get (field : option Q) (default : Q) : Q :=
  match field with Some v => v | None => default end.

(** One entry of [movement_history]. *)
Record Movement := {
  m_pitch : Q;
  m_roll : Q;
  m_timestamp : Q
}.

(** [latest_metrics] *)
Record Metrics := {
  stepCount : Z;
  stepDetected : bool;
  activity : string;
  activityConfidence : Q;
  runningSpeedKmh : Q;
  caloriesTotal : Q
}.

(** The injected classifier ([model.joblib]).  [predict] returns the label as
    [str(prediction)], or [None] when it raises; [predict_proba], when the
    model has the attribute, returns [np.max(proba)], or [None] when it
    raises. *)
Record Classifier := {
  predict : list Q -> option string;
  predict_proba : option (list Q -> option Q)
}.

(** The fields of [DemoMode] that [_update_heart_rate] touches. *)
Record DemoMode := {
  running : bool;
  current_angle : Q;
  fatigue_factor : Q;
  heart_rate : Q;
  last_beat_time : option Q;
  beat_interval : option Q
}.

Record FormAnalyzer := {
  demo_mode : DemoMode;
  rep_state : RepState;
  last_rep_count : Z;
  current_form_score : Z;
  current_feedback : list string;
  movement_history : list Movement;
  last_rep_time : option Q;
  rep_durations : list Q;
  range_of_motion : Q * Q;          (* ('min', 'max') *)
  mode : Mode;
  step_count : Z;
  _last_step_time : option Q;
  _step_buffer : list (Q * Q);      (* (ts, acc_magnitude), oldest first *)
  _last_metric_time : option Q;
  latest_metrics : Metrics;
  user_height_cm : Q;
  user_weight_kg : Q;
  user_age : Z;
  _calories_accum : Q;
  activity_model : option Classifier
}.

(** [self.thresholds] *)
Module bicep_curl.
Definition min_curl : Q := 60.
Definition max_curl : Q := 120.
Definition max_roll : Q := 10.
Definition target_curl : Q := 90.
Definition ideal_tempo : Q := 2.0.
Definition tempo_range : Q := 0.5.
End bicep_curl.

Module lateral_raise.
Definition min_raise : Q := 20.
Definition max_raise : Q := 100.
Definition max_roll : Q := 12.
End lateral_raise.

Module shoulder_press.
Definition min_press : Q := 30.
Definition max_press : Q := 120.
Definition max_roll : Q := 12.
End shoulder_press.

(** Step detection parameters of [__init__]. *)
Definition _min_step_interval : Q := 0.3.
Definition _max_step_interval : Q := 2.0.
Definition _step_buffer_maxlen : nat := 100.

(** [FormAnalyzer.__init__]; [model] is what [_load_activity_model] found. *)
Definition init (model : option Classifier) : FormAnalyzer := {|
  demo_mode := {| running := false; current_angle := 0; fatigue_factor := 0;
                  heart_rate := 70; last_beat_time := None;
                  beat_interval := None |};
  rep_state := up;
  last_rep_count := 0;
  current_form_score := 100;
  current_feedback := [];
  movement_history := [];
  last_rep_time := None;
  rep_durations := [];
  range_of_motion := (0, 0);
  mode := normal;
  step_count := 0;
  _last_step_time := None;
  _step_buffer := [];
  _last_metric_time := None;
  latest_metrics := {| stepCount := 0; stepDetected := false;
                       activity := "unknown"; activityConfidence := 0.0;
                       runningSpeedKmh := 0.0; caloriesTotal := 0.0 |};
  user_height_cm := 170.0;
  user_weight_kg := 70.0;
  user_age := 30;
  _calories_accum := 0.0;
  activity_model := model
|}.

(** ** Assignments to fields of [self] *)

Definition set_demo_mode (v : DemoMode) (self : FormAnalyzer) : FormAnalyzer :=
  {| demo_mode := v; rep_state := self.(rep_state);
     last_rep_count := self.(last_rep_count);
     current_form_score := self.(current_form_score);
     current_feedback := self.(current_feedback);
     movement_history := self.(movement_history);
     last_rep_time := self.(last_rep_time);
     rep_durations := self.(rep_durations);
     range_of_motion := self.(range_of_motion); mode := self.(mode);
     step_count := self.(step_count);
     _last_step_time := self.(_last_step_time);
     _step_buffer := self.(_step_buffer);
     _last_metric_time := self.(_last_metric_time);
     latest_metrics := self.(latest_metrics);
     user_height_cm := self.(user_height_cm);
     user_weight_kg := self.(user_weight_kg); user_age := self.(user_age);
     _calories_accum := self.(_calories_accum);
     activity_model := self.(activity_model) |}.

Definition set_rep_state (v : RepState) (self : FormAnalyzer) : FormAnalyzer :=
  {| demo_mode := self.(demo_mode); rep_state := v;
     last_rep_count := self.(last_rep_count);
     current_form_score := self.(current_form_score);
     current_feedback := self.(current_feedback);
     movement_history := self.(movement_history);
     last_rep_time := self.(last_rep_time);
     rep_durations := self.(rep_durations);
     range_of_motion := self.(range_of_motion); mode := self.(mode);
     step_count := self.(step_count);
     _last_step_time := self.(_last_step_time);
     _step_buffer := self.(_step_buffer);
     _last_metric_time := self.(_last_metric_time);
     latest_metrics := self.(latest_metrics);
     user_height_cm := self.(user_height_cm);
     user_weight_kg := self.(user_weight_kg); user_age := self.(user_age);
     _calories_accum := self.(_calories_accum);
     activity_model := self.(activity_model) |}.

Definition set_form (score : Z) (feedback : list string) (self : FormAnalyzer)
  : FormAnalyzer :=
  {| demo_mode := self.(demo_mode); rep_state := self.(rep_state);
     last_rep_count := self.(last_rep_count);
     current_form_score := score;
     current_feedback := feedback;
     movement_history := self.(movement_history);
     last_rep_time := self.(last_rep_time);
     rep_durations := self.(rep_durations);
     range_of_motion := self.(range_of_motion); mode := self.(mode);
     step_count := self.(step_count);
     _last_step_time := self.(_last_step_time);
     _step_buffer := self.(_step_buffer);
     _last_metric_time := self.(_last_metric_time);
     latest_metrics := self.(latest_metrics);
     user_height_cm := self.(user_height_cm);
     user_weight_kg := self.(user_weight_kg); user_age := self.(user_age);
     _calories_accum := self.(_calories_accum);
     activity_model := self.(activity_model) |}.

Definition set_movement (history : list Movement) (rom : Q * Q)
  (self : FormAnalyzer) : FormAnalyzer :=
  {| demo_mode := self.(demo_mode); rep_state := self.(rep_state);
     last_rep_count := self.(last_rep_count);
     current_form_score := self.(current_form_score);
     current_feedback := self.(current_feedback);
     movement_history := history;
     last_rep_time := self.(last_rep_time);
     rep_durations := self.(rep_durations);
     range_of_motion := rom; mode := self.(mode);
     step_count := self.(step_count);
     _last_step_time := self.(_last_step_time);
     _step_buffer := self.(_step_buffer);
     _last_metric_time := self.(_last_metric_time);
     latest_metrics := self.(latest_metrics);
     user_height_cm := self.(user_height_cm);
     user_weight_kg := self.(user_weight_kg); user_age := self.(user_age);
     _calories_accum := self.(_calories_accum);
     activity_model := self.(activity_model) |}.

Definition set_rep_metrics (durations : list Q) (last : option Q) (rom : Q * Q)
  (self : FormAnalyzer) : FormAnalyzer :=
  {| demo_mode := self.(demo_mode); rep_state := self.(rep_state);
     last_rep_count := self.(last_rep_count);
     current_form_score := self.(current_form_score);
     current_feedback := self.(current_feedback);
     movement_history := self.(movement_history);
     last_rep_time := last;
     rep_durations := durations;
     range_of_motion := rom; mode := self.(mode);
     step_count := self.(step_count);
     _last_step_time := self.(_last_step_time);
     _step_buffer := self.(_step_buffer);
     _last_metric_time := self.(_last_metric_time);
     latest_metrics := self.(latest_metrics);
     user_height_cm := self.(user_height_cm);
     user_weight_kg := self.(user_weight_kg); user_age := self.(user_age);
     _calories_accum := self.(_calories_accum);
     activity_model := self.(activity_model) |}.

(** The fields [_process_activity_and_steps] assigns. *)
Definition set_analytics (buffer : list (Q * Q)) (last_step : option Q)
  (steps : Z) (last_metric : option Q) (calories : Q) (metrics : Metrics)
  (self : FormAnalyzer) : FormAnalyzer :=
  {| demo_mode := self.(demo_mode); rep_state := self.(rep_state);
     last_rep_count := self.(last_rep_count);
     current_form_score := self.(current_form_score);
     current_feedback := self.(current_feedback);
     movement_history := self.(movement_history);
     last_rep_time := self.(last_rep_time);
     rep_durations := self.(rep_durations);
     range_of_motion := self.(range_of_motion); mode := self.(mode);
     step_count := steps;
     _last_step_time := last_step;
     _step_buffer := buffer;
     _last_metric_time := last_metric;
     latest_metrics := metrics;
     user_height_cm := self.(user_height_cm);
     user_weight_kg := self.(user_weight_kg); user_age := self.(user_age);
     _calories_accum := calories;
     activity_model := self.(activity_model) |}.

(** [set_user_profile(height_cm, weight_kg, age)]: an argument left [None]
    keeps the field. *)
Definition set_user_profile (height_cm weight_kg : option Q) (age : option Z)
  (self : FormAnalyzer) : FormAnalyzer :=
  {| demo_mode := self.(demo_mode); rep_state := self.(rep_state);
     last_rep_count := self.(last_rep_count);
     current_form_score := self.(current_form_score);
     current_feedback := self.(current_feedback);
     movement_history := self.(movement_history);
     last_rep_time := self.(last_rep_time);
     rep_durations := self.(rep_durations);
     range_of_motion := self.(range_of_motion); mode := self.(mode);
     step_count := self.(step_count);
     _last_step_time := self.(_last_step_time);
     _step_buffer := self.(_step_buffer);
     _last_metric_time := self.(_last_metric_time);
     latest_metrics := self.(latest_metrics);
     user_height_cm := get height_cm self.(user_height_cm);
     user_weight_kg := get weight_kg self.(user_weight_kg);
     user_age := match age with Some a => a | None => self.(user_age) end;
     _calories_accum := self.(_calories_accum);
     activity_model := self.(activity_model) |}.

(** [set_mode(mode)]: any string other than ['normal'] and ['workout'] is
    ignored. *)
Definition set_mode (m : string) (self : FormAnalyzer) : FormAnalyzer :=
  let new_mode :=
    if String.eqb m "normal" then normal
    else if String.eqb m "workout" then workout
    else self.(mode) in
  {| demo_mode := self.(demo_mode); rep_state := self.(rep_state);
     last_rep_count := self.(last_rep_count);
     current_form_score := self.(current_form_score);
     current_feedback := self.(current_feedback);
     movement_history := self.(movement_history);
     last_rep_time := self.(last_rep_time);
     rep_durations := self.(rep_durations);
     range_of_motion := self.(range_of_motion); mode := new_mode;
     step_count := self.(step_count);
     _last_step_time := self.(_last_step_time);
     _step_buffer := self.(_step_buffer);
     _last_metric_time := self.(_last_metric_time);
     latest_metrics := self.(latest_metrics);
     user_height_cm := self.(user_height_cm);
     user_weight_kg := self.(user_weight_kg); user_age := self.(user_age);
     _calories_accum := self.(_calories_accum);
     activity_model := self.(activity_model) |}.

(** ** Rep detection and form scoring *)

(** The assignments of [DemoMode._update_heart_rate] (lines 207-225) in a
    call that returns.  On the first call ([last_beat_time] not yet set) line
    216 divides by the heart rate and raises at 0;
    [DemoMode_update_heart_rate] below is the call with that case. *)
Definition _update_heart_rate (clock : Q) (d : DemoMode) : DemoMode :=
  let base_rate := 70 in
  let exercise_intensity := Qabs d.(current_angle) / 90.0 in
  let fatigue_impact := d.(fatigue_factor) * 0.1 in
  let '(beat_time, interval) :=
    match d.(last_beat_time) with
    | None => (Some clock, Some (60.0 / d.(heart_rate)))
    | Some t => (Some t, d.(beat_interval))
    end in
  let target_hr := base_rate + (50 * exercise_intensity) + (10 * fatigue_impact) in
  let current_hr := d.(heart_rate) in
  let new_hr :=
    if current_hr <? target_hr then Qmin target_hr (current_hr + 2)
    else Qmax target_hr (current_hr - 1) in
  {| running := d.(running); current_angle := d.(current_angle);
     fatigue_factor := d.(fatigue_factor); heart_rate := new_hr;
     last_beat_time := beat_time; beat_interval := interval |}.

(** [_update_movement_history(pitch, roll)] *)
Definition _update_movement_history (clock : Q) (pitch roll : Q)
  (self : FormAnalyzer) : FormAnalyzer :=
  let history :=
    self.(movement_history) ++
      [{| m_pitch := pitch; m_roll := roll; m_timestamp := clock |}] in
  let history :=
    if (len history >? 20)%Z then tl history else history in
  let rom := self.(range_of_motion) in
  set_movement history (Qmin (fst rom) pitch, Qmax (snd rom) pitch) self.

(** [_update_rep_metrics(timestamp)] *)
Definition _update_rep_metrics (timestamp : Q) (self : FormAnalyzer)
  : FormAnalyzer :=
  let durations :=
    match self.(last_rep_time) with
    | Some last =>
        let duration := timestamp - last in
        let ds := self.(rep_durations) ++ [duration] in
        if (len ds >? 5)%Z then tl ds else ds
    | None => self.(rep_durations)
    end in
  set_rep_metrics durations (Some timestamp) (0, 0) self.

(** What an exercise analysis returns: [(score, feedback, rep_detected)]. *)
Definition Analysis : Type := Z * list string * bool.

(** [abs(movement_history[i+1]['pitch'] - movement_history[i]['pitch'])
     for i in range(len(movement_history) - 2)] *)
Definition pitch_changes (history : list Movement) : list Q :=
  let p (i : nat) := m_pitch (nth i history {| m_pitch := 0; m_roll := 0;
                                               m_timestamp := 0 |}) in
  map (fun i => Qabs (p (S i) - p i)) (seq 0 (List.length history - 2)).

(** [_analyze_bicep_curl(pitch, roll, sensor_data)] *)
Definition _analyze_bicep_curl (clock : Q) (self : FormAnalyzer)
  (pitch roll : Q) (sensor_data : option SensorData)
  : FormAnalyzer * Analysis :=
  let score := 100%Z in
  let feedback : list string := [] in
  let rep_detected := false in
  let sd_get (key : SensorData -> option Q) :=
    match sensor_data with Some d => get (key d) 0 | None => 0 end in
  let '(self, score, feedback, rep_detected) :=
    if RepState_eqb self.(rep_state) down && (pitch >? bicep_curl.min_curl) then
      let self := set_rep_state up self in
      let '(score, feedback) :=
        if pitch >? bicep_curl.max_curl then
          ((score - 15)%Z, feedback ++ ["⚠️ Too much curl - maintain control"%string])
        else if pitch >=? bicep_curl.target_curl then
          (100%Z, feedback ++ ["💪 Perfect curl height!"%string])
        else
          (85%Z, feedback ++ ["↑ Curl a bit higher"%string]) in
      let '(score, feedback) :=
        if truthy sensor_data && (Qabs (sd_get sd_gy) >? 200) then
          ((score - 15)%Z, feedback ++ ["⚠ Slower, control the curl"%string])
        else (score, feedback) in
      let '(score, feedback) :=
        if truthy sensor_data && (Qabs (sd_get sd_ax) >? 0.5) then
          ((score - 20)%Z, feedback ++ ["⚠ Reduce body swing"%string])
        else (score, feedback) in
      (self, score, feedback, rep_detected)
    else if RepState_eqb self.(rep_state) up && (pitch <? 20) then
      let self := set_rep_state down self in
      let rep_detected := true in
      let '(score, feedback) :=
        if pitch >? 5 then
          ((score - 10)%Z, feedback ++ ["↓ Extend arms fully"%string])
        else
          (score, feedback ++ ["✓ Good extension!"%string]) in
      let self := _update_rep_metrics clock self in
      (self, score, feedback, rep_detected)
    else (self, score, feedback, rep_detected) in
  let roll_threshold := bicep_curl.max_roll in
  let '(score, feedback) :=
    if Qabs roll >? roll_threshold then
      ((score - 20)%Z,
       feedback ++ [if roll >? 0 then "⚠ Keep right arm steady"%string
                    else "⚠ Keep left arm steady"%string])
    else (score, feedback) in
  let '(score, feedback) :=
    if (len self.(movement_history) >=? 3)%Z then
      let '(score, feedback) :=
        if max_list (pitch_changes self.(movement_history)) >? 20 then
          ((score - 10)%Z, feedback ++ ["⚠ Smooth out the movement"%string])
        else (score, feedback) in
      if (len self.(rep_durations) >=? 2)%Z then
        let avg_duration := sum (last_n 2 self.(rep_durations)) / 2 in
        if avg_duration <? bicep_curl.ideal_tempo - bicep_curl.tempo_range then
          ((score - 10)%Z, feedback ++ ["⚠ Slow down for better form"%string])
        else if avg_duration >? bicep_curl.ideal_tempo + bicep_curl.tempo_range then
          ((score - 5)%Z, feedback ++ ["⚠ Maintain steady pace"%string])
        else (score, feedback)
      else (score, feedback)
    else (score, feedback) in
  (self, (score, feedback, rep_detected)).

(** [_analyze_lateral_raise(pitch, roll, sensor_data)] *)
Definition _analyze_lateral_raise (clock : Q) (self : FormAnalyzer)
  (pitch roll : Q) (sensor_data : option SensorData)
  : FormAnalyzer * Analysis :=
  let score := 100%Z in
  let feedback : list string := [] in
  let rep_detected := false in
  let min_raise := lateral_raise.min_raise in
  let max_raise := lateral_raise.max_raise in
  let max_roll := lateral_raise.max_roll in
  let '(self, score, feedback, rep_detected) :=
    if RepState_eqb self.(rep_state) down && (pitch >? min_raise) then
      let self := set_rep_state up self in
      if pitch >? max_raise then
        (self, (score - 10)%Z,
         feedback ++ ["⚠️ Too high - control the raise"%string], rep_detected)
      else
        (self, score, feedback ++ ["✓ Good raise"%string], rep_detected)
    else if RepState_eqb self.(rep_state) up && (pitch <? min_raise) then
      let self := set_rep_state down self in
      let rep_detected := true in
      let self := _update_rep_metrics clock self in
      (self, score, feedback, rep_detected)
    else (self, score, feedback, rep_detected) in
  let '(score, feedback) :=
    if Qabs roll >? max_roll then
      ((score - 10)%Z, feedback ++ ["⚠ Keep wrist steady"%string])
    else (score, feedback) in
  (self, (score, feedback, rep_detected)).

(** [_analyze_shoulder_press(pitch, roll, sensor_data)] *)
Definition _analyze_shoulder_press (clock : Q) (self : FormAnalyzer)
  (pitch roll : Q) (sensor_data : option SensorData)
  : FormAnalyzer * Analysis :=
  let score := 100%Z in
  let feedback : list string := [] in
  let rep_detected := false in
  let min_press := shoulder_press.min_press in
  let max_press := shoulder_press.max_press in
  let max_roll := shoulder_press.max_roll in
  let '(self, score, feedback, rep_detected) :=
    if RepState_eqb self.(rep_state) down && (pitch >? min_press) then
      let self := set_rep_state up self in
      if pitch >? max_press then
        (self, (score - 10)%Z, feedback ++ ["⚠️ Overextension"%string],
         rep_detected)
      else
        (self, score, feedback ++ ["✓ Good press"%string], rep_detected)
    else if RepState_eqb self.(rep_state) up && (pitch <? min_press) then
      let self := set_rep_state down self in
      let rep_detected := true in
      let self := _update_rep_metrics clock self in
      (self, score, feedback, rep_detected)
    else (self, score, feedback, rep_detected) in
  let '(score, feedback) :=
    if Qabs roll >? max_roll then
      ((score - 12)%Z, feedback ++ ["⚠ Keep elbows steady"%string])
    else (score, feedback) in
  (self, (score, feedback, rep_detected)).

(** [_analyze_movement_tempo(sensor_data)]; [rep_state != 'rest'] holds for
    both values of [rep_state]. *)
Definition _analyze_movement_tempo (self : FormAnalyzer) (sensor_data : SensorData)
  : list string :=
  let feedback : list string := [] in
  if (len self.(movement_history) <? 2)%Z then feedback
  else
    let gy := Qabs (get sensor_data.(sd_gy) 0) in
    let feedback :=
      if gy >? 200 then
        feedback ++ ["⚠ Movement too fast - maintain control"%string]
      else if gy <? 50 then
        feedback ++ ["⚠ Movement too slow - maintain momentum"%string]
      else feedback in
    if is_some self.(last_rep_time) && (len self.(rep_durations) >? 0)%Z then
      let avg_duration := sum self.(rep_durations) / float (len self.(rep_durations)) in
      if avg_duration <? 1.5 then feedback ++ ["⚠ Slow down your reps"%string]
      else if avg_duration >? 4.0 then feedback ++ ["⚠ Speed up slightly"%string]
      else feedback
    else feedback.

(** [_analyze_stability()] *)
Definition _analyze_stability (self : FormAnalyzer) : Z * list string :=
  if (len self.(movement_history) <? 5)%Z then (100%Z, [])
  else
    let pitch_values := map m_pitch (last_n 5 self.(movement_history)) in
    let roll_values := map m_roll (last_n 5 self.(movement_history)) in
    let pitch_variance := np_var pitch_values in
    let roll_variance := np_var roll_values in
    let feedback : list string := [] in
    let score := 100%Z in
    let '(score, feedback) :=
      if pitch_variance >? 100 then
        ((score - 20)%Z,
         feedback ++ ["⚠ Stabilize your movement - too much variation"%string])
      else (score, feedback) in
    let '(score, feedback) :=
      if roll_variance >? 50 then
        ((score - 15)%Z,
         feedback ++ ["⚠ Keep your form steady - reduce swaying"%string])
      else (score, feedback) in
    (score, feedback).

(** ** Steps, activity and calories *)

(** [ts] (lines 766-776): the sample's timestamp when it has a usable one,
    else the clock.  A numeric [0] is falsy and falls back to the clock as
    well. *)
Definition sample_time (clock : Q) (sensor_data : SensorData) : Q :=
  match sensor_data.(sd_timestamp) with
  | Some (ts_number t) => if Qeq_bool t 0 then clock else t
  | Some (ts_iso t) => t
  | Some ts_unparsable => clock
  | None => clock
  end.

(** The 5-point local-maximum test on [recent_mags] (lines 812-817). *)
Definition is_peak (recent_mags : list Q) (threshold : Q) : bool :=
  let mid_idx := 2%nat in
  let r (i : nat) := nth i recent_mags 0 in
  (r mid_idx >? threshold) &&
  (r mid_idx >? r (mid_idx - 1)%nat) &&
  (r mid_idx >? r (mid_idx - 2)%nat) &&
  (r mid_idx >? r (mid_idx + 1)%nat) &&
  (r mid_idx >? r (mid_idx + 2)%nat).

(** The time constraint between steps (lines 820-829): what a candidate peak
    at [now] does to [(step_detected, _last_step_time, step_count)]. *)
Definition accept_peak (now : Q) (last_step_time : option Q) (count : Z)
  : bool * option Q * Z :=
  match last_step_time with
  | None => (true, Some now, count)
  | Some last =>
      let time_since_last := now - last in
      if (_min_step_interval <=? time_since_last) &&
         (time_since_last <=? _max_step_interval)
      then (true, Some now, (count + 1)%Z)
      else (false, Some last, count)
  end.

(** Cadence in steps per minute from the buffer (lines 831-835). *)
Definition cadence_of (buffer : list (Q * Q)) (now : Q) : Z :=
  let window_start := now - 10.0 in
  let steps_recent := filter (fun t => t >=? window_start) (map fst buffer) in
  let steps_in_window :=
    len (filter (fun t => t >=? window_start - 0.5) steps_recent) in
  (steps_in_window * 6)%Z.

(** [_simple_activity_classification(cadence_spm, acc_mag, gyro_mag)] *)
Definition _simple_activity_classification (cadence_spm : Z)
  (acc_mag gyro_mag : Q) : string * Q :=
  if (cadence_spm <? 20)%Z && (acc_mag <? 1.05) && (gyro_mag <? 80) then
    ("stationary"%string, 0.9)
  else if (cadence_spm >=? 80)%Z || ((gyro_mag >? 300) && (acc_mag >? 1.2)) then
    ("running"%string,
     Qmin 1.0 (0.5 + Qmax ((float cadence_spm - 80) / 120.0)
                          ((gyro_mag - 300) / 400.0)))
  else if (cadence_spm >=? 20)%Z || (acc_mag >? 1.05) || (gyro_mag >? 120) then
    ("walking"%string,
     Qmin 0.9 (0.3 + Qmax (float cadence_spm / 120.0) (acc_mag - 1.0)))
  else
    ("stationary"%string, 0.85).

(** The branch condition of line 907. *)
Definition use_heart_rate (hr minutes : Q) : bool :=
  (hr >? 0) && (hr <? 200) && (minutes >? 0).

(** The raw value of the heart-rate formula, in kcal per minute (line 911). *)
Definition hr_formula (hr weight_kg : Q) (age : Z) : Q :=
  (-55.0969 + 0.6309 * hr + 0.1988 * weight_kg + 0.2017 * float age) / 4.184.

(** [met] of the fallback branch (lines 925-929). *)
Definition met_of (activity : string) : Q :=
  if String.eqb activity "walking" then 3.5
  else if String.eqb activity "running" then 9.8
  else 1.0.

(** [calories_increment] (lines 906-935). *)
Definition calories_increment_of (hr : Q) (activity : string)
  (weight_kg : Q) (age : Z) (minutes : Q) : Q :=
  if use_heart_rate hr minutes then
    let calories_per_min := hr_formula hr weight_kg age in
    let calories_per_min :=
      if calories_per_min <? 0 then 0.0 else calories_per_min in
    calories_per_min * minutes
  else
    let met := met_of activity in
    met * weight_kg * (minutes / 60.0).

(** Elapsed minutes since the last processed sample (lines 900-904). *)
Definition elapsed_minutes (last_metric_time : option Q) (now : Q) : Q :=
  let last := match last_metric_time with None => now | Some t => t end in
  let dt := Qmax 0.0 (now - last) in
  if dt >? 0 then dt / 60.0 else 0.0.

Section Analytics.

Context {M : MathLib}.

(** [np.std] *)
Definition np_std (l : list Q) : Q := math_sqrt (np_var l).

(** [acc_magnitude] (lines 779-787) and [gyro_magnitude] (lines 845, 869). *)
Definition acc_magnitude_of (sensor_data : SensorData) : Q :=
  let ax := get sensor_data.(sd_ax) 0.0 in
  let ay := get sensor_data.(sd_ay) 0.0 in
  let az := get sensor_data.(sd_az) 0.0 in
  math_sqrt (ax * ax + ay * ay + az * az).

Definition gyro_magnitude_of (sensor_data : SensorData) : Q :=
  let gx := get sensor_data.(sd_gx) 0.0 in
  let gy := get sensor_data.(sd_gy) 0.0 in
  let gz := get sensor_data.(sd_gz) 0.0 in
  math_sqrt (gx * gx + gy * gy + gz * gz).

(** Whether the buffer the sample was appended to shows a candidate peak
    (lines 797-817). *)
Definition candidate_peak (buffer : list (Q * Q)) : bool :=
  if (len buffer >=? 5)%Z then
    let recent_mags := map snd (last_n 10 buffer) in
    let window_mags := map snd buffer in
    let mean_mag := np_mean window_mags in
    let std_mag := np_std window_mags in
    let threshold := mean_mag + Qmax 0.3 (1.5 * std_mag) in
    (len recent_mags >=? 5)%Z && is_peak recent_mags threshold
  else false.

(** Step detection (lines 793-829):
    [(step_detected, _last_step_time, step_count)]. *)
Definition detect_step (buffer : list (Q * Q)) (now : Q)
  (last_step_time : option Q) (count : Z) : bool * option Q * Z :=
  if candidate_peak buffer then accept_peak now last_step_time count
  else (false, last_step_time, count).

(** Activity classification before the idle override (lines 837-872). *)
Definition classify (self : FormAnalyzer) (sensor_data : SensorData)
  (cadence_spm : Z) : string * Q :=
  let acc_magnitude := acc_magnitude_of sensor_data in
  let gyro_magnitude := gyro_magnitude_of sensor_data in
  let heuristic :=
    _simple_activity_classification cadence_spm acc_magnitude gyro_magnitude in
  match self.(activity_model), self.(mode) with
  | Some model, normal =>
      let features :=
        [get sensor_data.(sd_ax) 0.0; get sensor_data.(sd_ay) 0.0;
         get sensor_data.(sd_az) 0.0; get sensor_data.(sd_gx) 0.0;
         get sensor_data.(sd_gy) 0.0; get sensor_data.(sd_gz) 0.0;
         acc_magnitude; gyro_magnitude] in
      match model.(predict) features with
      | Some prediction =>
          match model.(predict_proba) with
          | Some proba =>
              match proba features with
              | Some confidence => (lower prediction, confidence)
              | None => heuristic
              end
          | None => (lower prediction, 0.8)
          end
      | None => heuristic
      end
  | _, _ => heuristic
  end.

(** The idle override (lines 874-880). *)
Definition idle_override (cadence_spm : Z) (acc_magnitude gyro_magnitude : Q)
  (classified : string * Q) : string * Q :=
  if (cadence_spm <? 20)%Z && (acc_magnitude <? 1.05) && (gyro_magnitude <? 80)
  then ("stationary"%string, 0.9)
  else classified.

(** [_process_activity_and_steps(sensor_data)]; returns the new state, whose
    [latest_metrics] is the returned dictionary. *)
Definition _process_activity_and_steps (clock : Q) (self : FormAnalyzer)
  (sensor_data : SensorData) : FormAnalyzer :=
  let ts := sample_time clock sensor_data in
  let acc_magnitude := acc_magnitude_of sensor_data in
  let buffer :=
    deque_append _step_buffer_maxlen self.(_step_buffer) (ts, acc_magnitude) in
  let now := ts in
  let '(step_detected, last_step_time, count) :=
    detect_step buffer now self.(_last_step_time) self.(step_count) in
  let cadence_spm := cadence_of buffer now in
  let gyro_magnitude := gyro_magnitude_of sensor_data in
  let '(activity, confidence) :=
    idle_override cadence_spm acc_magnitude gyro_magnitude
      (classify self sensor_data cadence_spm) in
  let height_m := Qmax 0.5 (self.(user_height_cm) / 100.0) in
  let stride_m :=
    if String.eqb activity "running" then 0.65 * height_m
    else if String.eqb activity "walking" then 0.415 * height_m
    else 0.0 in
  let running_speed_m_s := (float cadence_spm / 60.0) * stride_m in
  let running_speed_kmh := running_speed_m_s * 3.6 in
  let hr := get sensor_data.(sd_heartRate) 0 in
  let minutes := elapsed_minutes self.(_last_metric_time) now in
  let calories_increment :=
    calories_increment_of hr activity self.(user_weight_kg) self.(user_age)
      minutes in
  let calories := self.(_calories_accum) + calories_increment in
  set_analytics buffer last_step_time count (Some now) calories
    {| stepCount := count;
       stepDetected := step_detected;
       activity := activity;
       activityConfidence := confidence;
       runningSpeedKmh := round running_speed_kmh 2;
       caloriesTotal := round calories 4 |}
    self.

(** [analyze(exercise, pitch, roll, sensor_data)] in a call that returns: the
    analyzer state and the triple it returns with.  The two statements that
    can raise before the dispatch are not in it: the division in the demo
    heart-rate update (line 216) and the mesh update (line 471), which raises
    for the exercise names ['squat'] and ['pushup'];
    [FormAnalyzer_analyze] below is the whole method.  The analytics call
    sits in a [try] whose handler does nothing; on the typed samples of this
    model nothing in it raises. *)
Definition analyze (clock : Q) (self : FormAnalyzer) (exercise : string)
  (pitch roll : Q) (sensor_data : option SensorData)
  : FormAnalyzer * Analysis :=
  let generate_heart_rate :=
    self.(demo_mode).(running) ||
    match sensor_data with
    | Some d => dict_truthy d && negb (is_some d.(sd_heartRate))
    | None => false
    end in
  let self :=
    if generate_heart_rate
    then set_demo_mode (_update_heart_rate clock self.(demo_mode)) self
    else self in
  let self := _update_movement_history clock pitch roll self in
  let dispatched : option (FormAnalyzer * Analysis) :=
    if String.eqb exercise "bicep_curl" then
      Some (_analyze_bicep_curl clock self pitch roll sensor_data)
    else if String.eqb exercise "lateral_raise" then
      Some (_analyze_lateral_raise clock self pitch roll sensor_data)
    else if String.eqb exercise "shoulder_press" then
      Some (_analyze_shoulder_press clock self pitch roll sensor_data)
    else if String.eqb exercise "running" then
      Some (self, (100%Z,
                   ["Running mode: use steps and heart rate metrics"%string],
                   false))
    else None in
  match dispatched with
  | None =>
      (self, (0%Z, ["Select a wrist-compatible exercise to begin"%string], false))
  | Some (self, (score, feedback, rep_detected)) =>
      let feedback :=
        match sensor_data with
        | Some d =>
            if dict_truthy d then feedback ++ _analyze_movement_tempo self d
            else feedback
        | None => feedback
        end in
      let '(stability_score, stability_feedback) := _analyze_stability self in
      let '(score, feedback) :=
        match stability_feedback with
        | [] => (score, feedback)
        | _ => (Z.min score stability_score, feedback ++ stability_feedback)
        end in
      let self := set_form score feedback self in
      let self :=
        match sensor_data with
        | Some d => _process_activity_and_steps clock self d
        | None => self
        end in
      (self, (score, feedback, rep_detected))
  end.

(** A session: the samples the server hands to the analytics path, each with
    the clock reading of its call. *)
Fixpoint process_all (self : FormAnalyzer) (samples : list (Q * SensorData))
  : FormAnalyzer :=
  match samples with
  | [] => self
  | (clock, d) :: rest =>
      process_all (_process_activity_and_steps clock self d) rest
  end.

(** The same session, keeping what each sample reported. *)
Fixpoint metrics_trace (self : FormAnalyzer) (samples : list (Q * SensorData))
  : list Metrics :=
  match samples with
  | [] => []
  | (clock, d) :: rest =>
      let self := _process_activity_and_steps clock self d in
      self.(latest_metrics) :: metrics_trace self rest
  end.

End Analytics.

(** A session of [analyze] calls for one exercise: each sample comes with the
    clock reading of its call; what each call returned, and the final state. *)
Fixpoint analyze_all {M : MathLib} (self : FormAnalyzer) (exercise : string)
  (samples : list (Q * Q * Q * option SensorData))
  : FormAnalyzer * list Analysis :=
  match samples with
  | [] => (self, [])
  | (clock, pitch, roll, sensor_data) :: rest =>
      let '(self, result) := analyze clock self exercise pitch roll sensor_data in
      let '(final, results) := analyze_all self exercise rest in
      (final, result :: results)
  end.

(** A session of direct [_analyze_bicep_curl] calls on [(pitch, roll)] pairs
    with no sensor dictionary: what each call returned. *)
Fixpoint bicep_trace (clock : Q) (self : FormAnalyzer) (angles : list (Q * Q))
  : list Analysis :=
  match angles with
  | [] => []
  | (pitch, roll) :: rest =>
      let '(self, result) := _analyze_bicep_curl clock self pitch roll None in
      result :: bicep_trace clock self rest
  end.

(** The components of an [Analysis]. *)
Definition score_of (r : Analysis) : Z := fst (fst r).
Definition feedback_of (r : Analysis) : list string := snd (fst r).
Definition rep_detected_of (r : Analysis) : bool := snd r.

(** ** Vocabulary of the statements *)

(** The signature the three exercise analyzers share. *)
Definition Analyzer : Type :=
  Q -> FormAnalyzer -> Q -> Q -> option SensorData -> FormAnalyzer * Analysis.

(** The phase test the three analyzers have in common, with the threshold
    [rise] of the [down -> up] test and [fall] of the [up -> down] test: the
    next [rep_state] and the rep flag. *)
Definition phase (rise fall : Q) (st : RepState) (pitch : Q) : RepState * bool :=
  if RepState_eqb st down && (pitch >? rise) then (up, false)
  else if RepState_eqb st up && (pitch <? fall) then (down, true)
  else (st, false).

(** An analyzer is a two-state rep machine on the thresholds [rise] and
    [fall]: [down -> up] above [rise], [up -> down] below [fall], and the rep
    flag is raised on the [up -> down] transition and on no other call. *)
Definition rep_machine (analyzer : Analyzer) (rise fall : Q) : Prop :=
  forall clock self pitch roll sensor_data,
    let r := analyzer clock self pitch roll sensor_data in
    (rep_state self = down -> rise < pitch -> rep_state (fst r) = up) /\
    (rep_state self = up -> pitch < fall -> rep_state (fst r) = down) /\
    (rep_detected_of (snd r) = true <->
     rep_state self = up /\ rep_state (fst r) = down).

(** Outside these two tests the state stays where it is. *)
Definition rep_machine_holds (analyzer : Analyzer) (rise fall : Q) : Prop :=
  forall clock self pitch roll sensor_data,
    let r := analyzer clock self pitch roll sensor_data in
    (rep_state self = down -> pitch <= rise -> rep_state (fst r) = down) /\
    (rep_state self = up -> fall <= pitch -> rep_state (fst r) = up).


(** The scenario of the spec for bicep curl: [(pitch, roll)] pairs. *)
Definition curl_angles : list (Q * Q) :=
  [(0, 0); (30, 0); (70, 0); (95, 0); (60, 0); (15, 0); (3, 0)].

(** The same scenario as [analyze] calls without a sensor dictionary, at the
    clock readings [c0 .. c6]. *)
Definition curl_samples (c0 c1 c2 c3 c4 c5 c6 : Q)
  : list (Q * Q * Q * option SensorData) :=
  [(c0, 0, 0, None); (c1, 30, 0, None); (c2, 70, 0, None); (c3, 95, 0, None);
   (c4, 60, 0, None); (c5, 15, 0, None); (c6, 3, 0, None)].

Definition perfect_curl_height : string := "💪 Perfect curl height!".

(** The result of a call that analysed nothing. *)
Definition no_analysis : Analysis := (0%Z, [], false).

(** The pitch of a sample handed to [analyze_all]. *)
Definition pitch_of (sample : Q * Q * Q * option SensorData) : Q :=
  snd (fst (fst sample)).

(** The buffered samples inside the trailing 10-second window ending at
    [now]. *)
Definition samples_in_window (buffer : list (Q * Q)) (now : Q) : list (Q * Q) :=
  filter (fun e => fst e >=? now - 10.0) buffer.

(** The times at which a session reported [stepDetected], in order. *)
Fixpoint accepted_times {M : MathLib} (self : FormAnalyzer)
  (samples : list (Q * SensorData)) : list Q :=
  match samples with
  | [] => []
  | (clock, d) :: rest =>
      let self' := _process_activity_and_steps clock self d in
      let later := accepted_times self' rest in
      if stepDetected (latest_metrics self')
      then sample_time clock d :: later
      else later
  end.

(** Consecutive times lie between 0.3 and 2.0 seconds apart. *)
Fixpoint refractory (times : list Q) : Prop :=
  match times with
  | a :: (b :: _) as later =>
      (_min_step_interval <= b - a /\ b - a <= _max_step_interval) /\
      refractory later
  | _ => True
  end.

(** [times] with the time of an earlier accepted step, if any, in front. *)
Definition after_step (last_step_time : option Q) (times : list Q) : list Q :=
  match last_step_time with
  | Some t => t :: times
  | None => times
  end.

(** A wrist at rest: gravity on one axis, no rotation, no heart-rate key,
    numeric timestamp [t]. *)
Definition at_rest (t : Q) : SensorData :=
  {| sd_ax := Some 0; sd_ay := Some 0; sd_az := Some 1;
     sd_gx := Some 0; sd_gy := Some 0; sd_gz := Some 0;
     sd_heartRate := None; sd_timestamp := Some (ts_number t);
     sd_other_keys := false |}.

(** Four samples at rest, 100 ms apart. *)
Definition rest_stream : list (Q * SensorData) :=
  [(1.0, at_rest 1.0); (1.1, at_rest 1.1); (1.2, at_rest 1.2);
   (1.3, at_rest 1.3)].

(** Acceleration magnitude [g] on one axis at time [t]. *)
Definition jolt (t g : Q) : SensorData :=
  {| sd_ax := Some 0; sd_ay := Some 0; sd_az := Some g;
     sd_gx := Some 0; sd_gy := Some 0; sd_gz := Some 0;
     sd_heartRate := None; sd_timestamp := Some (ts_number t);
     sd_other_keys := false |}.

(** One jolt of 2 g among samples at 1 g, half a second apart. *)
Definition jolt_stream : list (Q * SensorData) :=
  [(1.0, jolt 1.0 1); (1.5, jolt 1.5 1); (2.0, jolt 2.0 2);
   (2.5, jolt 2.5 1); (3.0, jolt 3.0 1); (3.5, jolt 3.5 1);
   (4.0, jolt 4.0 1)].

(** A classifier that answers "Running" with probability 0.99 on every
    sample. *)
Definition always_running : Classifier :=
  {| predict := fun _ => Some "Running"%string;
     predict_proba := Some (fun _ => Some 0.99) |}.

(** A wrist at rest at time [t] with a heart-rate reading [hr]. *)
Definition at_rest_with_pulse (t hr : Q) : SensorData :=
  {| sd_ax := Some 0; sd_ay := Some 0; sd_az := Some 1;
     sd_gx := Some 0; sd_gy := Some 0; sd_gz := Some 0;
     sd_heartRate := Some hr; sd_timestamp := Some (ts_number t);
     sd_other_keys := false |}.

(** ** The 3-D mesh ([HumanMesh]) *)

(** [math.sin], [math.cos] and [math.radians], as an interface like the
    square root. *)
Class TrigLib := {
  math_sin : Q -> Q;
  math_cos : Q -> Q;
  math_radians : Q -> Q
}.

(** The exceptions a call of [analyze] can end in: the mesh code raises the
    first two, the demo heart-rate update the third. *)
Inductive PyError := AttributeError | KeyError | ZeroDivisionError.

(** A call that returns a value or raises. *)
Inductive Result (A : Type) :=
| Ok (value : A)
| Raise (error : PyError).

Arguments Ok {A} value.
Arguments Raise {A} error.

Module HumanMesh.

Record Point3D := { x : Q; y : Q; z : Q }.

Record MeshJoint := {
  position : Point3D;
  name : string;
  children : list string
}.

(** [self.joints]: a dictionary, in insertion order. *)
Definition Joints : Type := list (string * MeshJoint).

Definition joint (px py pz : Q) (n : string) (c : list string) : MeshJoint :=
  {| position := {| x := px; y := py; z := pz |}; name := n; children := c |}.

(** The skeleton of [__init__] (lines 37-66). *)
Definition initial_joints : Joints :=
  [("hip", joint 0 0 0 "hip" ["spine"; "left_hip"; "right_hip"]);
   ("spine", joint 0 0.3 0 "spine" ["chest"]);
   ("chest", joint 0 0.5 0 "chest" ["neck"; "left_shoulder"; "right_shoulder"]);
   ("neck", joint 0 0.7 0 "neck" ["head"]);
   ("head", joint 0 0.85 0 "head" []);
   ("left_shoulder", joint (-0.2) 0.6 0 "left_shoulder" ["left_upper_arm"]);
   ("left_upper_arm", joint (-0.3) 0.5 0 "left_upper_arm" ["left_elbow"]);
   ("left_elbow", joint (-0.4) 0.3 0 "left_elbow" ["left_forearm"]);
   ("left_forearm", joint (-0.5) 0.25 0 "left_forearm" ["left_wrist"]);
   ("left_wrist", joint (-0.6) 0.2 0 "left_wrist" []);
   ("right_shoulder", joint 0.2 0.6 0 "right_shoulder" ["right_upper_arm"]);
   ("right_upper_arm", joint 0.3 0.5 0 "right_upper_arm" ["right_elbow"]);
   ("right_elbow", joint 0.4 0.3 0 "right_elbow" ["right_forearm"]);
   ("right_forearm", joint 0.5 0.25 0 "right_forearm" ["right_wrist"]);
   ("right_wrist", joint 0.6 0.2 0 "right_wrist" []);
   ("left_hip", joint (-0.1) 0 0 "left_hip" ["left_knee"]);
   ("right_hip", joint 0.1 0 0 "right_hip" ["right_knee"]);
   ("left_knee", joint (-0.15) (-0.25) 0 "left_knee" ["left_ankle"]);
   ("right_knee", joint 0.15 (-0.25) 0 "right_knee" ["right_ankle"]);
   ("left_ankle", joint (-0.15) (-0.5) 0 "left_ankle" []);
   ("right_ankle", joint 0.15 (-0.5) 0 "right_ankle" [])]%string.

(** [self.initial_positions]: the copy taken in [__init__], never assigned
    again. *)
Definition initial_positions : Joints := initial_joints.

(** [joints[key]] *)
Fixpoint lookup (key : string) (joints : Joints) : option MeshJoint :=
  match joints with
  | [] => None
  | (k, j) :: rest => if String.eqb k key then Some j else lookup key rest
  end.

(** [self.joints[key].position = p]; a missing key raises [KeyError]. *)
Fixpoint set_position (key : string) (p : Point3D) (joints : Joints)
  : Result Joints :=
  match joints with
  | [] => Raise KeyError
  | (k, j) :: rest =>
      if String.eqb k key then
        Ok ((k, {| position := p; name := j.(name);
                   children := j.(children) |}) :: rest)
      else
        match set_position key p rest with
        | Ok rest' => Ok ((k, j) :: rest')
        | Raise e => Raise e
        end
  end.

(** A sequence of position assignments; the first that raises ends it. *)
Fixpoint assign_all (updates : list (string * Point3D)) (joints : Joints)
  : Result Joints :=
  match updates with
  | [] => Ok joints
  | (key, p) :: rest =>
      match set_position key p joints with
      | Ok joints' => assign_all rest joints'
      | Raise e => Raise e
      end
  end.

(** [reset_positions()] *)
Definition reset_positions (joints : Joints) : Result Joints :=
  assign_all
    (map (fun e => (fst e,
                    {| x := (snd e).(position).(x);
                       y := (snd e).(position).(y);
                       z := (snd e).(position).(z) |}))
         initial_positions)
    joints.

(** [_update_bicep_curl(pitch_rad, roll_rad)] *)
Definition _update_bicep_curl {T : TrigLib} (pitch_rad roll_rad : Q)
  (joints : Joints) : Result Joints :=
  let elbow_height := 0.3 + 0.2 * math_sin pitch_rad in
  let wrist_height := 0.2 + 0.4 * math_sin pitch_rad in
  assign_all
    [("right_upper_arm"%string,
      {| x := 0.3 * math_cos roll_rad; y := 0.5;
         z := 0.1 * math_sin roll_rad |});
     ("right_elbow"%string,
      {| x := 0.4 * math_cos roll_rad; y := elbow_height;
         z := 0.15 * math_sin roll_rad |});
     ("right_forearm"%string,
      {| x := 0.5 * math_cos pitch_rad * math_cos roll_rad;
         y := (elbow_height + wrist_height) / 2;
         z := 0.2 * math_sin roll_rad |});
     ("right_wrist"%string,
      {| x := 0.6 * math_cos pitch_rad * math_cos roll_rad;
         y := wrist_height;
         z := 0.25 * math_sin roll_rad |});
     ("spine"%string,
      {| x := 0.02 * math_sin roll_rad; y := 0.3;
         z := 0.02 * math_cos roll_rad |})]
    joints.

(** [update_joint_positions(pitch, roll, exercise)].  The class defines
    neither [_update_squat] nor [_update_pushup]: looking either up raises
    [AttributeError]. *)
Definition update_joint_positions {T : TrigLib} (pitch roll : Q)
  (exercise : string) (joints : Joints) : Result Joints :=
  let pitch_rad := math_radians pitch in
  let roll_rad := math_radians roll in
  if String.eqb exercise "bicep_curl" then
    _update_bicep_curl pitch_rad roll_rad joints
  else if String.eqb exercise "squat" then Raise AttributeError
  else if String.eqb exercise "pushup" then Raise AttributeError
  else reset_positions joints.

(** What the mesh never assigns: the keys, in order, with the [name] and
    [children] of each joint. *)
Definition skeleton (joints : Joints) : list (string * string * list string) :=
  map (fun e => (fst e, (snd e).(name), (snd e).(children))) joints.

(** The joints [_update_bicep_curl] assigns. *)
Definition curl_joints : list string :=
  ["right_upper_arm"; "right_elbow"; "right_forearm"; "right_wrist";
   "spine"]%string.

End HumanMesh.

(** How a call of [analyze] ends: it returns, or a statement in front of the
    dispatch raises.  The analyzer state left behind is kept in both cases;
    the mesh only when the call returns. *)
Inductive AnalyzeOutcome :=
| Returned (self : FormAnalyzer) (mesh : HumanMesh.Joints) (result : Analysis)
| Raised (error : PyError) (self : FormAnalyzer).

(** [analyze] with its mesh, in a call whose demo heart-rate update returns.
    The mesh update reads and writes no field of the analyzer, so it is
    placed in front of [analyze]; when it raises, the only statement that has
    run is the demo heart-rate update of lines 465-468. *)
Definition analyze_with_mesh {M : MathLib} {T : TrigLib} (clock : Q)
  (self : FormAnalyzer) (mesh : HumanMesh.Joints) (exercise : string)
  (pitch roll : Q) (sensor_data : option SensorData) : AnalyzeOutcome :=
  match HumanMesh.update_joint_positions pitch roll exercise mesh with
  | Ok mesh' =>
      let '(self', result) :=
        analyze clock self exercise pitch roll sensor_data in
      Returned self' mesh' result
  | Raise e =>
      let generate_heart_rate :=
        self.(demo_mode).(running) ||
        match sensor_data with
        | Some d => dict_truthy d && negb (is_some d.(sd_heartRate))
        | None => false
        end in
      Raised e
        (if generate_heart_rate
         then set_demo_mode (_update_heart_rate clock self.(demo_mode)) self
         else self)
  end.

(** An instance of the trigonometry for evaluating examples: sine 0 and
    cosine 1 at every angle.  The theorems hold for every instance. *)
Definition FlatTrig : TrigLib :=
  {| math_sin := fun _ => 0; math_cos := fun _ => 1;
     math_radians := fun a => a * (355 / 113) / 180 |}.

(** The number of calls of a session that flagged a rep. *)
Definition rep_count_of (results : list Analysis) : nat :=
  List.length (filter rep_detected_of results).

(** The initial mesh after one bicep-curl update, at pitch 90 and roll 5. *)
Definition curled_joints : HumanMesh.Joints :=
  match HumanMesh.update_joint_positions (T := FlatTrig) 90 5 "bicep_curl"
          HumanMesh.initial_joints with
  | Ok mesh => mesh
  | Raise _ => []
  end.

(** The ["running"] branch of [analyze] (lines 483-487), as an analyzer. *)
Definition running_analyzer : Analyzer :=
  fun _ self _ _ _ =>
    (self, (100%Z, ["Running mode: use steps and heart rate metrics"%string],
            false)).

(** The analyzer [analyze] dispatches an exercise name to (lines 477-489). *)
Definition dispatch (exercise : string) : option Analyzer :=
  if String.eqb exercise "bicep_curl" then Some _analyze_bicep_curl
  else if String.eqb exercise "lateral_raise" then Some _analyze_lateral_raise
  else if String.eqb exercise "shoulder_press" then Some _analyze_shoulder_press
  else if String.eqb exercise "running" then Some running_analyzer
  else None.

(** The state the dispatched analyzer of [analyze] starts from: after the demo
    heart-rate update and the movement-history update (lines 465-474). *)
Definition before_dispatch (clock : Q) (self : FormAnalyzer) (pitch roll : Q)
  (sensor_data : option SensorData) : FormAnalyzer :=
  let generate_heart_rate :=
    self.(demo_mode).(running) ||
    match sensor_data with
    | Some d => dict_truthy d && negb (is_some d.(sd_heartRate))
    | None => false
    end in
  _update_movement_history clock pitch roll
    (if generate_heart_rate
     then set_demo_mode (_update_heart_rate clock self.(demo_mode)) self
     else self).

(** What the four dispatched analyzers have in common: they leave the
    movement history and the analytics fields alone; a flagged rep is an
    [up -> down] transition that records the rep ([_update_rep_metrics]); a
    call without a rep leaves the rep metrics alone; the score lies between
    [lowest] and 100. *)
Definition analyzer_contract (analyzer : Analyzer) (lowest : Z) : Prop :=
  forall clock self pitch roll sensor_data,
    let r := analyzer clock self pitch roll sensor_data in
    movement_history (fst r) = movement_history self /\
    (rep_detected_of (snd r) = true ->
     rep_state self = up /\ rep_state (fst r) = down /\
     rep_durations (fst r) = rep_durations (_update_rep_metrics clock self) /\
     last_rep_time (fst r) = Some clock /\
     range_of_motion (fst r) = (0, 0)) /\
    (rep_detected_of (snd r) = false ->
     rep_durations (fst r) = rep_durations self /\
     last_rep_time (fst r) = last_rep_time self /\
     range_of_motion (fst r) = range_of_motion self) /\
    (lowest <= score_of (snd r) <= 100)%Z /\
    (step_count (fst r) = step_count self /\
     _last_step_time (fst r) = _last_step_time self /\
     _step_buffer (fst r) = _step_buffer self /\
     _last_metric_time (fst r) = _last_metric_time self /\
     _calories_accum (fst r) = _calories_accum self /\
     latest_metrics (fst r) = latest_metrics self).

(** The entry of [movement_history] a sample of a session leaves. *)
Definition movement_of (sample : Q * Q * Q * option SensorData) : Movement :=
  {| m_pitch := pitch_of sample;
     m_roll := snd (fst sample);
     m_timestamp := fst (fst (fst sample)) |}.

(** The first call of a fresh bicep-curl session, at pitch 10: it flags a
    rep. *)
Definition first_curl_call : FormAnalyzer * Analysis :=
  analyze (M := ExactSquares) 1 (init None) "bicep_curl" 10 0 None.

(** A session of four bicep-curl samples with two reps. *)
Definition two_rep_session : list (Q * Q * Q * option SensorData) :=
  [(1, 10, 0, None); (2, 70, 0, None); (4, 10, 0, None); (5, 30, 0, None)].

(** The analyzer after the session [jolt_stream], whose last accepted step is
    at time 4.0. *)
Definition after_jolts : FormAnalyzer :=
  process_all (M := ExactSquares) (init None) jolt_stream.

(** Samples that come more than two seconds after time 4.0: a jolt of 3 g,
    then seven samples at 1 g. *)
Definition late_jolts : list (Q * SensorData) :=
  [(7.0, jolt 7.0 3); (7.5, jolt 7.5 1); (8.0, jolt 8.0 1);
   (8.5, jolt 8.5 1); (9.0, jolt 9.0 1); (9.5, jolt 9.5 1);
   (10.0, jolt 10.0 1); (10.5, jolt 10.5 1)].


(** ** The whole [analyze] method *)

(** How a call of [DemoMode._update_heart_rate] ends, with the demo state it
    leaves. *)
Inductive HeartRateUpdate :=
| hr_returned (d : DemoMode)
| hr_raised (error : PyError) (d : DemoMode).

(** [DemoMode._update_heart_rate] as a call (lines 207-225).  On the first
    call line 215 sets [last_beat_time] and line 216 divides 60.0 by the heart
    rate: at a heart rate of 0 the division raises, [beat_interval] stays
    unset and the heart rate is not assigned. *)
Definition DemoMode_update_heart_rate (clock : Q) (d : DemoMode)
  : HeartRateUpdate :=
  match d.(last_beat_time) with
  | None =>
      if Qeq_bool d.(heart_rate) 0 then
        hr_raised ZeroDivisionError
          {| running := d.(running); current_angle := d.(current_angle);
             fatigue_factor := d.(fatigue_factor);
             heart_rate := d.(heart_rate);
             last_beat_time := Some clock;
             beat_interval := d.(beat_interval) |}
      else hr_returned (_update_heart_rate clock d)
  | Some _ => hr_returned (_update_heart_rate clock d)
  end.

(** [FormAnalyzer.analyze] as a call (lines 458-514): the demo heart-rate
    update of lines 465-468 comes first and the mesh update of line 471
    second; either can raise, and what has been assigned by then stays. *)
Definition FormAnalyzer_analyze {M : MathLib} {T : TrigLib} (clock : Q)
  (self : FormAnalyzer) (mesh : HumanMesh.Joints) (exercise : string)
  (pitch roll : Q) (sensor_data : option SensorData) : AnalyzeOutcome :=
  let generate_heart_rate :=
    self.(demo_mode).(running) ||
    match sensor_data with
    | Some d => dict_truthy d && negb (is_some d.(sd_heartRate))
    | None => false
    end in
  let heart_rate_update :=
    if generate_heart_rate
    then DemoMode_update_heart_rate clock self.(demo_mode)
    else hr_returned self.(demo_mode) in
  match heart_rate_update with
  | hr_raised error d => Raised error (set_demo_mode d self)
  | hr_returned _ =>
      analyze_with_mesh clock self mesh exercise pitch roll sensor_data
  end.

(** The demo state of a fresh analyzer ([DemoMode.__init__]). *)
Definition fresh_demo : DemoMode := demo_mode (init None).

(** A demo state that has not been updated yet and whose heart rate is 0. *)
Definition flat_demo : DemoMode :=
  {| running := true; current_angle := 0; fatigue_factor := 0;
     heart_rate := 0; last_beat_time := None; beat_interval := None |}.

(** ** The classifier in a session *)

(** The assignment to [self.activity_model] ([_load_activity_model], lines
    444-456). *)
Definition set_activity_model (model : option Classifier)
  (self : FormAnalyzer) : FormAnalyzer :=
  {| demo_mode := self.(demo_mode); rep_state := self.(rep_state);
     last_rep_count := self.(last_rep_count);
     current_form_score := self.(current_form_score);
     current_feedback := self.(current_feedback);
     movement_history := self.(movement_history);
     last_rep_time := self.(last_rep_time);
     rep_durations := self.(rep_durations);
     range_of_motion := self.(range_of_motion); mode := self.(mode);
     step_count := self.(step_count);
     _last_step_time := self.(_last_step_time);
     _step_buffer := self.(_step_buffer);
     _last_metric_time := self.(_last_metric_time);
     latest_metrics := self.(latest_metrics);
     user_height_cm := self.(user_height_cm);
     user_weight_kg := self.(user_weight_kg); user_age := self.(user_age);
     _calories_accum := self.(_calories_accum);
     activity_model := model |}.

(** The feature row handed to the classifier (line 846). *)
Definition features_of {M : MathLib} (sensor_data : SensorData) : list Q :=
  [get sensor_data.(sd_ax) 0.0; get sensor_data.(sd_ay) 0.0;
   get sensor_data.(sd_az) 0.0; get sensor_data.(sd_gx) 0.0;
   get sensor_data.(sd_gy) 0.0; get sensor_data.(sd_gz) 0.0;
   acc_magnitude_of sensor_data; gyro_magnitude_of sensor_data].

(** The classifier raises on a sample: in [predict], or in [predict_proba]
    when it has one (the [except] of line 860 catches both). *)
Definition classifier_raises {M : MathLib} (model : Classifier)
  (sensor_data : SensorData) : Prop :=
  model.(predict) (features_of sensor_data) = None \/
  exists proba, model.(predict_proba) = Some proba /\
                proba (features_of sensor_data) = None.

(** The analyzer does not consult its classifier on a sample: it has none, it
    is in workout mode, or the classifier raises. *)
Definition classifier_silent {M : MathLib} (self : FormAnalyzer)
  (sensor_data : SensorData) : Prop :=
  match self.(activity_model) with
  | None => True
  | Some model =>
      self.(mode) = workout \/ classifier_raises model sensor_data
  end.

(** A classifier whose [predict] raises on every sample. *)
Definition broken_model : Classifier :=
  {| predict := fun _ => None; predict_proba := None |}.

(** ** Movement histories for the stability score *)

(** A movement-history entry at clock reading 0. *)
Definition movement_at (pitch roll : Q) : Movement :=
  {| m_pitch := pitch; m_roll := roll; m_timestamp := 0 |}.

(** A fresh analyzer with the given movement history. *)
Definition with_history (history : list Movement) : FormAnalyzer :=
  set_movement history (0, 0) (init None).

(** Five entries whose pitch swings between 0 and 40 at a steady roll. *)
Definition swinging_history : list Movement :=
  [movement_at 0 2; movement_at 40 2; movement_at 0 2; movement_at 40 2;
   movement_at 0 2].

(** * Properties *)

(** ** Boolean comparisons on rationals *)

Lemma Qltb_lt (x y : Q) : (x <? y) = true <-> x < y.
Proof.
  unfold Qltb. rewrite negb_true_iff, <- not_true_iff_false, Qle_bool_iff.
  split; [apply Qnot_le_lt | apply Qlt_not_le].
Qed.

Lemma Qltb_ge (x y : Q) : (x <? y) = false <-> y <= x.
Proof.
  unfold Qltb. rewrite negb_false_iff. apply Qle_bool_iff.
Qed.

Lemma Qgtb_gt (x y : Q) : (x >? y) = true <-> y < x.
Proof. apply Qltb_lt. Qed.

Lemma Qgtb_le (x y : Q) : (x >? y) = false <-> x <= y.
Proof. apply Qltb_ge. Qed.

Lemma Qgeb_ge (x y : Q) : (x >=? y) = true <-> y <= x.
Proof. apply Qle_bool_iff. Qed.

Lemma Qleb_gt (x y : Q) : (x <=? y) = false <-> y < x.
Proof.
  rewrite <- not_true_iff_false, Qle_bool_iff.
  split; [apply Qnot_le_lt | apply Qlt_not_le].
Qed.

(** Turns the boolean tests among the hypotheses into order facts. *)
Ltac order_facts :=
  repeat match goal with
  | H : (_ && _) = true |- _ => apply andb_true_iff in H; destruct H
  | H : (_ <? _) = true |- _ => apply Qltb_lt in H
  | H : (_ <? _) = false |- _ => apply Qltb_ge in H
  | H : (_ >? _) = true |- _ => apply Qgtb_gt in H
  | H : (_ >? _) = false |- _ => apply Qgtb_le in H
  | H : (_ >=? _) = true |- _ => apply Qgeb_ge in H
  | H : (_ <=? _) = true |- _ => apply Qle_bool_iff in H
  | H : (_ <=? _) = false |- _ => apply Qleb_gt in H
  end.

(** ** The rep state machines *)

(** The fields the spec calls the rep state survive every assignment that is
    not a rep transition. *)
Lemma _update_rep_metrics_rep_state (t : Q) (self : FormAnalyzer) :
  rep_state (_update_rep_metrics t self) = rep_state self.
Proof. reflexivity. Qed.

Lemma _analyze_bicep_curl_phase clock self pitch roll sensor_data :
  let r := _analyze_bicep_curl clock self pitch roll sensor_data in
  (rep_state (fst r), rep_detected_of (snd r)) =
  phase bicep_curl.min_curl 20 (rep_state self) pitch.
Proof.
  unfold _analyze_bicep_curl, phase, rep_detected_of.
  destruct (RepState_eqb (rep_state self) down && (pitch >? bicep_curl.min_curl)).
  - repeat match goal with
           | |- context [if ?c then _ else _] => destruct c
           end; reflexivity.
  - destruct (RepState_eqb (rep_state self) up && (pitch <? 20)).
    + repeat match goal with
             | |- context [if ?c then _ else _] => destruct c
             end; reflexivity.
    + repeat match goal with
             | |- context [if ?c then _ else _] => destruct c
             end; reflexivity.
Qed.

Lemma _analyze_lateral_raise_phase clock self pitch roll sensor_data :
  let r := _analyze_lateral_raise clock self pitch roll sensor_data in
  (rep_state (fst r), rep_detected_of (snd r)) =
  phase lateral_raise.min_raise lateral_raise.min_raise (rep_state self) pitch.
Proof.
  unfold _analyze_lateral_raise, phase, rep_detected_of.
  repeat match goal with
         | |- context [if ?c then _ else _] => destruct c
         end; reflexivity.
Qed.

Lemma _analyze_shoulder_press_phase clock self pitch roll sensor_data :
  let r := _analyze_shoulder_press clock self pitch roll sensor_data in
  (rep_state (fst r), rep_detected_of (snd r)) =
  phase shoulder_press.min_press shoulder_press.min_press (rep_state self) pitch.
Proof.
  unfold _analyze_shoulder_press, phase, rep_detected_of.
  repeat match goal with
         | |- context [if ?c then _ else _] => destruct c
         end; reflexivity.
Qed.

Lemma phase_rep_machine (analyzer : Analyzer) (rise fall : Q) :
  (forall clock self pitch roll sensor_data,
      let r := analyzer clock self pitch roll sensor_data in
      (rep_state (fst r), rep_detected_of (snd r)) =
      phase rise fall (rep_state self) pitch) ->
  rep_machine analyzer rise fall /\ rep_machine_holds analyzer rise fall.
Proof.
  intros Hphase; split; intros clock self pitch roll sensor_data r;
    specialize (Hphase clock self pitch roll sensor_data);
    cbv zeta in Hphase; fold r in Hphase; unfold phase in Hphase;
    destruct (rep_state self); cbn [RepState_eqb andb] in Hphase;
    try (destruct (pitch >? rise) eqn:Hrise);
    try (destruct (pitch <? fall) eqn:Hfall);
    injection Hphase as Hst Hrep; rewrite ?Hst, ?Hrep; order_facts;
    repeat split; intros; try congruence;
    try (exfalso; lra);
    try (match goal with H : _ /\ _ |- _ => destruct H; congruence end).
Qed.

(** C2, as amended: lateral raise and shoulder press switch [down -> up] above
    their lower threshold (20 and 30 degrees) and [up -> down] below that
    same threshold; bicep curl switches [down -> up] above [min_curl] (60) but
    [up -> down] below the fixed angle 20.  In all three the rep flag is raised
    exactly on the [up -> down] transition, and the state does not move
    otherwise. *)
Theorem rep_machines_thresholds :
  (rep_machine _analyze_bicep_curl bicep_curl.min_curl 20 /\
   rep_machine_holds _analyze_bicep_curl bicep_curl.min_curl 20) /\
  (rep_machine _analyze_lateral_raise
     lateral_raise.min_raise lateral_raise.min_raise /\
   rep_machine_holds _analyze_lateral_raise
     lateral_raise.min_raise lateral_raise.min_raise) /\
  (rep_machine _analyze_shoulder_press
     shoulder_press.min_press shoulder_press.min_press /\
   rep_machine_holds _analyze_shoulder_press
     shoulder_press.min_press shoulder_press.min_press).
Proof.
  split; [| split].
  - apply phase_rep_machine, _analyze_bicep_curl_phase.
  - apply phase_rep_machine, _analyze_lateral_raise_phase.
  - apply phase_rep_machine, _analyze_shoulder_press_phase.
Qed.

(** C2 as stated fails for bicep curl: no single threshold serves both of its
    transitions.  From [down], pitch 60 does not switch to [up]; from [up],
    pitch 20 does not switch to [down]. *)
Lemma bicep_curl_no_common_threshold :
  ~ exists L : Q, rep_machine _analyze_bicep_curl L L.
Proof.
  intros [L HL].
  destruct (Qlt_le_dec L 60) as [Hlt | Hge].
  - destruct (HL 0 (set_rep_state down (init None)) 60 0 None) as [Hup _].
    specialize (Hup eq_refl Hlt). vm_compute in Hup. discriminate.
  - destruct (HL 0 (init None) 20 0 None) as [_ [Hdown _]].
    assert (H20 : 20 < L) by lra.
    specialize (Hdown eq_refl H20). vm_compute in Hdown. discriminate.
Qed.

(** ** The bicep-curl scenario *)

(** C5 as stated fails on a freshly constructed analyzer: the rep flag is not
    raised on the 6th sample alone (the 1st sample raises it too), and the
    feedback of the peak sample (95) has no curl-height tag. *)
Lemma curl_scenario_as_stated_fails :
  let t := bicep_trace 0 (init None) curl_angles in
  ~ (forall i : nat,
        rep_detected_of (nth i t no_analysis) = true <-> i = 5%nat) /\
  ~ In perfect_curl_height (feedback_of (nth 3 t no_analysis)).
Proof.
  cbv zeta; split.
  - intros H. destruct (H 0%nat) as [H0 _].
    vm_compute in H0. specialize (H0 eq_refl). discriminate.
  - vm_compute. intros [].
Qed.

(** C5, as amended: on a fresh analyzer the scenario raises the rep flag on the
    1st sample (pitch 0: the initial state is [up]) and on the 6th (15), and
    on no other; the curl-height feedback is issued on the sample that
    switches [down -> up] (the 3rd, 70: "Curl a bit higher"), so the peak
    sample (95) carries no "Perfect curl height" tag.  The same flags come
    out of [analyze], whose feedback never holds that tag either. *)
Theorem curl_scenario :
  (forall clock,
      let t := bicep_trace clock (init None) curl_angles in
      map rep_detected_of t = [true; false; false; false; false; true; false] /\
      map feedback_of t =
        [["✓ Good extension!"%string]; []; ["↑ Curl a bit higher"%string];
         []; []; ["↓ Extend arms fully"%string]; []]) /\
  (forall (M : MathLib) model c0 c1 c2 c3 c4 c5 c6,
      let t := snd (analyze_all (init model) "bicep_curl"
                      (curl_samples c0 c1 c2 c3 c4 c5 c6)) in
      map rep_detected_of t = [true; false; false; false; false; true; false] /\
      Forall (fun r => ~ In perfect_curl_height (feedback_of r)) t).
Proof.
  split.
  - intros clock; split; vm_compute; reflexivity.
  - intros M model c0 c1 c2 c3 c4 c5 c6; split.
    + vm_compute; reflexivity.
    + vm_compute.
      repeat (constructor; [intros H; repeat destruct H as [H | H];
                            try discriminate H; try contradiction |]).
      constructor.
Qed.

(** ** [analyze] and the rep state *)

Section AnalyzeRepState.

Context {M : MathLib}.

(** The analytics path assigns none of the rep-state fields. *)
Lemma _process_activity_and_steps_rep_fields clock self d :
  let self' := _process_activity_and_steps clock self d in
  rep_state self' = rep_state self /\
  rep_durations self' = rep_durations self /\
  last_rep_time self' = last_rep_time self.
Proof.
  unfold _process_activity_and_steps.
  destruct (detect_step _ _ _ _) as [[step_detected last_step] count].
  destruct (idle_override _ _ _ _) as [activity confidence].
  cbn. auto.
Qed.

(** Through [analyze], bicep curl keeps the phase logic of its analyzer. *)
Lemma analyze_bicep_curl_phase clock self pitch roll sensor_data :
  let r := analyze clock self "bicep_curl" pitch roll sensor_data in
  (rep_state (fst r), rep_detected_of (snd r)) =
  phase bicep_curl.min_curl 20 (rep_state self) pitch.
Proof.
  unfold analyze. cbn [String.eqb Ascii.eqb Bool.eqb].
  set (self1 := _update_movement_history clock pitch roll _).
  assert (Hst : rep_state self1 = rep_state self).
  { unfold self1. destruct (_ || _); reflexivity. }
  pose proof (_analyze_bicep_curl_phase clock self1 pitch roll sensor_data)
    as Hphase.
  cbv zeta in Hphase. rewrite Hst in Hphase.
  destruct (_analyze_bicep_curl clock self1 pitch roll sensor_data)
    as [self2 [[score feedback] rep]].
  cbn [fst snd] in Hphase. rewrite <- Hphase.
  destruct (_analyze_stability self2) as [stability_score stability_feedback].
  destruct stability_feedback; destruct sensor_data as [d |]; cbn [fst snd];
    unfold rep_detected_of; cbn [fst snd];
    try (destruct (_process_activity_and_steps_rep_fields clock
                     (set_form score
                        (if dict_truthy d
                         then feedback ++ _analyze_movement_tempo self2 d
                         else feedback) self2) d) as [-> _]);
    try (destruct (_process_activity_and_steps_rep_fields clock
                     (set_form (Z.min score stability_score)
                        ((if dict_truthy d
                          then feedback ++ _analyze_movement_tempo self2 d
                          else feedback) ++ s :: stability_feedback) self2) d)
           as [-> _]);
    reflexivity.
Qed.

End AnalyzeRepState.

Section Sessions.

Context {M : MathLib}.

Lemma analyze_all_bicep_curl_stays_up self prefix :
  rep_state self = up ->
  Forall (fun s => 20 <= pitch_of s) prefix ->
  rep_state (fst (analyze_all self "bicep_curl" prefix)) = up /\
  Forall (fun r => rep_detected_of r = false)
    (snd (analyze_all self "bicep_curl" prefix)).
Proof.
  revert self.
  induction prefix as [| [[[clock pitch] roll] sensor_data] rest IH];
    intros self Hup Hall.
  - cbn. auto.
  - inversion Hall as [| ? ? Hpitch Hrest]; subst. unfold pitch_of in Hpitch.
    cbn [fst snd] in Hpitch.
    pose proof (analyze_bicep_curl_phase clock self pitch roll sensor_data)
      as Hphase.
    cbv zeta in Hphase. unfold phase in Hphase. rewrite Hup in Hphase.
    cbn [RepState_eqb andb] in Hphase.
    apply Qltb_ge in Hpitch. rewrite Hpitch in Hphase.
    cbn [analyze_all].
    destruct (analyze clock self "bicep_curl" pitch roll sensor_data)
      as [self1 result].
    cbn [fst snd] in Hphase. injection Hphase as Hst Hrep.
    destruct (IH self1 Hst Hrest) as [IHst IHreps].
    destruct (analyze_all self1 "bicep_curl" rest) as [final results].
    cbn [fst snd] in *. split; [assumption | constructor; assumption].
Qed.

(** C9: a fresh analyzer starts in state [up].  In a bicep-curl session, as
    long as no sample has had a pitch below 20 the state is still [up] (so no
    [down -> up] transition has taken place) and no rep has been flagged; the
    first sample whose pitch is below 20 then raises the rep flag. *)
Theorem fresh_session_first_low_pitch_is_a_rep
  model prefix clock pitch roll sensor_data :
  Forall (fun s => 20 <= pitch_of s) prefix ->
  pitch < 20 ->
  let before := analyze_all (init model) "bicep_curl" prefix in
  rep_state (init model) = up /\
  (forall n : nat,
      rep_state (fst (analyze_all (init model) "bicep_curl" (firstn n prefix)))
      = up) /\
  Forall (fun r => rep_detected_of r = false) (snd before) /\
  rep_detected_of
    (snd (analyze clock (fst before) "bicep_curl" pitch roll sensor_data))
  = true.
Proof.
  intros Hall Hlow before.
  split; [reflexivity |]. split; [| split].
  - intros n. apply analyze_all_bicep_curl_stays_up; [reflexivity |].
    rewrite <- (firstn_skipn n prefix) in Hall.
    apply Forall_app in Hall. tauto.
  - apply analyze_all_bicep_curl_stays_up; [reflexivity | assumption].
  - pose proof (analyze_bicep_curl_phase clock (fst before) pitch roll
                  sensor_data) as Hphase.
    cbv zeta in Hphase. unfold phase in Hphase.
    assert (Hup : rep_state (fst before) = up).
    { apply analyze_all_bicep_curl_stays_up; [reflexivity | assumption]. }
    rewrite Hup in Hphase. cbn [RepState_eqb andb] in Hphase.
    apply Qltb_lt in Hlow. rewrite Hlow in Hphase.
    injection Hphase as _ Hrep. exact Hrep.
Qed.

(** The [else] branch of the dispatch (lines 488-489): score 0, the single tag
    and no rep; [rep_state], [rep_durations] and [last_rep_time] are as they
    were. *)
Lemma analyze_else_branch
  clock self exercise pitch roll sensor_data :
  exercise <> "bicep_curl"%string ->
  exercise <> "lateral_raise"%string ->
  exercise <> "shoulder_press"%string ->
  exercise <> "running"%string ->
  let r := analyze clock self exercise pitch roll sensor_data in
  snd r = (0%Z, ["Select a wrist-compatible exercise to begin"%string], false) /\
  rep_state (fst r) = rep_state self /\
  rep_durations (fst r) = rep_durations self /\
  last_rep_time (fst r) = last_rep_time self.
Proof.
  intros H1 H2 H3 H4.
  apply String.eqb_neq in H1, H2, H3, H4.
  unfold analyze. rewrite H1, H2, H3, H4. cbn [fst snd].
  destruct (_ || _); cbn; auto.
Qed.

End Sessions.

Lemma fresh_session_first_low_pitch_is_a_rep_witness :
  let prefix := [(1, 45, 0, None); (2, 30, 5, None)] in
  Forall (fun s => 20 <= pitch_of s) prefix /\
  10 < 20 /\
  rep_detected_of
    (snd (analyze (M := ExactSquares) 3
            (fst (analyze_all (M := ExactSquares) (init None) "bicep_curl"
                    prefix))
            "bicep_curl" 10 0 None))
  = true.
Proof.
  assert (Hall : Forall (fun s => 20 <= pitch_of s)
                   [(1, 45, 0, None); (2, 30, 5, None)]).
  { repeat constructor; vm_compute; discriminate. }
  assert (Hlow : 10 < 20) by reflexivity.
  split; [exact Hall | split; [exact Hlow |]].
  exact (proj2 (proj2 (proj2
    (fresh_session_first_low_pitch_is_a_rep (M := ExactSquares) None
       [(1, 45, 0, None); (2, 30, 5, None)] 3 10 0 None Hall Hlow)))).
Defined.

(** ** The analytics path, field by field *)

Section ProcessFields.

Context {M : MathLib}.

Variables (clock : Q) (self : FormAnalyzer) (d : SensorData).

Let now := sample_time clock d.
Let buffer :=
  deque_append _step_buffer_maxlen (_step_buffer self) (now, acc_magnitude_of d).
Let self' := _process_activity_and_steps clock self d.
Let detected := detect_step buffer now (_last_step_time self) (step_count self).
Let cadence_spm := cadence_of buffer now.
Let classified :=
  idle_override cadence_spm (acc_magnitude_of d) (gyro_magnitude_of d)
    (classify self d cadence_spm).

Lemma process_steps :
  _step_buffer self' = buffer /\
  stepDetected (latest_metrics self') = fst (fst detected) /\
  _last_step_time self' = snd (fst detected) /\
  step_count self' = snd detected /\
  stepCount (latest_metrics self') = snd detected.
Proof.
  unfold self', _process_activity_and_steps.
  fold now. fold buffer. fold detected.
  destruct detected as [[step_detected last_step] count].
  destruct (idle_override _ _ _ _) as [activity confidence].
  cbn. auto.
Qed.

Lemma process_activity :
  activity (latest_metrics self') = fst classified /\
  activityConfidence (latest_metrics self') = snd classified.
Proof.
  unfold self', _process_activity_and_steps.
  fold now. fold buffer. fold cadence_spm. fold classified.
  destruct (detect_step _ _ _ _) as [[step_detected last_step] count].
  destruct classified as [activity confidence].
  cbn. auto.
Qed.

Lemma process_calories :
  _calories_accum self' =
    _calories_accum self +
    calories_increment_of (get (sd_heartRate d) 0) (fst classified)
      (user_weight_kg self) (user_age self)
      (elapsed_minutes (_last_metric_time self) now) /\
  _last_metric_time self' = Some now /\
  user_weight_kg self' = user_weight_kg self /\
  user_age self' = user_age self.
Proof.
  unfold self', _process_activity_and_steps.
  fold now. fold buffer. fold cadence_spm. fold classified.
  destruct (detect_step _ _ _ _) as [[step_detected last_step] count].
  destruct classified as [activity confidence].
  cbn. auto.
Qed.

End ProcessFields.

(** ** Step counting *)

Lemma accept_peak_cases now last count :
  (last = None /\ accept_peak now last count = (true, Some now, count)) \/
  (exists l, last = Some l /\
             _min_step_interval <= now - l /\ now - l <= _max_step_interval /\
             accept_peak now last count = (true, Some now, (count + 1)%Z)) \/
  (exists l, last = Some l /\
             accept_peak now last count = (false, last, count)).
Proof.
  unfold accept_peak. destruct last as [l |]; [| left; auto].
  right.
  destruct ((_min_step_interval <=? now - l) &&
            (now - l <=? _max_step_interval)) eqn:Hwin.
  - left. exists l. order_facts. auto.
  - right. exists l. auto.
Qed.

Section Steps.

Context {M : MathLib}.

Lemma detect_step_cases buffer now last count :
  ((candidate_peak buffer = false \/ exists l, last = Some l) /\
   detect_step buffer now last count = (false, last, count)) \/
  (candidate_peak buffer = true /\ last = None /\
   detect_step buffer now last count = (true, Some now, count)) \/
  (exists l, candidate_peak buffer = true /\ last = Some l /\
             _min_step_interval <= now - l /\ now - l <= _max_step_interval /\
             detect_step buffer now last count = (true, Some now, (count + 1)%Z)).
Proof.
  unfold detect_step. destruct (candidate_peak buffer); [| left; auto].
  destruct (accept_peak_cases now last count)
    as [[Hnone Heq] | [[l (Hl & Hlo & Hhi & Heq)] | [l (Hl & Heq)]]].
  - right; left. auto.
  - right; right. exists l. auto.
  - left. split; [right; exists l; assumption | exact Heq].
Qed.

(** What one sample does to the step state: nothing (no candidate peak, or
    one outside the time window of an earlier step), a first accepted step,
    or a counted step. *)
Lemma process_step_cases clock self d :
  let self' := _process_activity_and_steps clock self d in
  let now := sample_time clock d in
  ((candidate_peak (_step_buffer self') = false \/
    exists last, _last_step_time self = Some last) /\
   stepDetected (latest_metrics self') = false /\
   _last_step_time self' = _last_step_time self /\
   step_count self' = step_count self) \/
  (candidate_peak (_step_buffer self') = true /\
   _last_step_time self = None /\
   stepDetected (latest_metrics self') = true /\
   _last_step_time self' = Some now /\
   step_count self' = step_count self) \/
  (exists last,
      candidate_peak (_step_buffer self') = true /\
      _last_step_time self = Some last /\
      _min_step_interval <= now - last /\ now - last <= _max_step_interval /\
      stepDetected (latest_metrics self') = true /\
      _last_step_time self' = Some now /\
      step_count self' = (step_count self + 1)%Z).
Proof.
  intros self' now.
  destruct (process_steps clock self d) as (Hbuf & Hdet & Hlast & Hcount & _).
  fold self' in Hbuf, Hdet, Hlast, Hcount. fold now in Hbuf, Hdet, Hlast, Hcount.
  rewrite Hbuf, Hdet, Hlast, Hcount.
  destruct (detect_step_cases
              (deque_append _step_buffer_maxlen (_step_buffer self)
                 (now, acc_magnitude_of d))
              now (_last_step_time self) (step_count self))
    as [[Hwhy Heq] | [(Hpeak & Hnone & Heq) | [l (Hpeak & Hl & Hlo & Hhi & Heq)]]];
    rewrite Heq; cbn [fst snd].
  - left. auto.
  - right; left. auto.
  - right; right. exists l. auto 10.
Qed.

(** Over a session: the accepted times continue the refractory chain of the
    last accepted step, and every accepted time but the first of a session
    that had none is counted. *)
Lemma session_steps self samples :
  let accepted := accepted_times self samples in
  refractory (after_step (_last_step_time self) accepted) /\
  step_count (process_all self samples) =
    (step_count self +
     match _last_step_time self with
     | Some _ => len accepted
     | None => Z.max 0 (len accepted - 1)
     end)%Z.
Proof.
  revert self.
  induction samples as [| [clock d] rest IH]; intros self.
  - cbn. split; [destruct (_last_step_time self); exact I |].
    destruct (_last_step_time self); cbn; lia.
  - cbn [accepted_times process_all]. cbv zeta.
    specialize (IH (_process_activity_and_steps clock self d)).
    cbv zeta in IH. destruct IH as [IHchain IHcount].
    destruct (process_step_cases clock self d)
      as [(_ & Hdet & Hlast & Hcount)
         | [(_ & Hnone & Hdet & Hlast & Hcount)
           | [l (_ & Hl & Hlo & Hhi & Hdet & Hlast & Hcount)]]];
      rewrite Hdet; rewrite Hlast in IHchain, IHcount;
      rewrite Hcount in IHcount.
    + split; assumption.
    + rewrite Hnone. cbn [after_step] in *. split; [assumption |].
      rewrite IHcount. unfold len. cbn [List.length]. lia.
    + rewrite Hl. cbn [after_step] in *. split.
      * cbn [refractory]. auto.
      * rewrite IHcount. unfold len. cbn [List.length]. lia.
Qed.

Lemma process_all_app self samples more :
  process_all self (samples ++ more) =
  process_all (process_all self samples) more.
Proof.
  revert self. induction samples as [| [clock d] rest IH]; intros self.
  - reflexivity.
  - cbn. apply IH.
Qed.

Lemma step_count_monotone self samples :
  (step_count self <= step_count (process_all self samples))%Z.
Proof.
  destruct (session_steps self samples) as [_ Hcount]. rewrite Hcount.
  unfold len. destruct (_last_step_time self); lia.
Qed.

(** C3: [step_count] moves by 0 or 1 per sample; it moves only when the time
    since the previously accepted step lies in [0.3, 2.0] seconds, bounds
    included; a candidate peak met while no step was ever accepted sets
    [_last_step_time] and leaves [step_count] alone.  Hence, over a session
    from a fresh analyzer, consecutive accepted times are 0.3 to 2.0 seconds
    apart, [step_count] is the number of accepted times but the first, and it
    never decreases. *)
Theorem step_counting_refractory :
  (forall clock self d,
      let self' := _process_activity_and_steps clock self d in
      let now := sample_time clock d in
      (step_count self' = step_count self \/
       step_count self' = (step_count self + 1)%Z) /\
      (step_count self' <> step_count self ->
       exists last,
         _last_step_time self = Some last /\
         0.3 <= now - last /\ now - last <= 2.0 /\
         _last_step_time self' = Some now) /\
      (_last_step_time self = None ->
       candidate_peak (_step_buffer self') = true ->
       stepDetected (latest_metrics self') = true /\
       _last_step_time self' = Some now /\
       step_count self' = step_count self)) /\
  (forall model samples,
      let accepted := accepted_times (init model) samples in
      refractory accepted /\
      step_count (process_all (init model) samples) =
        Z.max 0 (len accepted - 1) /\
      forall more,
        (step_count (process_all (init model) samples) <=
         step_count (process_all (init model) (samples ++ more)))%Z).
Proof.
  split.
  - intros clock self d self' now.
    destruct (process_step_cases clock self d)
      as [(Hwhy & Hdet & Hlast & Hcount)
         | [(Hpeak & Hnone & Hdet & Hlast & Hcount)
           | [l (Hpeak & Hl & Hlo & Hhi & Hdet & Hlast & Hcount)]]];
      fold self' in Hdet, Hlast, Hcount; fold now in Hlast.
    + fold self' in Hwhy.
      split; [left; assumption |]. split; [intros Hne; contradiction |].
      intros Hnone Hpeak. exfalso.
      destruct Hwhy as [Hnopeak | [l Hl]]; congruence.
    + split; [left; assumption |]. split; [intros Hne; contradiction |].
      auto.
    + split; [right; assumption |]. split; [| congruence].
      intros _. exists l. auto.
  - intros model samples accepted.
    destruct (session_steps (init model) samples) as [Hchain Hcount].
    cbn [init _last_step_time step_count after_step] in Hchain, Hcount.
    fold accepted in Hchain, Hcount.
    split; [exact Hchain |]. split; [rewrite Hcount; lia |].
    intros more. rewrite process_all_app. apply step_count_monotone.
Qed.

End Steps.

(** A session in which steps are accepted: the jolt is a candidate peak on the
    5th, 6th and 7th sample, so it is accepted three times, half a second
    apart, and counted twice. *)
Example jolt_session :
  accepted_times (M := ExactSquares) (init None) jolt_stream = [3.0; 3.5; 4.0] /\
  step_count (process_all (M := ExactSquares) (init None) jolt_stream) = 2%Z.
Proof. split; vm_compute; reflexivity. Qed.

(** ** Cadence *)

Lemma filter_all {A} (f : A -> bool) (l : list A) :
  (forall x, In x l -> f x = true) -> filter f l = l.
Proof.
  induction l as [| x l IH]; intros Hall; [reflexivity |].
  cbn. rewrite (Hall x (or_introl eq_refl)). f_equal.
  apply IH. intros y Hy. apply Hall. right. exact Hy.
Qed.

Lemma filter_map_fst {A B} (f : A -> bool) (l : list (A * B)) :
  filter f (map fst l) = map fst (filter (fun e => f (fst e)) l).
Proof.
  induction l as [| e l IH]; [reflexivity |].
  cbn. destruct (f (fst e)); cbn; rewrite IH; reflexivity.
Qed.

(** What the cadence computation counts: every buffered sample of the last
    10 seconds, whether or not a step was detected on it.  The second filter
    of the source (half a second wider) removes nothing. *)
Lemma cadence_counts_buffered_samples buffer now :
  cadence_of buffer now = (len (samples_in_window buffer now) * 6)%Z.
Proof.
  unfold cadence_of, samples_in_window, len. cbv zeta.
  rewrite filter_all.
  - rewrite filter_map_fst, length_map. reflexivity.
  - intros t Ht. apply filter_In in Ht. destruct Ht as [_ Ht].
    apply Qgeb_ge in Ht. apply Qgeb_ge. lra.
Qed.

Lemma last_n_short {A} (n : nat) (l : list A) :
  (List.length l <= n)%nat -> last_n n l = l.
Proof.
  intros Hlen. unfold last_n.
  replace (List.length l - n)%nat with 0%nat by lia. reflexivity.
Qed.

Section EarlySamples.

Context {M : MathLib}.

Lemma candidate_peak_needs_five buffer :
  (List.length buffer < 5)%nat -> candidate_peak buffer = false.
Proof.
  intros Hlen. unfold candidate_peak.
  replace (len buffer >=? 5)%Z with false; [reflexivity |].
  symmetry. unfold len. rewrite Z.geb_leb. apply Z.leb_gt. lia.
Qed.

(** While the buffer holds fewer than five samples no step is detected, and
    each sample joins the buffer. *)
Lemma early_samples_no_step samples : forall self,
  (List.length (_step_buffer self) + List.length samples < 5)%nat ->
  step_count (process_all self samples) = step_count self /\
  map stepDetected (metrics_trace self samples) =
    map (fun _ => false) samples /\
  accepted_times self samples = [] /\
  map fst (_step_buffer (process_all self samples)) =
    map fst (_step_buffer self) ++
    map (fun s => sample_time (fst s) (snd s)) samples.
Proof.
  induction samples as [| [clock d] rest IH]; intros self Hlen.
  - cbn. rewrite app_nil_r. auto.
  - cbn [List.length] in Hlen.
    destruct (process_steps clock self d) as (Hbuf & Hdet & _ & Hcount & _).
    assert (Hshort :
              deque_append _step_buffer_maxlen (_step_buffer self)
                (sample_time clock d, acc_magnitude_of d) =
              _step_buffer self ++ [(sample_time clock d, acc_magnitude_of d)]).
    { unfold deque_append. apply last_n_short. rewrite length_app. cbn.
      unfold _step_buffer_maxlen. lia. }
    rewrite Hshort in Hbuf, Hdet, Hcount.
    unfold detect_step in Hdet, Hcount.
    rewrite candidate_peak_needs_five in Hdet, Hcount
      by (rewrite length_app; cbn; lia).
    cbn [fst snd] in Hdet, Hcount.
    destruct (IH (_process_activity_and_steps clock self d))
      as (IHcount & IHdet & IHacc & IHbuf).
    { rewrite Hbuf, length_app. cbn. lia. }
    cbn [process_all metrics_trace accepted_times map]. cbv zeta.
    rewrite IHcount, IHdet, IHacc, IHbuf, Hdet, Hcount, Hbuf.
    repeat split. rewrite map_app, <- app_assoc. reflexivity.
Qed.

End EarlySamples.

(** C1 fails on the code: the cadence is six times the number of buffered
    samples of the last 10 seconds, not of steps.  On four samples of a wrist
    at rest, 100 ms apart, no step is detected and [step_count] stays 0, yet
    the cadence of the fourth sample is 24 steps per minute; without a
    classifier the sample is then reported as walking. *)
Theorem cadence_counts_samples_not_steps :
  (forall (M : MathLib) model,
      let final := process_all (init model) rest_stream in
      step_count final = 0%Z /\
      map stepDetected (metrics_trace (init model) rest_stream) =
        [false; false; false; false] /\
      accepted_times (init model) rest_stream = [] /\
      cadence_of (_step_buffer final) 1.3 = 24%Z) /\
  activity (latest_metrics
              (process_all (M := ExactSquares) (init None) rest_stream))
  = "walking"%string.
Proof.
  split.
  - intros M model final.
    destruct (early_samples_no_step rest_stream (init model))
      as (Hcount & Hdet & Hacc & Hbuf); [cbn; lia |].
    fold final in Hcount, Hbuf.
    repeat split; try assumption.
    unfold cadence_of. rewrite Hbuf. vm_compute. reflexivity.
  - vm_compute. reflexivity.
Qed.

(** ** The idle override *)

(** C4: whenever the cadence of the sample is below 20, its acceleration
    magnitude below 1.05 and its gyroscope magnitude below 80, the snapshot
    reports ["stationary"] with confidence 0.9, whatever the analyzer state:
    with or without a classifier, whether the classifier answered or raised,
    in either mode. *)
Theorem stationary_override {M : MathLib} clock self d :
  let self' := _process_activity_and_steps clock self d in
  let now := sample_time clock d in
  (cadence_of (_step_buffer self') now < 20)%Z ->
  acc_magnitude_of d < 1.05 ->
  gyro_magnitude_of d < 80 ->
  activity (latest_metrics self') = "stationary"%string /\
  activityConfidence (latest_metrics self') = 0.9.
Proof.
  intros self' now Hcad Hacc Hgyro.
  destruct (process_steps clock self d) as (Hbuf & _).
  destruct (process_activity clock self d) as (Hact & Hconf).
  fold self' in Hbuf, Hact, Hconf. fold now in Hbuf, Hact, Hconf.
  rewrite Hbuf in Hcad. rewrite Hact, Hconf.
  unfold idle_override.
  apply Z.ltb_lt in Hcad. apply Qltb_lt in Hacc, Hgyro.
  rewrite Hcad, Hacc, Hgyro. cbn. auto.
Qed.

Lemma stationary_override_witness :
  let self := init (Some always_running) in
  let d := at_rest 1.0 in
  let self' := _process_activity_and_steps (M := ExactSquares) 1.0 self d in
  (cadence_of (_step_buffer self') (sample_time 1.0 d) < 20)%Z /\
  acc_magnitude_of (M := ExactSquares) d < 1.05 /\
  gyro_magnitude_of (M := ExactSquares) d < 80 /\
  classify (M := ExactSquares) self d 6 = ("running"%string, 0.99) /\
  activity (latest_metrics self') = "stationary"%string /\
  activityConfidence (latest_metrics self') = 0.9.
Proof.
  cbv zeta.
  assert (Hcad : (cadence_of
                    (_step_buffer
                       (_process_activity_and_steps (M := ExactSquares) 1.0
                          (init (Some always_running)) (at_rest 1.0)))
                    (sample_time 1.0 (at_rest 1.0)) < 20)%Z)
    by (vm_compute; reflexivity).
  assert (Hacc : acc_magnitude_of (M := ExactSquares) (at_rest 1.0) < 1.05)
    by (vm_compute; reflexivity).
  assert (Hgyro : gyro_magnitude_of (M := ExactSquares) (at_rest 1.0) < 80)
    by (vm_compute; reflexivity).
  split; [exact Hcad |]. split; [exact Hacc |]. split; [exact Hgyro |].
  split; [vm_compute; reflexivity |].
  exact (stationary_override (M := ExactSquares) 1.0
           (init (Some always_running)) (at_rest 1.0) Hcad Hacc Hgyro).
Defined.

(** ** Calories *)

Lemma elapsed_minutes_nonneg last now : 0 <= elapsed_minutes last now.
Proof.
  unfold elapsed_minutes. cbv zeta.
  destruct (Qmax 0.0 _ >? 0) eqn:Hdt; [| discriminate].
  apply Qgtb_gt in Hdt. apply Qle_shift_div_l; [reflexivity | lra].
Qed.

(** No time passes when the clock has not advanced past the last sample. *)
Lemma elapsed_minutes_clock_back t now :
  now <= t -> elapsed_minutes (Some t) now = 0.0.
Proof.
  intros Hback. unfold elapsed_minutes. cbv zeta.
  assert (Hmax : Qmax 0.0 (now - t) == 0.0) by (apply Q.max_l; lra).
  replace (Qmax 0.0 (now - t) >? 0) with false; [reflexivity |].
  symmetry. apply Qgtb_le. rewrite Hmax. discriminate.
Qed.

Lemma elapsed_minutes_first now : elapsed_minutes None now = 0.0.
Proof.
  unfold elapsed_minutes. cbv zeta.
  assert (Hmax : Qmax 0.0 (now - now) == 0.0) by (apply Q.max_l; lra).
  replace (Qmax 0.0 (now - now) >? 0) with false; [reflexivity |].
  symmetry. apply Qgtb_le. rewrite Hmax. discriminate.
Qed.

Lemma met_of_pos activity : 0 < met_of activity.
Proof.
  unfold met_of.
  destruct (String.eqb activity "walking"); [reflexivity |].
  destruct (String.eqb activity "running"); reflexivity.
Qed.

(** The clamp of the heart-rate branch. *)
Lemma clamped_rate_nonneg hr weight_kg age :
  0 <= (if hr_formula hr weight_kg age <? 0 then 0.0
        else hr_formula hr weight_kg age).
Proof.
  destruct (hr_formula hr weight_kg age <? 0) eqn:Hneg;
    [discriminate | apply Qltb_ge in Hneg; exact Hneg].
Qed.

Lemma use_heart_rate_iff hr minutes :
  use_heart_rate hr minutes = true <-> 0 < hr /\ hr < 200 /\ 0 < minutes.
Proof.
  unfold use_heart_rate.
  rewrite !andb_true_iff, !Qgtb_gt, Qltb_lt. tauto.
Qed.

Lemma heart_rate_increment_nonneg hr activity weight_kg age minutes :
  use_heart_rate hr minutes = true ->
  0 <= calories_increment_of hr activity weight_kg age minutes.
Proof.
  intros Huse. unfold calories_increment_of. rewrite Huse. cbv zeta.
  apply use_heart_rate_iff in Huse. destruct Huse as (_ & _ & Hmin).
  apply Qmult_le_0_compat; [apply clamped_rate_nonneg | lra].
Qed.

Lemma calories_increment_nonneg hr activity weight_kg age minutes :
  0 <= weight_kg -> 0 <= minutes ->
  0 <= calories_increment_of hr activity weight_kg age minutes.
Proof.
  intros Hw Hmin.
  destruct (use_heart_rate hr minutes) eqn:Huse.
  - apply heart_rate_increment_nonneg. exact Huse.
  - unfold calories_increment_of. rewrite Huse. cbv zeta.
    apply Qmult_le_0_compat.
    + apply Qmult_le_0_compat; [apply Qlt_le_weak, met_of_pos | exact Hw].
    + apply Qle_shift_div_l; [reflexivity | lra].
Qed.

Section Calories.

Context {M : MathLib}.

Lemma process_calories_monotone clock self d :
  0 <= user_weight_kg self ->
  _calories_accum self <=
  _calories_accum (_process_activity_and_steps clock self d).
Proof.
  intros Hw.
  destruct (process_calories clock self d) as (Hacc & _).
  rewrite Hacc.
  pose proof (calories_increment_nonneg
                (get (sd_heartRate d) 0)
                (fst (idle_override
                        (cadence_of
                           (deque_append _step_buffer_maxlen (_step_buffer self)
                              (sample_time clock d, acc_magnitude_of d))
                           (sample_time clock d))
                        (acc_magnitude_of d) (gyro_magnitude_of d)
                        (classify self d
                           (cadence_of
                              (deque_append _step_buffer_maxlen
                                 (_step_buffer self)
                                 (sample_time clock d, acc_magnitude_of d))
                              (sample_time clock d)))))
                (user_weight_kg self) (user_age self)
                (elapsed_minutes (_last_metric_time self) (sample_time clock d))
                Hw (elapsed_minutes_nonneg _ _)) as Hinc.
  lra.
Qed.

Lemma process_all_calories_monotone samples : forall self,
  0 <= user_weight_kg self ->
  _calories_accum self <= _calories_accum (process_all self samples).
Proof.
  induction samples as [| [clock d] rest IH]; intros self Hw.
  - cbn. lra.
  - cbn [process_all].
    apply Qle_trans with
      (_calories_accum (_process_activity_and_steps clock self d)).
    + apply process_calories_monotone. exact Hw.
    + apply IH.
      destruct (process_calories clock self d) as (_ & _ & Hweight & _).
      rewrite Hweight. exact Hw.
Qed.

Lemma process_all_weight samples : forall self,
  user_weight_kg (process_all self samples) = user_weight_kg self.
Proof.
  induction samples as [| [clock d] rest IH]; intros self; [reflexivity |].
  cbn [process_all]. rewrite IH.
  destruct (process_calories clock self d) as (_ & _ & Hweight & _).
  exact Hweight.
Qed.

(** C6, as amended: with a profile weight that is not negative, every
    per-sample increment is at least 0, so the accumulator never decreases
    over a session.  Whatever the weight, the kcal-per-minute value of the
    heart-rate branch is clamped at 0, and the elapsed time is 0 when the
    clock has not advanced. *)
Theorem calories_never_decrease self :
  0 <= user_weight_kg self ->
  (forall hr activity age last now,
      0 <= calories_increment_of hr activity (user_weight_kg self) age
             (elapsed_minutes last now)) /\
  (forall clock d,
      _calories_accum self <=
      _calories_accum (_process_activity_and_steps clock self d)) /\
  (forall samples more,
      _calories_accum (process_all self samples) <=
      _calories_accum (process_all self (samples ++ more))) /\
  (forall hr weight_kg age,
      0 <= (if hr_formula hr weight_kg age <? 0 then 0.0
            else hr_formula hr weight_kg age)) /\
  (forall hr activity weight_kg age minutes,
      use_heart_rate hr minutes = true ->
      0 <= calories_increment_of hr activity weight_kg age minutes) /\
  (forall t now, now <= t -> elapsed_minutes (Some t) now = 0.0).
Proof.
  intros Hw. repeat split.
  - intros. apply calories_increment_nonneg;
      [exact Hw | apply elapsed_minutes_nonneg].
  - intros. apply process_calories_monotone. exact Hw.
  - intros. rewrite process_all_app. apply process_all_calories_monotone.
    rewrite process_all_weight. exact Hw.
  - intros. apply clamped_rate_nonneg.
  - intros. apply heart_rate_increment_nonneg. assumption.
  - intros. apply elapsed_minutes_clock_back. assumption.
Qed.

End Calories.

Lemma calories_never_decrease_witness :
  let self := init None in
  0 <= user_weight_kg self /\
  _calories_accum
    (process_all (M := ExactSquares) self [(60, at_rest_with_pulse 60 140)]) <=
  _calories_accum
    (process_all (M := ExactSquares) self
       ([(60, at_rest_with_pulse 60 140)] ++ [(120, at_rest_with_pulse 120 140)])).
Proof.
  cbv zeta.
  assert (Hw : 0 <= user_weight_kg (init None)) by discriminate.
  split; [exact Hw |].
  exact (proj1 (proj2 (proj2
    (calories_never_decrease (M := ExactSquares) (init None) Hw)))
    [(60, at_rest_with_pulse 60 140)] [(120, at_rest_with_pulse 120 140)]).
Defined.

(** C6 as stated fails: the profile accepts any weight, and with a negative
    one the MET branch subtracts.  After [set_user_profile(weight_kg=-70)], two
    samples at rest a minute apart, without heart rate, take the accumulator
    from 0 to -7/6 kcal, and the reported [caloriesTotal] with it. *)
Lemma calories_decrease_at_negative_weight :
  let self := set_user_profile None (Some (-70)) None (init None) in
  let s1 := _process_activity_and_steps (M := ExactSquares) 60 self (at_rest 60) in
  let s2 := _process_activity_and_steps (M := ExactSquares) 120 s1 (at_rest 120) in
  _calories_accum s2 < _calories_accum s1 /\
  caloriesTotal (latest_metrics s2) < caloriesTotal (latest_metrics s1).
Proof. cbv zeta. split; vm_compute; reflexivity. Qed.

(** C7: the heart-rate formula is the one used exactly when the heart rate is
    strictly between 0 and 200 and the elapsed minutes are positive; the
    increment is then the formula's kcal per minute (0 when the formula is
    negative) times the elapsed minutes.  In every other case the increment is
    [MET * weight_kg * hours] with MET 1.0 for stationary, 3.5 for walking and
    9.8 for running.  This increment, on the heart rate of the sample (0 when
    the key is absent) and the reported activity, is what a sample adds to the
    accumulator; the estimator is a total function and raises nothing. *)
Theorem calorie_formula_selection :
  (forall hr activity weight_kg age minutes,
      let increment :=
        calories_increment_of hr activity weight_kg age minutes in
      (use_heart_rate hr minutes = true <->
       0 < hr /\ hr < 200 /\ 0 < minutes) /\
      (0 < hr /\ hr < 200 /\ 0 < minutes ->
       increment =
         (if hr_formula hr weight_kg age <? 0 then 0.0
          else (-55.0969 + 0.6309 * hr + 0.1988 * weight_kg
                + 0.2017 * float age) / 4.184) * minutes) /\
      (~ (0 < hr /\ hr < 200 /\ 0 < minutes) ->
       increment = met_of activity * weight_kg * (minutes / 60.0))) /\
  (met_of "stationary" = 1.0 /\ met_of "walking" = 3.5 /\
   met_of "running" = 9.8) /\
  (forall (M : MathLib) clock self d,
      let self' := _process_activity_and_steps clock self d in
      _calories_accum self' =
        _calories_accum self +
        calories_increment_of (get (sd_heartRate d) 0)
          (activity (latest_metrics self'))
          (user_weight_kg self) (user_age self)
          (elapsed_minutes (_last_metric_time self) (sample_time clock d))).
Proof.
  split; [| split].
  - intros hr activity weight_kg age minutes increment.
    split; [apply use_heart_rate_iff |].
    unfold increment, calories_increment_of. split.
    + intros Hin. apply use_heart_rate_iff in Hin. rewrite Hin. reflexivity.
    + intros Hout.
      destruct (use_heart_rate hr minutes) eqn:Huse; [| reflexivity].
      apply use_heart_rate_iff in Huse. contradiction.
  - repeat split.
  - intros M clock self d self'.
    destruct (process_calories clock self d) as (Hacc & _).
    destruct (process_activity clock self d) as (Hact & _).
    fold self' in Hacc, Hact. rewrite Hact. exact Hacc.
Qed.

(** Heart rate 140, 70 kg, 30 years, one minute: the formula gives
    53.1961 / 4.184 kcal, 12.7142 to four decimals. *)
Example calorie_scenario :
  calories_increment_of 140 "stationary" 70 30 1 == 53.1961 / 4.184 /\
  round (calories_increment_of 140 "stationary" 70 30 1) 4 == 12.7142.
Proof. split; vm_compute; reflexivity. Qed.

(** C10: on the first sample of the analytics path ([_last_metric_time] is
    still [None]) the elapsed time is 0, so the increment is 0 whatever the
    heart rate, the activity and the profile; the accumulator keeps its value
    and [_last_metric_time] becomes the time of the sample. *)
Theorem first_sample_burns_nothing {M : MathLib} clock self d :
  _last_metric_time self = None ->
  let self' := _process_activity_and_steps clock self d in
  let now := sample_time clock d in
  elapsed_minutes (_last_metric_time self) now = 0.0 /\
  (forall hr activity weight_kg age,
      calories_increment_of hr activity weight_kg age
        (elapsed_minutes (_last_metric_time self) now) == 0) /\
  _calories_accum self' == _calories_accum self /\
  _last_metric_time self' = Some now.
Proof.
  intros Hfirst self' now.
  assert (Hzero : forall hr activity weight_kg age,
             calories_increment_of hr activity weight_kg age 0.0 == 0).
  { intros hr activity weight_kg age. unfold calories_increment_of.
    replace (use_heart_rate hr 0.0) with false.
    - cbv zeta. unfold Qdiv. ring.
    - unfold use_heart_rate. rewrite andb_comm. reflexivity. }
  rewrite Hfirst, elapsed_minutes_first.
  split; [reflexivity |]. split; [exact Hzero |].
  destruct (process_calories clock self d) as (Hacc & Hlast & _).
  fold self' in Hacc, Hlast. fold now in Hacc, Hlast.
  rewrite Hfirst, elapsed_minutes_first in Hacc.
  split; [| exact Hlast].
  rewrite Hacc, Hzero. ring.
Qed.

Lemma first_sample_burns_nothing_witness :
  let self := init None in
  let d := at_rest_with_pulse 60 150 in
  _last_metric_time self = None /\
  _calories_accum (_process_activity_and_steps (M := ExactSquares) 60 self d)
  == _calories_accum self.
Proof.
  cbv zeta.
  assert (Hfirst : _last_metric_time (init None) = None) by reflexivity.
  split; [exact Hfirst |].
  exact (proj1 (proj2 (proj2
    (first_sample_burns_nothing (M := ExactSquares) 60 (init None)
       (at_rest_with_pulse 60 150) Hfirst)))).
Defined.

(** * Further properties *)

(** ** The mesh *)

(** Splits a mesh that carries the skeleton into its 21 joints. *)
Ltac mesh_joints m H :=
  unfold HumanMesh.skeleton in H;
  do 21 (destruct m as [| [? [? ? ?]] m]; [discriminate H |]);
  destruct m; [| discriminate H];
  cbn in H; inversion H; subst; clear H.

(** X1: for an exercise other than bicep curl, squat and pushup, the mesh
    update puts a mesh that carries the skeleton back into the initial pose,
    whatever positions it held. *)
Theorem mesh_update_resets {T : TrigLib} pitch roll exercise mesh :
  HumanMesh.skeleton mesh = HumanMesh.skeleton HumanMesh.initial_joints ->
  exercise <> "bicep_curl"%string ->
  exercise <> "squat"%string ->
  exercise <> "pushup"%string ->
  HumanMesh.update_joint_positions pitch roll exercise mesh =
  Ok HumanMesh.initial_joints.
Proof.
  intros Hskel H1 H2 H3.
  apply String.eqb_neq in H1, H2, H3.
  unfold HumanMesh.update_joint_positions. rewrite H1, H2, H3. cbv zeta.
  mesh_joints mesh Hskel. vm_compute. reflexivity.
Qed.

(** X2: the bicep-curl update succeeds on a mesh that carries the skeleton,
    keeps the skeleton, and assigns the right arm chain and the spine only:
    the other 16 joints are as they were. *)
Theorem mesh_curl_moves_right_arm {T : TrigLib} pitch roll mesh :
  HumanMesh.skeleton mesh = HumanMesh.skeleton HumanMesh.initial_joints ->
  exists mesh',
    HumanMesh.update_joint_positions pitch roll "bicep_curl" mesh = Ok mesh' /\
    HumanMesh.skeleton mesh' = HumanMesh.skeleton mesh /\
    filter (fun e => negb (existsb (String.eqb (fst e)) HumanMesh.curl_joints))
      mesh' =
    filter (fun e => negb (existsb (String.eqb (fst e)) HumanMesh.curl_joints))
      mesh.
Proof.
  intros Hskel. mesh_joints mesh Hskel.
  eexists. split; [vm_compute; reflexivity |].
  split; vm_compute; reflexivity.
Qed.

Lemma mesh_update_resets_witness :
  HumanMesh.skeleton curled_joints =
    HumanMesh.skeleton HumanMesh.initial_joints /\
  curled_joints <> HumanMesh.initial_joints /\
  HumanMesh.update_joint_positions (T := FlatTrig) 30 0 "lateral_raise"
    curled_joints = Ok HumanMesh.initial_joints.
Proof.
  assert (Hskel : HumanMesh.skeleton curled_joints =
                  HumanMesh.skeleton HumanMesh.initial_joints)
    by (vm_compute; reflexivity).
  split; [exact Hskel |]. split; [vm_compute; discriminate |].
  apply (mesh_update_resets (T := FlatTrig) 30 0 "lateral_raise" curled_joints
           Hskel); discriminate.
Defined.

Lemma mesh_curl_moves_right_arm_witness :
  HumanMesh.skeleton HumanMesh.initial_joints =
    HumanMesh.skeleton HumanMesh.initial_joints /\
  exists mesh',
    HumanMesh.update_joint_positions (T := FlatTrig) 90 5 "bicep_curl"
      HumanMesh.initial_joints = Ok mesh' /\
    HumanMesh.skeleton mesh' = HumanMesh.skeleton HumanMesh.initial_joints /\
    filter (fun e => negb (existsb (String.eqb (fst e)) HumanMesh.curl_joints))
      mesh' =
    filter (fun e => negb (existsb (String.eqb (fst e)) HumanMesh.curl_joints))
      HumanMesh.initial_joints.
Proof.
  split; [reflexivity |].
  exact (mesh_curl_moves_right_arm (T := FlatTrig) 90 5
           HumanMesh.initial_joints eq_refl).
Defined.

(** ** [analyze] with its mesh *)





(** ** What [analyze] keeps of its analyzer *)

Ltac destruct_ifs :=
  repeat match goal with
         | |- context [if ?c then _ else _] => destruct c
         end.

Section AnalyzeFrame.

Context {M : MathLib}.

(** The analytics path assigns none of the fields of the form analysis. *)
Lemma process_frame clock self d :
  let self' := _process_activity_and_steps clock self d in
  movement_history self' = movement_history self /\
  range_of_motion self' = range_of_motion self /\
  rep_state self' = rep_state self /\
  rep_durations self' = rep_durations self /\
  last_rep_time self' = last_rep_time self /\
  current_form_score self' = current_form_score self /\
  current_feedback self' = current_feedback self /\
  mode self' = mode self /\
  activity_model self' = activity_model self.
Proof.
  unfold _process_activity_and_steps.
  destruct (detect_step _ _ _ _) as [[step_detected last_step] count].
  destruct (idle_override _ _ _ _) as [activity confidence].
  cbn. auto 10.
Qed.

(** [analyze], split at the dispatch: an unrecognized name returns at once;
    otherwise the analyzer runs on [before_dispatch], the stability score caps
    its score, and the analytics path runs when there is a dictionary. *)
Lemma analyze_dispatch clock self exercise pitch roll sensor_data :
  let self1 := before_dispatch clock self pitch roll sensor_data in
  match dispatch exercise with
  | None =>
      analyze clock self exercise pitch roll sensor_data =
      (self1,
       (0%Z, ["Select a wrist-compatible exercise to begin"%string], false))
  | Some analyzer =>
      let self2 := fst (analyzer clock self1 pitch roll sensor_data) in
      let result := snd (analyzer clock self1 pitch roll sensor_data) in
      let r := analyze clock self exercise pitch roll sensor_data in
      rep_detected_of (snd r) = rep_detected_of result /\
      score_of (snd r) =
        (match snd (_analyze_stability self2) with
         | [] => score_of result
         | _ => Z.min (score_of result) (fst (_analyze_stability self2))
         end) /\
      current_form_score (fst r) = score_of (snd r) /\
      current_feedback (fst r) = feedback_of (snd r) /\
      movement_history (fst r) = movement_history self2 /\
      range_of_motion (fst r) = range_of_motion self2 /\
      rep_state (fst r) = rep_state self2 /\
      rep_durations (fst r) = rep_durations self2 /\
      last_rep_time (fst r) = last_rep_time self2 /\
      match sensor_data with
      | None =>
          step_count (fst r) = step_count self2 /\
          _last_step_time (fst r) = _last_step_time self2 /\
          _step_buffer (fst r) = _step_buffer self2 /\
          _last_metric_time (fst r) = _last_metric_time self2 /\
          _calories_accum (fst r) = _calories_accum self2 /\
          latest_metrics (fst r) = latest_metrics self2
      | Some _ => True
      end
  end.
Proof.
  intros self1. unfold dispatch, analyze.
  fold (before_dispatch clock self pitch roll sensor_data). fold self1.
  destruct (String.eqb exercise "bicep_curl");
    [destruct (_analyze_bicep_curl clock self1 pitch roll sensor_data)
       as [self2 [[score feedback] rep]]
    | destruct (String.eqb exercise "lateral_raise");
      [destruct (_analyze_lateral_raise clock self1 pitch roll sensor_data)
         as [self2 [[score feedback] rep]]
      | destruct (String.eqb exercise "shoulder_press");
        [destruct (_analyze_shoulder_press clock self1 pitch roll sensor_data)
           as [self2 [[score feedback] rep]]
        | destruct (String.eqb exercise "running"); [| reflexivity]]]].
  all: cbv zeta; unfold running_analyzer; cbn [fst snd];
    destruct (_analyze_stability _) as [stability_score stability_feedback];
    destruct stability_feedback; destruct sensor_data as [d |];
    cbn [fst snd rep_detected_of score_of feedback_of];
    repeat match goal with
           | |- context [_process_activity_and_steps ?c ?s ?d] =>
               let H := fresh "Hframe" in
               pose proof (process_frame c s d) as H; cbv zeta in H;
               destruct H as (-> & -> & -> & -> & -> & -> & -> & _)
           end;
    cbn; auto 20.
Qed.

End AnalyzeFrame.

(** ** The analyzers *)

Ltac contract_cases :=
  destruct_ifs; cbn;
  repeat split; intros; try discriminate; try reflexivity; try lia.

Lemma _analyze_bicep_curl_contract : analyzer_contract _analyze_bicep_curl 10.
Proof.
  intros clock self pitch roll sensor_data.
  unfold _analyze_bicep_curl, rep_detected_of, score_of. cbv zeta.
  destruct (rep_state self) eqn:Hst; cbn [RepState_eqb andb];
    contract_cases.
Qed.

Lemma _analyze_lateral_raise_contract :
  analyzer_contract _analyze_lateral_raise 80.
Proof.
  intros clock self pitch roll sensor_data.
  unfold _analyze_lateral_raise, rep_detected_of, score_of. cbv zeta.
  destruct (rep_state self) eqn:Hst; cbn [RepState_eqb andb];
    contract_cases.
Qed.

Lemma _analyze_shoulder_press_contract :
  analyzer_contract _analyze_shoulder_press 78.
Proof.
  intros clock self pitch roll sensor_data.
  unfold _analyze_shoulder_press, rep_detected_of, score_of. cbv zeta.
  destruct (rep_state self) eqn:Hst; cbn [RepState_eqb andb];
    contract_cases.
Qed.

Lemma running_analyzer_contract : analyzer_contract running_analyzer 100.
Proof.
  intros clock self pitch roll sensor_data.
  unfold running_analyzer, rep_detected_of, score_of. cbn.
  repeat split; intros; try discriminate; try reflexivity; try lia.
Qed.

Lemma analyzer_contract_weaken analyzer (lo lo' : Z) :
  (lo' <= lo)%Z -> analyzer_contract analyzer lo ->
  analyzer_contract analyzer lo'.
Proof.
  intros Hle Hc clock self pitch roll sensor_data r.
  destruct (Hc clock self pitch roll sensor_data)
    as (H1 & H2 & H3 & H4 & H5).
  fold r in H1, H2, H3, H4, H5.
  split; [exact H1 |]. split; [exact H2 |]. split; [exact H3 |].
  split; [lia | exact H5].
Qed.

Lemma dispatch_contract exercise analyzer :
  dispatch exercise = Some analyzer -> analyzer_contract analyzer 10.
Proof.
  unfold dispatch. intros H.
  destruct (String.eqb exercise "bicep_curl");
    [injection H as <-; exact _analyze_bicep_curl_contract |].
  destruct (String.eqb exercise "lateral_raise");
    [injection H as <-;
     apply (analyzer_contract_weaken _ 80); [lia |];
     exact _analyze_lateral_raise_contract |].
  destruct (String.eqb exercise "shoulder_press");
    [injection H as <-;
     apply (analyzer_contract_weaken _ 78); [lia |];
     exact _analyze_shoulder_press_contract |].
  destruct (String.eqb exercise "running"); [| discriminate].
  injection H as <-. apply (analyzer_contract_weaken _ 100); [lia |].
  exact running_analyzer_contract.
Qed.

(** ** Stability *)

Lemma fold_sum_repeat (p : Q) (n : nat) : forall a,
  fold_left Qplus (repeat p n) a == a + inject_Z (Z.of_nat n) * p.
Proof.
  induction n as [| n IH]; intros a.
  - cbn. ring.
  - cbn [repeat fold_left]. rewrite IH.
    rewrite Nat2Z.inj_succ. unfold Z.succ. rewrite inject_Z_plus. ring.
Qed.

(** The variance of a constant sequence is 0. *)
Lemma np_var_repeat (p : Q) (n : nat) : (0 < n)%nat -> np_var (repeat p n) == 0.
Proof.
  intros Hn. unfold np_var, np_mean, sum, len, float. cbv zeta.
  rewrite map_repeat, !repeat_length, !fold_sum_repeat.
  assert (Hnz : ~ inject_Z (Z.of_nat n) == 0).
  { intros H. apply (Qeq_bool_neq (inject_Z (Z.of_nat n)) 0); [| exact H].
    unfold Qeq_bool, inject_Z. cbn. apply Z.eqb_neq. lia. }
  field. exact Hnz.
Qed.

Lemma constant_map {A} (f : A -> Q) (c : Q) (l : list A) :
  Forall (fun a => f a = c) l -> map f l = repeat c (List.length l).
Proof.
  induction 1 as [| a l Ha _ IH]; [reflexivity |].
  cbn. rewrite Ha, IH. reflexivity.
Qed.

Lemma stability_range self :
  (65 <= fst (_analyze_stability self) <= 100)%Z.
Proof.
  unfold _analyze_stability. destruct_ifs; cbn; lia.
Qed.

Lemma np_var_five (x1 x2 x3 x4 x5 : Q) :
  np_var [x1; x2; x3; x4; x5] ==
  (5 * (x1 * x1 + x2 * x2 + x3 * x3 + x4 * x4 + x5 * x5)
   - (x1 + x2 + x3 + x4 + x5) * (x1 + x2 + x3 + x4 + x5)) / 25.
Proof.
  unfold np_var, np_mean, sum, len, float. cbn. field.
Qed.

Lemma square_nonneg (d : Q) : 0 <= d * d.
Proof.
  destruct (Qlt_le_dec d 0) as [Hneg | Hpos].
  - setoid_replace (d * d) with ((- d) * (- d)) by ring.
    apply Qmult_le_0_compat; lra.
  - apply Qmult_le_0_compat; exact Hpos.
Qed.

Lemma square_le (d w : Q) : - w <= d -> d <= w -> d * d <= w * w.
Proof.
  intros H1 H2.
  assert (H : 0 <= (w - d) * (w + d)) by (apply Qmult_le_0_compat; lra).
  setoid_replace (w * w) with (d * d + (w - d) * (w + d)) by ring. lra.
Qed.

Lemma np_var_band (c w x1 x2 x3 x4 x5 : Q) :
  Forall (fun x => c - w <= x /\ x <= c + w) [x1; x2; x3; x4; x5] ->
  np_var [x1; x2; x3; x4; x5] <= w * w.
Proof.
  intros H.
  inversion H as [| ? ? [L1 U1] H1]; subst.
  inversion H1 as [| ? ? [L2 U2] H2]; subst.
  inversion H2 as [| ? ? [L3 U3] H3]; subst.
  inversion H3 as [| ? ? [L4 U4] H4]; subst.
  inversion H4 as [| ? ? [L5 U5] _]; subst.
  rewrite np_var_five.
  apply Qle_shift_div_r; [reflexivity |].
  pose proof (square_le (x1 - c) w) as S1.
  pose proof (square_le (x2 - c) w) as S2.
  pose proof (square_le (x3 - c) w) as S3.
  pose proof (square_le (x4 - c) w) as S4.
  pose proof (square_le (x5 - c) w) as S5.
  assert (D1 : (x1 - c) * (x1 - c) <= w * w) by (apply S1; lra).
  assert (D2 : (x2 - c) * (x2 - c) <= w * w) by (apply S2; lra).
  assert (D3 : (x3 - c) * (x3 - c) <= w * w) by (apply S3; lra).
  assert (D4 : (x4 - c) * (x4 - c) <= w * w) by (apply S4; lra).
  assert (D5 : (x5 - c) * (x5 - c) <= w * w) by (apply S5; lra).
  clear - D1 D2 D3 D4 D5.
  pose proof (square_nonneg (x1 + x2 + x3 + x4 + x5 - 5 * c)) as Hsq.
  setoid_replace
    (5 * (x1 * x1 + x2 * x2 + x3 * x3 + x4 * x4 + x5 * x5)
     - (x1 + x2 + x3 + x4 + x5) * (x1 + x2 + x3 + x4 + x5))
    with (5 * ((x1 - c) * (x1 - c) + (x2 - c) * (x2 - c) + (x3 - c) * (x3 - c)
               + (x4 - c) * (x4 - c) + (x5 - c) * (x5 - c))
          - (x1 + x2 + x3 + x4 + x5 - 5 * c) * (x1 + x2 + x3 + x4 + x5 - 5 * c))
    by ring.
  lra.
Qed.

(** Two of five values that lie [a - b] apart put the variance at a tenth of
    the square of that distance, or above. *)
Lemma np_var_spread (a b x1 x2 x3 x4 x5 : Q) :
  In a [x1; x2; x3; x4; x5] -> In b [x1; x2; x3; x4; x5] ->
  (a - b) * (a - b) <= 10 * np_var [x1; x2; x3; x4; x5].
Proof.
  intros Ha Hb. rewrite np_var_five.
  setoid_replace
    (10 * ((5 * (x1 * x1 + x2 * x2 + x3 * x3 + x4 * x4 + x5 * x5)
            - (x1 + x2 + x3 + x4 + x5) * (x1 + x2 + x3 + x4 + x5)) / 25))
    with ((2 # 5) * (5 * (x1 * x1 + x2 * x2 + x3 * x3 + x4 * x4 + x5 * x5)
                     - (x1 + x2 + x3 + x4 + x5) * (x1 + x2 + x3 + x4 + x5)))
    by field.
  pose proof (square_nonneg (a + b - 2 * x1)) as M1.
  pose proof (square_nonneg (a + b - 2 * x2)) as M2.
  pose proof (square_nonneg (a + b - 2 * x3)) as M3.
  pose proof (square_nonneg (a + b - 2 * x4)) as M4.
  pose proof (square_nonneg (a + b - 2 * x5)) as M5.
  pose proof (square_nonneg (x1 - x2)) as P12.
  pose proof (square_nonneg (x1 - x3)) as P13.
  pose proof (square_nonneg (x1 - x4)) as P14.
  pose proof (square_nonneg (x1 - x5)) as P15.
  pose proof (square_nonneg (x2 - x3)) as P23.
  pose proof (square_nonneg (x2 - x4)) as P24.
  pose proof (square_nonneg (x2 - x5)) as P25.
  pose proof (square_nonneg (x3 - x4)) as P34.
  pose proof (square_nonneg (x3 - x5)) as P35.
  pose proof (square_nonneg (x4 - x5)) as P45.
  cbn [In] in Ha, Hb.
  destruct Ha as [<- | [<- | [<- | [<- | [<- | []]]]]];
    destruct Hb as [<- | [<- | [<- | [<- | [<- | []]]]]];
    lra.
Qed.

(** A history of five entries or more has five last entries. *)
Lemma last_five {A} (l : list A) :
  (5 <= List.length l)%nat ->
  exists a1 a2 a3 a4 a5, last_n 5 l = [a1; a2; a3; a4; a5].
Proof.
  intros Hlen.
  assert (Hfive : List.length (last_n 5 l) = 5%nat)
    by (unfold last_n; rewrite length_skipn; lia).
  destruct (last_n 5 l) as [| a1 [| a2 [| a3 [| a4 [| a5 [| a6 t]]]]]];
    try discriminate Hfive.
  exists a1, a2, a3, a4, a5. reflexivity.
Qed.

Lemma _analyze_stability_short self :
  (List.length (movement_history self) < 5)%nat ->
  _analyze_stability self = (100%Z, []).
Proof.
  intros Hshort. unfold _analyze_stability.
  replace (len (movement_history self) <? 5)%Z with true; [reflexivity |].
  symmetry. apply Z.ltb_lt. unfold len. lia.
Qed.

(** With five entries or more the result is decided by the two variance
    tests. *)
Lemma _analyze_stability_tests self :
  (5 <= List.length (movement_history self))%nat ->
  _analyze_stability self =
  let recent := last_n 5 (movement_history self) in
  match np_var (map m_pitch recent) >? 100, np_var (map m_roll recent) >? 50
  with
  | false, false => (100%Z, [])
  | true, false =>
      (80%Z, ["⚠ Stabilize your movement - too much variation"%string])
  | false, true => (85%Z, ["⚠ Keep your form steady - reduce swaying"%string])
  | true, true =>
      (65%Z, ["⚠ Stabilize your movement - too much variation"%string;
              "⚠ Keep your form steady - reduce swaying"%string])
  end.
Proof.
  intros Hlen. unfold _analyze_stability.
  replace (len (movement_history self) <? 5)%Z with false
    by (symmetry; apply Z.ltb_ge; unfold len; lia).
  cbv zeta.
  destruct (np_var (map m_pitch _) >? 100);
    destruct (np_var (map m_roll _) >? 50); reflexivity.
Qed.

(** X5: the stability score.  With fewer than five entries in the movement
    history nothing is deducted.  Otherwise 20 is deducted from 100 when the
    variance of the last five pitches is above 100, and 15 when the variance
    of the last five rolls is above 50, each with its tag, pitch tag first.
    In terms of the angles: pitches that stay within 10 degrees of some angle
    and rolls that stay within 7 degrees of some angle cost nothing; two
    pitches of the last five whose squared distance is above 1000 (more than
    about 31.6 degrees apart) cost the 20, two rolls whose squared distance
    is above 500 (about 22.4 degrees) the 15. *)
Theorem stability_variance_penalties (self : FormAnalyzer) :
  let recent := last_n 5 (movement_history self) in
  let pitch_variance := np_var (map m_pitch recent) in
  let roll_variance := np_var (map m_roll recent) in
  let pitch_tag := "⚠ Stabilize your movement - too much variation"%string in
  let roll_tag := "⚠ Keep your form steady - reduce swaying"%string in
  let r := _analyze_stability self in
  ((List.length (movement_history self) < 5)%nat -> r = (100%Z, [])) /\
  ((5 <= List.length (movement_history self))%nat ->
   (pitch_variance <= 100 -> roll_variance <= 50 -> r = (100%Z, [])) /\
   (100 < pitch_variance -> roll_variance <= 50 -> r = (80%Z, [pitch_tag])) /\
   (pitch_variance <= 100 -> 50 < roll_variance -> r = (85%Z, [roll_tag])) /\
   (100 < pitch_variance -> 50 < roll_variance ->
    r = (65%Z, [pitch_tag; roll_tag])) /\
   (forall p q,
       Forall (fun m => p - 10 <= m_pitch m <= p + 10 /\
                        q - 7 <= m_roll m <= q + 7) recent ->
       r = (100%Z, [])) /\
   (forall m1 m2,
       In m1 recent -> In m2 recent ->
       1000 < (m_pitch m1 - m_pitch m2) * (m_pitch m1 - m_pitch m2) ->
       (fst r <= 80)%Z /\ In pitch_tag (snd r)) /\
   (forall m1 m2,
       In m1 recent -> In m2 recent ->
       500 < (m_roll m1 - m_roll m2) * (m_roll m1 - m_roll m2) ->
       (fst r <= 85)%Z /\ In roll_tag (snd r))).
Proof.
  intros recent pitch_variance roll_variance pitch_tag roll_tag r.
  split; [apply _analyze_stability_short |].
  intros Hlen.
  pose proof (_analyze_stability_tests self Hlen) as Hr.
  cbv zeta in Hr. fold recent pitch_variance roll_variance r in Hr.
  fold pitch_tag roll_tag in Hr.
  assert (Hcases :
    (pitch_variance <= 100 -> roll_variance <= 50 -> r = (100%Z, [])) /\
    (100 < pitch_variance -> roll_variance <= 50 -> r = (80%Z, [pitch_tag])) /\
    (pitch_variance <= 100 -> 50 < roll_variance -> r = (85%Z, [roll_tag])) /\
    (100 < pitch_variance -> 50 < roll_variance ->
     r = (65%Z, [pitch_tag; roll_tag]))).
  { rewrite Hr.
    destruct (pitch_variance >? 100) eqn:Hp;
      destruct (roll_variance >? 50) eqn:Hq; order_facts;
      repeat split; intros; try reflexivity; exfalso; lra. }
  destruct Hcases as (Hnone & Hpitch & Hroll & Hboth).
  split; [exact Hnone |]. split; [exact Hpitch |].
  split; [exact Hroll |]. split; [exact Hboth |].
  destruct (last_five (movement_history self) Hlen)
    as (a1 & a2 & a3 & a4 & a5 & Hrecent).
  split; [| split].
  - intros p q Hband. unfold recent in Hband. rewrite Hrecent in Hband.
    apply Hnone.
    + unfold pitch_variance, recent. rewrite Hrecent. cbn [map].
      apply Qle_trans with (10 * 10); [| discriminate].
      apply (np_var_band p 10).
      repeat match goal with
             | H : Forall _ (_ :: _) |- _ =>
                 let Hh := fresh in let Ht := fresh in
                 inversion H as [| ? ? Hh Ht]; subst; clear H
             end.
      repeat constructor; cbn in *; tauto.
    + unfold roll_variance, recent. rewrite Hrecent. cbn [map].
      apply Qle_trans with (7 * 7); [| discriminate].
      apply (np_var_band q 7).
      repeat match goal with
             | H : Forall _ (_ :: _) |- _ =>
                 let Hh := fresh in let Ht := fresh in
                 inversion H as [| ? ? Hh Ht]; subst; clear H
             end.
      repeat constructor; cbn in *; tauto.
  - intros m1 m2 H1 H2 Hfar.
    unfold recent in H1, H2. rewrite Hrecent in H1, H2.
    assert (Hvar : 100 < pitch_variance).
    { pose proof (np_var_spread (m_pitch m1) (m_pitch m2) (m_pitch a1)
                    (m_pitch a2) (m_pitch a3) (m_pitch a4) (m_pitch a5)) as Hs.
      unfold pitch_variance, recent. rewrite Hrecent. cbn [map].
      assert (Hin1 := in_map m_pitch _ _ H1).
      assert (Hin2 := in_map m_pitch _ _ H2).
      specialize (Hs Hin1 Hin2). lra. }
    destruct (Qlt_le_dec 50 roll_variance) as [Hq | Hq].
    + rewrite (Hboth Hvar Hq). cbn. split; [lia | auto].
    + rewrite (Hpitch Hvar Hq). cbn. split; [lia | auto].
  - intros m1 m2 H1 H2 Hfar.
    unfold recent in H1, H2. rewrite Hrecent in H1, H2.
    assert (Hvar : 50 < roll_variance).
    { pose proof (np_var_spread (m_roll m1) (m_roll m2) (m_roll a1)
                    (m_roll a2) (m_roll a3) (m_roll a4) (m_roll a5)) as Hs.
      unfold roll_variance, recent. rewrite Hrecent. cbn [map].
      assert (Hin1 := in_map m_roll _ _ H1).
      assert (Hin2 := in_map m_roll _ _ H2).
      specialize (Hs Hin1 Hin2). lra. }
    destruct (Qlt_le_dec 100 pitch_variance) as [Hp | Hp].
    + rewrite (Hboth Hp Hvar). cbn. split; [lia | auto].
    + rewrite (Hroll Hp Hvar). cbn. split; [lia | auto].
Qed.

(** ** Calls of [analyze] that return *)

Lemma before_dispatch_fields clock self pitch roll sensor_data :
  let self1 := before_dispatch clock self pitch roll sensor_data in
  movement_history self1 =
    (let history :=
       movement_history self ++
       [{| m_pitch := pitch; m_roll := roll; m_timestamp := clock |}] in
     if (len history >? 20)%Z then tl history else history) /\
  range_of_motion self1 =
    (Qmin (fst (range_of_motion self)) pitch,
     Qmax (snd (range_of_motion self)) pitch) /\
  rep_state self1 = rep_state self /\
  rep_durations self1 = rep_durations self /\
  last_rep_time self1 = last_rep_time self /\
  current_form_score self1 = current_form_score self /\
  current_feedback self1 = current_feedback self /\
  step_count self1 = step_count self /\
  _last_step_time self1 = _last_step_time self /\
  _step_buffer self1 = _step_buffer self /\
  _last_metric_time self1 = _last_metric_time self /\
  _calories_accum self1 = _calories_accum self /\
  latest_metrics self1 = latest_metrics self.
Proof.
  unfold before_dispatch. cbv zeta. destruct (_ || _); cbn; auto 20.
Qed.

Section Returned.

Context {M : MathLib} {T : TrigLib}.

Lemma returned_is_analyze clock self mesh exercise pitch roll sensor_data
  self' mesh' r :
  analyze_with_mesh clock self mesh exercise pitch roll sensor_data =
    Returned self' mesh' r ->
  analyze clock self exercise pitch roll sensor_data = (self', r).
Proof.
  unfold analyze_with_mesh.
  destruct (HumanMesh.update_joint_positions pitch roll exercise mesh);
    [| discriminate].
  destruct (analyze clock self exercise pitch roll sensor_data) as [s a].
  intros H. injection H as -> _ ->. reflexivity.
Qed.

(** A rep flagged by [analyze] is an [up -> down] transition. *)
Lemma analyze_rep_transition clock self exercise pitch roll sensor_data :
  let r := analyze clock self exercise pitch roll sensor_data in
  rep_detected_of (snd r) = true ->
  rep_state self = up /\ rep_state (fst r) = down.
Proof.
  intros r Hrep.
  pose proof (analyze_dispatch clock self exercise pitch roll sensor_data)
    as Hd. cbv zeta in Hd.
  destruct (before_dispatch_fields clock self pitch roll sensor_data)
    as (_ & _ & Hst & _).
  destruct (dispatch exercise) as [analyzer |] eqn:Hdisp.
  - destruct Hd as (Hr & _ & _ & _ & _ & _ & Hstate & _).
    fold r in Hr, Hstate. rewrite Hr in Hrep.
    destruct (dispatch_contract exercise analyzer Hdisp clock
                (before_dispatch clock self pitch roll sensor_data)
                pitch roll sensor_data) as (_ & Hyes & _).
    destruct (Hyes Hrep) as (Hup & Hdown & _).
    rewrite Hstate, <- Hst. auto.
  - unfold r in Hrep. rewrite Hd in Hrep. discriminate.
Qed.

(** X6: a call of [analyze] that returns gives a score between 0 and 100.
    For a recognized exercise the score is at least 10 and is stored, with the
    feedback, in [current_form_score] and [current_feedback]; for any other
    name the score is 0 and the stored score and feedback stay. *)
Theorem analyze_score_range clock self mesh exercise pitch roll sensor_data
  self' mesh' r :
  analyze_with_mesh clock self mesh exercise pitch roll sensor_data =
    Returned self' mesh' r ->
  (0 <= score_of r <= 100)%Z /\
  (dispatch exercise <> None ->
   (10 <= score_of r)%Z /\
   current_form_score self' = score_of r /\
   current_feedback self' = feedback_of r) /\
  (dispatch exercise = None ->
   score_of r = 0%Z /\
   current_form_score self' = current_form_score self /\
   current_feedback self' = current_feedback self).
Proof.
  intros Hret. apply returned_is_analyze in Hret.
  pose proof (analyze_dispatch clock self exercise pitch roll sensor_data)
    as Hd. cbv zeta in Hd. rewrite Hret in Hd. cbn [fst snd] in Hd.
  destruct (before_dispatch_fields clock self pitch roll sensor_data)
    as (_ & _ & _ & _ & _ & Hscore & Hfb & _).
  destruct (dispatch exercise) as [analyzer |] eqn:Hdisp.
  - destruct Hd as (_ & Hsc & Hcur & Hcfb & _).
    destruct (dispatch_contract exercise analyzer Hdisp clock
                (before_dispatch clock self pitch roll sensor_data)
                pitch roll sensor_data) as (_ & _ & _ & Hrange & _).
    pose proof (stability_range
                  (fst (analyzer clock
                          (before_dispatch clock self pitch roll sensor_data)
                          pitch roll sensor_data))) as Hstab.
    assert (Hlow : (10 <= score_of r <= 100)%Z).
    { rewrite Hsc. destruct (snd (_analyze_stability _)); lia. }
    split; [lia |]. split; [intros _; split; [lia | auto] |].
    intros Hnone. discriminate.
  - injection Hd as -> ->. cbn.
    split; [lia |]. split; [intros Hne; contradiction |].
    intros _. auto.
Qed.

(** X7: [analyze] never flags a rep on two calls in a row, whatever the two
    exercise names and samples: a flagged rep leaves the state [down], and a
    rep needs the state [up]. *)
Theorem no_rep_on_consecutive_calls
  clock1 self mesh exercise1 pitch1 roll1 sensor_data1 self1 mesh1 r1
  clock2 exercise2 pitch2 roll2 sensor_data2 self2 mesh2 r2 :
  analyze_with_mesh clock1 self mesh exercise1 pitch1 roll1 sensor_data1 =
    Returned self1 mesh1 r1 ->
  analyze_with_mesh clock2 self1 mesh1 exercise2 pitch2 roll2 sensor_data2 =
    Returned self2 mesh2 r2 ->
  rep_detected_of r1 = true ->
  rep_detected_of r2 = false.
Proof.
  intros Hret1 Hret2 Hrep1.
  apply returned_is_analyze in Hret1, Hret2.
  pose proof (analyze_rep_transition clock1 self exercise1 pitch1 roll1
                sensor_data1) as H1.
  pose proof (analyze_rep_transition clock2 self1 exercise2 pitch2 roll2
                sensor_data2) as H2.
  cbv zeta in H1, H2. rewrite Hret1 in H1. rewrite Hret2 in H2.
  cbn [fst snd] in H1, H2.
  destruct (H1 Hrep1) as [_ Hdown].
  destruct (rep_detected_of r2); [| reflexivity].
  destruct (H2 eq_refl) as [Hup _]. congruence.
Qed.

(** X8: a call of [analyze] without a sensor dictionary, and a call for an
    unrecognized exercise name (even with a dictionary), leave the step
    state, the calories and the metrics snapshot untouched: such a sample is
    not counted by the analytics path. *)
Theorem analytics_skipped clock self mesh exercise pitch roll sensor_data
  self' mesh' r :
  analyze_with_mesh clock self mesh exercise pitch roll sensor_data =
    Returned self' mesh' r ->
  sensor_data = None \/ dispatch exercise = None ->
  step_count self' = step_count self /\
  _last_step_time self' = _last_step_time self /\
  _step_buffer self' = _step_buffer self /\
  _last_metric_time self' = _last_metric_time self /\
  _calories_accum self' = _calories_accum self /\
  latest_metrics self' = latest_metrics self.
Proof.
  intros Hret Hwhy. apply returned_is_analyze in Hret.
  pose proof (analyze_dispatch clock self exercise pitch roll sensor_data)
    as Hd. cbv zeta in Hd. rewrite Hret in Hd. cbn [fst snd] in Hd.
  destruct (before_dispatch_fields clock self pitch roll sensor_data)
    as (_ & _ & _ & _ & _ & _ & _ & B1 & B2 & B3 & B4 & B5 & B6).
  destruct (dispatch exercise) as [analyzer |] eqn:Hdisp.
  - destruct Hwhy as [-> | Hnone]; [| discriminate].
    destruct Hd as (_ & _ & _ & _ & _ & _ & _ & _ & _ & A1 & A2 & A3 & A4 & A5 & A6).
    destruct (dispatch_contract exercise analyzer Hdisp clock
                (before_dispatch clock self pitch roll None)
                pitch roll None) as (_ & _ & _ & _ & C1 & C2 & C3 & C4 & C5 & C6).
    rewrite A1, A2, A3, A4, A5, A6, C1, C2, C3, C4, C5, C6.
    auto 10.
  - injection Hd as -> _. auto 10.
Qed.

End Returned.

(** ** Sessions of [analyze] *)

Lemma tl_skipn {A} (k : nat) (l : list A) : tl (skipn k l) = skipn (S k) l.
Proof.
  revert l. induction k as [| k IH]; intros [| a l]; try reflexivity.
  cbn [skipn]. rewrite IH. destruct l; reflexivity.
Qed.

(** A sliding window of [n] entries, one entry further. *)
Lemma last_n_snoc {A} (n : nat) (l : list A) (e : A) :
  (0 < n)%nat ->
  last_n n (l ++ [e]) =
  (let h := last_n n l ++ [e] in
   if (len h >? Z.of_nat n)%Z then tl h else h).
Proof.
  intros Hn. cbv zeta. unfold last_n, len.
  rewrite !length_app, length_skipn. cbn [List.length].
  destruct (Nat.le_gt_cases n (List.length l)) as [Hfull | Hshort].
  - replace (_ >? _)%Z with true by (symmetry; apply Z.gtb_lt; lia).
    rewrite skipn_app.
    replace (List.length l + 1 - n - List.length l)%nat with 0%nat by lia.
    cbn [skipn].
    replace (List.length l + 1 - n)%nat with (S (List.length l - n)) by lia.
    rewrite <- tl_skipn.
    assert (Hlen : List.length (skipn (List.length l - n) l) = n)
      by (rewrite length_skipn; lia).
    destruct (skipn (List.length l - n) l); [cbn in Hlen; lia | reflexivity].
  - replace (_ >? _)%Z with false
      by (symmetry; rewrite Z.gtb_ltb; apply Z.ltb_ge; lia).
    replace (List.length l - n)%nat with 0%nat by lia.
    replace (List.length l + 1 - n)%nat with 0%nat by lia.
    reflexivity.
Qed.

Lemma last_n_length {A} (n : nat) (l : list A) :
  (List.length (last_n n l) <= n)%nat.
Proof. unfold last_n. rewrite length_skipn. lia. Qed.

Lemma last_n_app_last_n {A} (n : nat) (a b : list A) :
  last_n n (last_n n a ++ b) = last_n n (a ++ b).
Proof.
  unfold last_n at 2.
  set (k := (List.length a - n)%nat).
  assert (Hk : skipn k a ++ b = skipn k (a ++ b)).
  { rewrite skipn_app. replace (k - List.length a)%nat with 0%nat by lia.
    reflexivity. }
  rewrite Hk. unfold last_n. rewrite length_skipn, skipn_skipn.
  f_equal. rewrite length_app. lia.
Qed.

Section HistorySessions.

Context {M : MathLib}.

Lemma analyze_movement_history clock self exercise pitch roll sensor_data :
  movement_history (fst (analyze clock self exercise pitch roll sensor_data)) =
  movement_history (before_dispatch clock self pitch roll sensor_data).
Proof.
  pose proof (analyze_dispatch clock self exercise pitch roll sensor_data)
    as Hd. cbv zeta in Hd.
  destruct (dispatch exercise) as [analyzer |] eqn:Hdisp.
  - destruct Hd as (_ & _ & _ & _ & Hh & _). rewrite Hh.
    apply (dispatch_contract exercise analyzer Hdisp).
  - rewrite Hd. reflexivity.
Qed.

Lemma analyze_all_movement_history exercise samples : forall self,
  (List.length (movement_history self) <= 20)%nat ->
  movement_history (fst (analyze_all self exercise samples)) =
  last_n 20 (movement_history self ++ map movement_of samples).
Proof.
  induction samples as [| [[[clock pitch] roll] sensor_data] rest IH];
    intros self Hlen.
  - cbn. rewrite app_nil_r. symmetry. apply last_n_short. exact Hlen.
  - cbn [analyze_all map].
    pose proof (analyze_movement_history clock self exercise pitch roll
                  sensor_data) as Hh.
    destruct (before_dispatch_fields clock self pitch roll sensor_data)
      as (Hb & _). rewrite Hb in Hh. clear Hb.
    destruct (analyze clock self exercise pitch roll sensor_data)
      as [self1 result].
    cbn [fst] in Hh.
    specialize (IH self1).
    destruct (analyze_all self1 exercise rest) as [final results].
    cbn [fst] in *.
    assert (Hwin : movement_history self1 =
                   last_n 20 (movement_history self ++
                              [movement_of (clock, pitch, roll, sensor_data)])).
    { rewrite Hh, last_n_snoc by lia.
      rewrite (last_n_short 20 (movement_history self)) by exact Hlen.
      reflexivity. }
    rewrite IH by (rewrite Hwin; apply last_n_length).
    rewrite Hwin, last_n_app_last_n, <- app_assoc. reflexivity.
Qed.

(** X9: over a session from a fresh analyzer, for any exercise name whose
    calls return, the movement history is the sliding window of the last 20
    samples: their pitch, roll and clock reading, oldest first. *)
Theorem movement_history_window model exercise samples :
  exercise <> "squat"%string ->
  exercise <> "pushup"%string ->
  let final := fst (analyze_all (init model) exercise samples) in
  movement_history final = last_n 20 (map movement_of samples) /\
  List.length (movement_history final) = Nat.min 20 (List.length samples).
Proof.
  intros _ _ final.
  assert (Hwin : movement_history final = last_n 20 (map movement_of samples)).
  { unfold final. rewrite analyze_all_movement_history by (cbn; lia).
    reflexivity. }
  split; [exact Hwin |].
  rewrite Hwin. unfold last_n. rewrite length_skipn, length_map. lia.
Qed.

End HistorySessions.

(** ** Rep metrics over a session *)

Section RepSessions.

Context {M : MathLib}.

Lemma _update_rep_metrics_durations clock (s1 s : FormAnalyzer) :
  rep_durations s1 = rep_durations s ->
  last_rep_time s1 = last_rep_time s ->
  rep_durations (_update_rep_metrics clock s1) =
  rep_durations (_update_rep_metrics clock s).
Proof.
  intros H1 H2. unfold _update_rep_metrics.
  cbn [rep_durations set_rep_metrics]. rewrite H1, H2. reflexivity.
Qed.

(** What [analyze] does to the rep metrics: a flagged rep records the time of
    the call and, from the second rep on, the time since the previous one,
    keeping five durations; any other call leaves them alone. *)
Lemma analyze_rep_metrics clock self exercise pitch roll sensor_data :
  let r := analyze clock self exercise pitch roll sensor_data in
  (rep_detected_of (snd r) = true ->
   rep_durations (fst r) = rep_durations (_update_rep_metrics clock self) /\
   last_rep_time (fst r) = Some clock /\
   range_of_motion (fst r) = (0, 0)) /\
  (rep_detected_of (snd r) = false ->
   rep_durations (fst r) = rep_durations self /\
   last_rep_time (fst r) = last_rep_time self /\
   range_of_motion (fst r) =
     (Qmin (fst (range_of_motion self)) pitch,
      Qmax (snd (range_of_motion self)) pitch)).
Proof.
  intros r.
  pose proof (analyze_dispatch clock self exercise pitch roll sensor_data)
    as Hd. cbv zeta in Hd.
  destruct (before_dispatch_fields clock self pitch roll sensor_data)
    as (_ & Hrom & _ & Hdur & Hlast & _).
  destruct (dispatch exercise) as [analyzer |] eqn:Hdisp.
  - destruct Hd as (Hr & _ & _ & _ & _ & Hr2 & _ & Hd2 & Hl2 & _).
    fold r in Hr, Hr2, Hd2, Hl2.
    destruct (dispatch_contract exercise analyzer Hdisp clock
                (before_dispatch clock self pitch roll sensor_data)
                pitch roll sensor_data) as (_ & Hyes & Hno & _).
    rewrite Hr, Hr2, Hd2, Hl2. split.
    + intros Hrep. destruct (Hyes Hrep) as (_ & _ & -> & -> & ->).
      split; [| auto].
      apply _update_rep_metrics_durations; assumption.
    + intros Hrep. destruct (Hno Hrep) as (-> & -> & ->).
      rewrite Hrom, Hdur, Hlast. auto.
  - unfold r. rewrite Hd. cbn [fst snd]. split; [discriminate |].
    intros _. rewrite Hrom, Hdur, Hlast. auto.
Qed.

(** The rep metrics after [n] reps of a session. *)
Let recorded (self : FormAnalyzer) (n : nat) : Prop :=
  match n with
  | O => last_rep_time self = None /\ rep_durations self = []
  | S k => last_rep_time self <> None /\
           List.length (rep_durations self) = Nat.min 5 k
  end.

Lemma _update_rep_metrics_recorded clock self n :
  recorded self n ->
  (match last_rep_time self with
   | Some _ =>
       List.length (rep_durations (_update_rep_metrics clock self)) =
       Nat.min 5 n
   | None => rep_durations (_update_rep_metrics clock self) = []
   end).
Proof.
  unfold recorded, _update_rep_metrics.
  cbn [rep_durations set_rep_metrics].
  destruct n as [| k]; intros [Hlast Hdur].
  - rewrite Hlast. exact Hdur.
  - destruct (last_rep_time self) as [last |]; [| contradiction].
    unfold len. rewrite length_app. cbn [List.length].
    destruct (Z.of_nat (List.length (rep_durations self) + 1) >? 5)%Z eqn:Hfull.
    + apply Z.gtb_lt in Hfull.
      assert (Happ : List.length (rep_durations self ++ [clock - last]) =
                     S (List.length (rep_durations self)))
        by (rewrite length_app; cbn [List.length]; lia).
      destruct (rep_durations self ++ [clock - last]) as [| d ds];
        cbn [List.length tl] in *; lia.
    + rewrite Z.gtb_ltb in Hfull. apply Z.ltb_ge in Hfull.
      rewrite length_app. cbn [List.length]. lia.
Qed.

Lemma analyze_all_recorded exercise samples : forall self n,
  recorded self n ->
  recorded (fst (analyze_all self exercise samples))
    (n + rep_count_of (snd (analyze_all self exercise samples))).
Proof.
  induction samples as [| [[[clock pitch] roll] sensor_data] rest IH];
    intros self n Hrec.
  - cbn. rewrite Nat.add_0_r. exact Hrec.
  - cbn [analyze_all].
    pose proof (analyze_rep_metrics clock self exercise pitch roll sensor_data)
      as [Hyes Hno]. 
    pose proof (_update_rep_metrics_recorded clock self n Hrec) as Hupd.
    destruct (analyze clock self exercise pitch roll sensor_data)
      as [self1 result].
    cbn [fst snd] in Hyes, Hno.
    specialize (IH self1).
    destruct (analyze_all self1 exercise rest) as [final results].
    cbn [fst snd] in *.
    unfold rep_count_of. cbn [filter].
    destruct (rep_detected_of result) eqn:Hrep.
    + destruct (Hyes eq_refl) as (Hdur & Hlast & _).
      cbn [List.length]. rewrite Nat.add_succ_r, <- Nat.add_succ_l.
      apply IH. cbn. rewrite Hlast. split; [discriminate |].
      rewrite Hdur.
      destruct n as [| k].
      * destruct Hrec as [Hnone _]. rewrite Hnone in Hupd. rewrite Hupd.
        reflexivity.
      * destruct Hrec as [Hsome _].
        destruct (last_rep_time self); [exact Hupd | contradiction].
    + destruct (Hno eq_refl) as (Hdur & Hlast & _).
      apply IH. destruct n; cbn in *; rewrite Hdur, Hlast; exact Hrec.
Qed.

(** X10: over a session from a fresh analyzer, [rep_durations] holds one
    duration per flagged rep after the first, five at most, and
    [last_rep_time] is set exactly when a rep has been flagged. *)
Theorem rep_durations_count model exercise samples :
  exercise <> "squat"%string ->
  exercise <> "pushup"%string ->
  let final := fst (analyze_all (init model) exercise samples) in
  let reps := rep_count_of (snd (analyze_all (init model) exercise samples)) in
  List.length (rep_durations final) = Nat.min 5 (reps - 1) /\
  (last_rep_time final = None <-> reps = 0%nat).
Proof.
  intros _ _ final reps.
  pose proof (analyze_all_recorded exercise samples (init model) 0
                (conj eq_refl eq_refl)) as Hrec.
  cbn [Nat.add] in Hrec. fold final in Hrec. fold reps in Hrec.
  destruct reps as [| k]; cbn in Hrec.
  - destruct Hrec as [Hnone Hdur]. rewrite Hdur, Hnone. cbn. tauto.
  - destruct Hrec as [Hsome Hdur]. rewrite Hdur.
    replace (S k - 1)%nat with k by lia.
    split; [reflexivity |]. split; [intros H; contradiction | discriminate].
Qed.

End RepSessions.

(** ** Range of motion *)

(** X11: a call of [analyze] that returns with a rep resets the range of
    motion to (0, 0); one that returns without a rep widens it just enough to
    hold the pitch of the sample. *)
Theorem range_of_motion_tracking {M : MathLib} {T : TrigLib}
  clock self mesh exercise pitch roll sensor_data self' mesh' r :
  analyze_with_mesh clock self mesh exercise pitch roll sensor_data =
    Returned self' mesh' r ->
  (rep_detected_of r = true -> range_of_motion self' = (0, 0)) /\
  (rep_detected_of r = false ->
   range_of_motion self' =
     (Qmin (fst (range_of_motion self)) pitch,
      Qmax (snd (range_of_motion self)) pitch) /\
   fst (range_of_motion self') <= pitch /\
   pitch <= snd (range_of_motion self') /\
   fst (range_of_motion self') <= fst (range_of_motion self) /\
   snd (range_of_motion self) <= snd (range_of_motion self')).
Proof.
  intros Hret. apply returned_is_analyze in Hret.
  pose proof (analyze_rep_metrics clock self exercise pitch roll sensor_data)
    as Hm. cbv zeta in Hm. rewrite Hret in Hm. cbn [fst snd] in Hm.
  destruct Hm as [Hyes Hno]. split.
  - intros Hrep. apply (Hyes Hrep).
  - intros Hrep. destruct (Hno Hrep) as (_ & _ & Hrom).
    rewrite Hrom. cbn [fst snd].
    split; [reflexivity |].
    split; [apply Q.le_min_r |]. split; [apply Q.le_max_r |].
    split; [apply Q.le_min_l | apply Q.le_max_l].
Qed.

(** ** The step buffer and the cadence *)

Section Buffer.

Context {M : MathLib}.

(** The buffer entry a sample leaves. *)
Let entry (s : Q * SensorData) : Q * Q :=
  (sample_time (fst s) (snd s), acc_magnitude_of (snd s)).

Lemma process_all_step_buffer samples : forall self,
  (List.length (_step_buffer self) <= _step_buffer_maxlen)%nat ->
  _step_buffer (process_all self samples) =
  last_n _step_buffer_maxlen (_step_buffer self ++ map entry samples).
Proof.
  induction samples as [| [clock d] rest IH]; intros self Hlen.
  - cbn [process_all map]. rewrite app_nil_r. symmetry.
    apply last_n_short. exact Hlen.
  - cbn [process_all map].
    destruct (process_steps clock self d) as (Hbuf & _).
    rewrite IH by (rewrite Hbuf; apply last_n_length).
    rewrite Hbuf. unfold deque_append.
    rewrite last_n_app_last_n, <- app_assoc. reflexivity.
Qed.

(** X12: over a session of the analytics path from a fresh analyzer the step
    buffer is the sliding window of the last 100 samples, each as its time and
    acceleration magnitude, oldest first: it never holds more than 100. *)
Theorem step_buffer_window model samples :
  let final := process_all (init model) samples in
  _step_buffer final =
    last_n 100
      (map (fun s => (sample_time (fst s) (snd s), acc_magnitude_of (snd s)))
         samples) /\
  List.length (_step_buffer final) = Nat.min 100 (List.length samples).
Proof.
  intros final.
  assert (Hwin : _step_buffer final = last_n 100 (map entry samples)).
  { unfold final. rewrite process_all_step_buffer by (cbn; lia). reflexivity. }
  split; [exact Hwin |].
  rewrite Hwin. unfold last_n. rewrite length_skipn, length_map. lia.
Qed.

(** X13: the cadence of a processed sample is a multiple of 6 between 6 and
    600: the sample itself is in the buffer and inside the window, and the
    buffer holds at most 100 samples. *)
Theorem cadence_range clock self d :
  let self' := _process_activity_and_steps clock self d in
  let cadence := cadence_of (_step_buffer self') (sample_time clock d) in
  (6 <= cadence <= 600)%Z /\
  (cadence mod 6 = 0)%Z /\
  cadence =
    (len (samples_in_window (_step_buffer self') (sample_time clock d)) * 6)%Z.
Proof.
  intros self' cadence. unfold cadence.
  rewrite cadence_counts_buffered_samples.
  destruct (process_steps clock self d) as (Hbuf & _). fold self' in Hbuf.
  set (now := sample_time clock d) in *.
  set (e := (now, acc_magnitude_of d)) in *.
  assert (Hshape : _step_buffer self' =
                   skipn (List.length (_step_buffer self) + 1 - 100)
                     (_step_buffer self) ++ [e]).
  { rewrite Hbuf. unfold deque_append, last_n, _step_buffer_maxlen.
    rewrite length_app, skipn_app. cbn [List.length].
    replace (List.length (_step_buffer self) + 1 - 100 -
             List.length (_step_buffer self))%nat with 0%nat by lia.
    reflexivity. }
  assert (Hle : (List.length (_step_buffer self') <= 100)%nat).
  { rewrite Hbuf. apply last_n_length. }
  assert (Hin : (fst e >=? now - 10.0) = true).
  { apply Qgeb_ge. cbn. lra. }
  unfold samples_in_window, len.
  assert (Hup : (List.length
                   (filter (fun e0 => fst e0 >=? now - 10.0)
                      (_step_buffer self')) <=
                 List.length (_step_buffer self'))%nat)
    by apply filter_length_le.
  assert (Hlow : (1 <= List.length
                        (filter (fun e0 => fst e0 >=? now - 10.0)
                           (_step_buffer self')))%nat).
  { rewrite Hshape, filter_app, length_app. cbn [filter]. rewrite Hin.
    cbn [List.length]. lia. }
  split; [lia |]. split; [apply Z_mod_mult | reflexivity].
Qed.

End Buffer.

(** ** The heuristic classifier *)

Lemma heuristic_labels cadence_spm acc_mag gyro_mag :
  let r := _simple_activity_classification cadence_spm acc_mag gyro_mag in
  fst r = "stationary"%string \/ fst r = "walking"%string \/
  fst r = "running"%string.
Proof.
  unfold _simple_activity_classification. destruct_ifs; cbn; auto.
Qed.

Lemma heuristic_confidence cadence_spm acc_mag gyro_mag :
  (0 <= cadence_spm)%Z ->
  let r := _simple_activity_classification cadence_spm acc_mag gyro_mag in
  0.3 <= snd r /\ snd r <= 1.
Proof.
  intros Hcad. unfold _simple_activity_classification, float.
  assert (Hc : 0 <= inject_Z cadence_spm).
  { rewrite (Zle_Qle 0) in Hcad. exact Hcad. }
  destruct ((cadence_spm <? 20)%Z && (acc_mag <? 1.05) && (gyro_mag <? 80));
    [cbn; split; discriminate |].
  destruct ((cadence_spm >=? 80)%Z || ((gyro_mag >? 300) && (acc_mag >? 1.2)))
    eqn:Hrun.
  - cbn [snd].
    assert (Hmax : 0 <= Qmax ((inject_Z cadence_spm - 80) / 120.0)
                             ((gyro_mag - 300) / 400.0)).
    { apply orb_true_iff in Hrun. destruct Hrun as [Hhigh | Hstrong].
      - apply Qle_trans with ((inject_Z cadence_spm - 80) / 120.0);
          [| apply Q.le_max_l].
        rewrite Z.geb_leb in Hhigh. apply Z.leb_le in Hhigh.
        apply Qle_shift_div_l; [reflexivity |].
        rewrite (Zle_Qle 80) in Hhigh.
        change (inject_Z 80) with 80 in Hhigh. lra.
      - apply Qle_trans with ((gyro_mag - 300) / 400.0);
          [| apply Q.le_max_r].
        order_facts. apply Qle_shift_div_l; [reflexivity | lra]. }
    split.
    + apply Q.min_glb; [discriminate | lra].
    + apply Qle_trans with 1.0; [apply Q.le_min_l | discriminate].
  - destruct ((cadence_spm >=? 20)%Z || (acc_mag >? 1.05) || (gyro_mag >? 120));
      [| cbn; split; discriminate].
    cbn [snd].
    assert (Hmax : 0 <= Qmax (inject_Z cadence_spm / 120.0) (acc_mag - 1.0)).
    { apply Qle_trans with (inject_Z cadence_spm / 120.0);
        [| apply Q.le_max_l].
      apply Qle_shift_div_l; [reflexivity | lra]. }
    split.
    + apply Q.min_glb; [discriminate | lra].
    + apply Qle_trans with 0.9; [apply Q.le_min_l | discriminate].
Qed.

(** X14: the heuristic classifier answers one of three labels.  It answers
    "running" exactly when the cadence is at least 80 or the gyroscope
    magnitude is above 300 with the acceleration magnitude above 1.2, and
    "stationary" exactly when the cadence is below 20, the acceleration
    magnitude at most 1.05 and the gyroscope magnitude at most 120.  For a
    cadence that is not negative its confidence lies between 0.3 and 1. *)
Theorem heuristic_classification cadence_spm acc_mag gyro_mag :
  let r := _simple_activity_classification cadence_spm acc_mag gyro_mag in
  (fst r = "stationary"%string \/ fst r = "walking"%string \/
   fst r = "running"%string) /\
  (fst r = "running"%string <->
   (80 <= cadence_spm)%Z \/ (300 < gyro_mag /\ 1.2 < acc_mag)) /\
  (fst r = "stationary"%string <->
   (cadence_spm < 20)%Z /\ acc_mag <= 1.05 /\ gyro_mag <= 120) /\
  ((0 <= cadence_spm)%Z -> 0.3 <= snd r /\ snd r <= 1).
Proof.
  intros r.
  split; [apply heuristic_labels |].
  split; [| split; [| apply heuristic_confidence]].
  - unfold r, _simple_activity_classification.
    destruct ((cadence_spm <? 20)%Z && (acc_mag <? 1.05) && (gyro_mag <? 80))
      eqn:Hidle.
    + cbn [fst]. split; [discriminate |].
      apply andb_true_iff in Hidle. destruct Hidle as [Hidle Hg].
      apply andb_true_iff in Hidle. destruct Hidle as [Hc Ha].
      apply Z.ltb_lt in Hc. order_facts. intros [H | [H1 H2]]; [lia | lra].
    + destruct ((cadence_spm >=? 80)%Z ||
                ((gyro_mag >? 300) && (acc_mag >? 1.2))) eqn:Hrun.
      * cbn [fst]. split; [intros _ | reflexivity].
        apply orb_true_iff in Hrun. destruct Hrun as [Hhigh | Hstrong].
        -- left. rewrite Z.geb_leb in Hhigh. apply Z.leb_le in Hhigh. exact Hhigh.
        -- right. order_facts. auto.
      * assert (Hnot : ~ ((80 <= cadence_spm)%Z \/
                          (300 < gyro_mag /\ 1.2 < acc_mag))).
        { apply orb_false_iff in Hrun. destruct Hrun as [Hhigh Hstrong].
          rewrite Z.geb_leb in Hhigh. apply Z.leb_gt in Hhigh.
          intros [H | [H1 H2]]; [lia |].
          apply Qgtb_gt in H1, H2. rewrite H1, H2 in Hstrong. discriminate. }
        destruct_ifs; cbn [fst]; split; intros; try discriminate; tauto.
  - unfold r, _simple_activity_classification.
    destruct ((cadence_spm <? 20)%Z && (acc_mag <? 1.05) && (gyro_mag <? 80))
      eqn:Hidle.
    + cbn [fst]. split; [intros _ | reflexivity].
      apply andb_true_iff in Hidle. destruct Hidle as [Hidle Hg].
      apply andb_true_iff in Hidle. destruct Hidle as [Hc Ha].
      apply Z.ltb_lt in Hc. order_facts. repeat split; [lia | lra | lra].
    + destruct ((cadence_spm >=? 80)%Z ||
                ((gyro_mag >? 300) && (acc_mag >? 1.2))) eqn:Hrun.
      * cbn [fst]. split; [discriminate |].
        intros (Hc & Ha & Hg).
        apply orb_true_iff in Hrun. destruct Hrun as [Hhigh | Hstrong].
        -- rewrite Z.geb_leb in Hhigh. apply Z.leb_le in Hhigh. lia.
        -- order_facts. lra.
      * destruct ((cadence_spm >=? 20)%Z || (acc_mag >? 1.05) ||
                  (gyro_mag >? 120)) eqn:Hwalk.
        -- cbn [fst]. split; [discriminate |].
           intros (Hc & Ha & Hg).
           apply orb_true_iff in Hwalk. destruct Hwalk as [Hwalk | Hg'].
           ++ apply orb_true_iff in Hwalk. destruct Hwalk as [Hc' | Ha'].
              ** rewrite Z.geb_leb in Hc'. apply Z.leb_le in Hc'. lia.
              ** order_facts. lra.
           ++ order_facts. lra.
        -- cbn [fst]. split; [intros _ | reflexivity].
           apply orb_false_iff in Hwalk. destruct Hwalk as [Hwalk Hg'].
           apply orb_false_iff in Hwalk. destruct Hwalk as [Hc' Ha'].
           rewrite Z.geb_leb in Hc'. apply Z.leb_gt in Hc'. order_facts.
           auto.
Qed.

(** ** The classifier bridge *)

Section Bridge.

Context {M : MathLib}.

Lemma idle_override_cases cadence_spm acc gyro classified :
  idle_override cadence_spm acc gyro classified = ("stationary"%string, 0.9) \/
  idle_override cadence_spm acc gyro classified = classified.
Proof.
  unfold idle_override. destruct (_ && _); auto.
Qed.

(** X16: without a classifier, and in workout mode, the snapshot reports
    "stationary", "walking" or "running", with a confidence between 0.3
    and 1. *)
Theorem activity_without_classifier clock self d :
  activity_model self = None \/ mode self = workout ->
  let m := latest_metrics (_process_activity_and_steps clock self d) in
  (activity m = "stationary"%string \/ activity m = "walking"%string \/
   activity m = "running"%string) /\
  0.3 <= activityConfidence m /\ activityConfidence m <= 1.
Proof.
  intros Hwhy m.
  destruct (process_activity clock self d) as (Hact & Hconf).
  fold m in Hact, Hconf. rewrite Hact, Hconf.
  set (buffer := deque_append _step_buffer_maxlen (_step_buffer self)
                   (sample_time clock d, acc_magnitude_of d)).
  set (cadence := cadence_of buffer (sample_time clock d)).
  assert (Hcad : (0 <= cadence)%Z).
  { unfold cadence. rewrite cadence_counts_buffered_samples. unfold len. lia. }
  assert (Hheur : classify self d cadence =
                  _simple_activity_classification cadence (acc_magnitude_of d)
                    (gyro_magnitude_of d)).
  { unfold classify. destruct Hwhy as [-> | ->];
      [| destruct (activity_model self)]; reflexivity. }
  rewrite Hheur.
  destruct (idle_override_cases cadence (acc_magnitude_of d)
              (gyro_magnitude_of d)
              (_simple_activity_classification cadence (acc_magnitude_of d)
                 (gyro_magnitude_of d))) as [-> | ->].
  - cbn. split; [auto |]. split; discriminate.
  - split; [apply heuristic_labels | apply heuristic_confidence; exact Hcad].
Qed.

End Bridge.

(** ** The classifier in a session *)

Section ClassifierConfined.

Context {M : MathLib}.

(** A classifier that is not consulted, or that raises, leaves the heuristic
    answer. *)
Lemma classify_silent self d cadence_spm :
  classifier_silent self d ->
  classify self d cadence_spm =
  classify (set_activity_model None self) d cadence_spm.
Proof.
  unfold classifier_silent, classify. cbn [set_activity_model activity_model].
  destruct (activity_model self) as [model |]; [| reflexivity].
  intros [Hmode | Hraises].
  - rewrite Hmode. reflexivity.
  - destruct (mode self); [| reflexivity].
    fold (features_of d).
    destruct Hraises as [Hpredict | (proba & Hproba & Hnone)].
    + rewrite Hpredict. reflexivity.
    + destruct (predict model (features_of d)); [| reflexivity].
      rewrite Hproba, Hnone. reflexivity.
Qed.

(** On such a sample, processing commutes with taking the classifier away. *)
Lemma process_silent clock self d :
  classifier_silent self d ->
  _process_activity_and_steps clock (set_activity_model None self) d =
  set_activity_model None (_process_activity_and_steps clock self d).
Proof.
  intros Hsilent. unfold _process_activity_and_steps.
  cbn [set_activity_model _step_buffer _last_step_time step_count
       user_height_cm _last_metric_time user_weight_kg user_age
       _calories_accum].
  rewrite <- (classify_silent self d _ Hsilent).
  destruct (detect_step _ _ _ _) as [[step_detected last_step] count].
  destruct (idle_override _ _ _ _) as [activity confidence].
  reflexivity.
Qed.

Lemma classifier_silent_kept clock self d d' :
  classifier_silent self d' ->
  classifier_silent (_process_activity_and_steps clock self d) d'.
Proof.
  unfold classifier_silent.
  destruct (process_frame clock self d)
    as (_ & _ & _ & _ & _ & _ & _ & Hmode & Hmodel).
  cbv zeta in Hmode, Hmodel. rewrite Hmode, Hmodel. auto.
Qed.

(** A session on which the classifier stays silent runs as it does without
    the classifier. *)
Lemma session_silent self samples :
  Forall (fun s => classifier_silent self (snd s)) samples ->
  process_all (set_activity_model None self) samples =
    set_activity_model None (process_all self samples) /\
  metrics_trace (set_activity_model None self) samples =
    metrics_trace self samples.
Proof.
  revert self.
  induction samples as [| [clock d] rest IH]; intros self Hsilent.
  - split; reflexivity.
  - inversion Hsilent as [| ? ? Hd Hrest]; subst. cbn [snd] in Hd.
    cbn [process_all metrics_trace]. cbv zeta.
    rewrite (process_silent clock self d Hd).
    destruct (IH (_process_activity_and_steps clock self d)) as [IHp IHm].
    { eapply Forall_impl; [| exact Hrest].
      intros s Hs. apply classifier_silent_kept. exact Hs. }
    rewrite IHp, IHm. split; reflexivity.
Qed.

(** The step state after a sample is decided by the step state before it. *)
Lemma process_steps_agree clock s1 s2 d :
  _step_buffer s1 = _step_buffer s2 ->
  _last_step_time s1 = _last_step_time s2 ->
  step_count s1 = step_count s2 ->
  let s1' := _process_activity_and_steps clock s1 d in
  let s2' := _process_activity_and_steps clock s2 d in
  _step_buffer s1' = _step_buffer s2' /\
  _last_step_time s1' = _last_step_time s2' /\
  step_count s1' = step_count s2' /\
  stepCount (latest_metrics s1') = stepCount (latest_metrics s2') /\
  stepDetected (latest_metrics s1') = stepDetected (latest_metrics s2').
Proof.
  intros Hbuf Hlast Hcount s1' s2'.
  destruct (process_steps clock s1 d) as (B1 & D1 & L1 & C1 & K1).
  destruct (process_steps clock s2 d) as (B2 & D2 & L2 & C2 & K2).
  fold s1' in B1, D1, L1, C1, K1. fold s2' in B2, D2, L2, C2, K2.
  rewrite B1, D1, L1, C1, K1, B2, D2, L2, C2, K2, Hbuf, Hlast, Hcount.
  auto.
Qed.

Lemma session_steps_agree samples : forall s1 s2,
  _step_buffer s1 = _step_buffer s2 ->
  _last_step_time s1 = _last_step_time s2 ->
  step_count s1 = step_count s2 ->
  (_step_buffer (process_all s1 samples) =
     _step_buffer (process_all s2 samples) /\
   _last_step_time (process_all s1 samples) =
     _last_step_time (process_all s2 samples) /\
   step_count (process_all s1 samples) =
     step_count (process_all s2 samples)) /\
  map stepCount (metrics_trace s1 samples) =
    map stepCount (metrics_trace s2 samples) /\
  map stepDetected (metrics_trace s1 samples) =
    map stepDetected (metrics_trace s2 samples) /\
  accepted_times s1 samples = accepted_times s2 samples.
Proof.
  induction samples as [| [clock d] rest IH]; intros s1 s2 Hbuf Hlast Hcount.
  - cbn. auto.
  - destruct (process_steps_agree clock s1 s2 d Hbuf Hlast Hcount)
      as (Hb & Hl & Hc & Hk & Hd).
    cbv zeta in Hb, Hl, Hc, Hk, Hd.
    destruct (IH _ _ Hb Hl Hc) as (Hfinal & Hcounts & Hflags & Htimes).
    cbn [process_all metrics_trace accepted_times map]. cbv zeta.
    rewrite Hk, Hd, Hcounts, Hflags, Htimes. auto.
Qed.

(** X15: what the activity classifier can change in a session.  The step
    detector does not hear it: whatever classifier is installed, the session
    ends with the same step buffer, last step time and step count, and
    reports the same step counts and step flags sample by sample.  A
    classifier that stays silent on every sample of the session (the analyzer
    is in workout mode, or [predict] or [predict_proba] raises on the sample)
    changes nothing at all: every reported snapshot (activity, confidence,
    speed, calories) and the final state are those of the analyzer without a
    classifier. *)
Theorem classifier_confined (self : FormAnalyzer)
  (samples : list (Q * SensorData)) :
  (forall model,
      let other := set_activity_model model self in
      _step_buffer (process_all other samples) =
        _step_buffer (process_all self samples) /\
      _last_step_time (process_all other samples) =
        _last_step_time (process_all self samples) /\
      step_count (process_all other samples) =
        step_count (process_all self samples) /\
      map stepCount (metrics_trace other samples) =
        map stepCount (metrics_trace self samples) /\
      map stepDetected (metrics_trace other samples) =
        map stepDetected (metrics_trace self samples) /\
      accepted_times other samples = accepted_times self samples) /\
  (Forall (fun s => classifier_silent self (snd s)) samples ->
   metrics_trace self samples =
     metrics_trace (set_activity_model None self) samples /\
   process_all (set_activity_model None self) samples =
     set_activity_model None (process_all self samples) /\
   _calories_accum (process_all self samples) =
     _calories_accum (process_all (set_activity_model None self) samples)).
Proof.
  split.
  - intros model other.
    destruct (session_steps_agree samples other self)
      as ((Hb & Hl & Hc) & Hcounts & Hflags & Htimes);
      try reflexivity.
    auto 10.
  - intros Hsilent.
    destruct (session_silent self samples Hsilent) as [Hfinal Htrace].
    split; [symmetry; exact Htrace |]. split; [exact Hfinal |].
    rewrite Hfinal. reflexivity.
Qed.

End ClassifierConfined.

(** A classifier that answers is heard: on the jolt of [late_jolts] it
    reports "running" where the heuristic reports "walking". *)
Example classifier_heard :
  map activity
    (metrics_trace (M := ExactSquares) (init (Some always_running))
       [(7.0, jolt 7.0 3)]) = ["running"%string] /\
  map activity
    (metrics_trace (M := ExactSquares) (init None) [(7.0, jolt 7.0 3)])
    = ["walking"%string].
Proof. split; vm_compute; reflexivity. Qed.

(** ** Running speed *)

Lemma round_half_even_nonneg (y : Q) : 0 <= y -> (0 <= round_half_even y)%Z.
Proof.
  intros Hy. unfold round_half_even. cbv zeta.
  assert (Hf : (0 <= Qfloor y)%Z).
  { change 0%Z with (Qfloor 0). apply Qfloor_resp_le. exact Hy. }
  destruct_ifs; lia.
Qed.

Lemma round_scale_pos (ndigits : nat) : 0 < inject_Z (10 ^ Z.of_nat ndigits).
Proof.
  rewrite <- (Zlt_Qlt 0). apply Z.pow_pos_nonneg; lia.
Qed.

Lemma round_nonneg (x : Q) (ndigits : nat) : 0 <= x -> 0 <= round x ndigits.
Proof.
  intros Hx. unfold round. cbv zeta.
  pose proof (round_scale_pos ndigits) as Hs.
  apply Qle_shift_div_l; [exact Hs |].
  rewrite Qmult_0_l. rewrite <- (Zle_Qle 0).
  apply round_half_even_nonneg.
  apply Qmult_le_0_compat; [exact Hx | apply Qlt_le_weak; exact Hs].
Qed.

Lemma round_zero (x : Q) (ndigits : nat) : x == 0 -> round x ndigits == 0.
Proof.
  intros Hx. unfold round. cbv zeta.
  assert (Hy : x * inject_Z (10 ^ Z.of_nat ndigits) == 0)
    by (rewrite Hx; ring).
  assert (Hr : round_half_even (x * inject_Z (10 ^ Z.of_nat ndigits)) = 0%Z).
  { unfold round_half_even. cbv zeta.
    assert (Hf : Qfloor (x * inject_Z (10 ^ Z.of_nat ndigits)) = 0%Z)
      by (rewrite Hy; reflexivity).
    rewrite Hf.
    replace (_ <? 0.5) with true; [reflexivity |].
    symmetry. apply Qltb_lt. change (inject_Z 0) with 0. lra. }
  rewrite Hr. unfold Qdiv. ring.
Qed.

Section Speed.

Context {M : MathLib}.

Lemma process_speed clock self d :
  let self' := _process_activity_and_steps clock self d in
  let m := latest_metrics self' in
  let cadence_spm := cadence_of (_step_buffer self') (sample_time clock d) in
  let height_m := Qmax 0.5 (user_height_cm self / 100.0) in
  let stride_m :=
    if String.eqb (activity m) "running" then 0.65 * height_m
    else if String.eqb (activity m) "walking" then 0.415 * height_m
    else 0.0 in
  runningSpeedKmh m = round ((float cadence_spm / 60.0) * stride_m * 3.6) 2.
Proof.
  unfold _process_activity_and_steps.
  destruct (detect_step _ _ _ _) as [[step_detected last_step] count].
  destruct (idle_override _ _ _ _) as [activity confidence].
  cbn. reflexivity.
Qed.

(** X17: the reported running speed is never negative, whatever the profile
    height, and it is 0 for every activity other than "running" and
    "walking": the stride is 0.65 (running) or 0.415 (walking) of a height of
    at least half a metre, times the cadence. *)
Theorem running_speed_reported clock self d :
  let self' := _process_activity_and_steps clock self d in
  let m := latest_metrics self' in
  0 <= runningSpeedKmh m /\
  (activity m <> "running"%string -> activity m <> "walking"%string ->
   runningSpeedKmh m == 0) /\
  (activity m = "running"%string ->
   runningSpeedKmh m =
     round (float (cadence_of (_step_buffer self') (sample_time clock d))
            / 60.0 * (0.65 * Qmax 0.5 (user_height_cm self / 100.0)) * 3.6) 2).
Proof.
  intros self' m.
  pose proof (process_speed clock self d) as Hspeed. cbv zeta in Hspeed.
  fold self' in Hspeed. fold m in Hspeed.
  assert (Hcad : 0 <= float (cadence_of (_step_buffer self')
                               (sample_time clock d))).
  { unfold float. rewrite <- (Zle_Qle 0).
    rewrite cadence_counts_buffered_samples. unfold len. lia. }
  assert (Hh : 0 <= Qmax 0.5 (user_height_cm self / 100.0)).
  { apply Qle_trans with 0.5; [discriminate | apply Q.le_max_l]. }
  split; [| split].
  - rewrite Hspeed. apply round_nonneg.
    apply Qmult_le_0_compat; [| discriminate].
    apply Qmult_le_0_compat.
    + apply Qle_shift_div_l; [reflexivity | lra].
    + destruct_ifs; [| | discriminate];
        (apply Qmult_le_0_compat; [discriminate | exact Hh]).
  - intros Hrun Hwalk. apply String.eqb_neq in Hrun, Hwalk.
    rewrite Hspeed, Hrun, Hwalk. apply round_zero. ring.
  - intros Hrun. rewrite Hspeed, Hrun. reflexivity.
Qed.

End Speed.

(** ** Timestamps that do not advance *)

Lemma calories_increment_zero hr activity weight_kg age :
  calories_increment_of hr activity weight_kg age 0.0 == 0.
Proof.
  unfold calories_increment_of.
  replace (use_heart_rate hr 0.0) with false.
  - cbv zeta. unfold Qdiv. ring.
  - unfold use_heart_rate. rewrite andb_comm. reflexivity.
Qed.

(** X18: a sample whose time is not later than that of the previous processed
    sample (a repeated or out-of-order timestamp) adds nothing to the calorie
    accumulator, and moves [_last_metric_time] back to its own time. *)
Theorem stale_sample_adds_no_calories {M : MathLib} clock self d t :
  _last_metric_time self = Some t ->
  sample_time clock d <= t ->
  let self' := _process_activity_and_steps clock self d in
  _calories_accum self' == _calories_accum self /\
  _last_metric_time self' = Some (sample_time clock d).
Proof.
  intros Hlast Hstale self'.
  destruct (process_calories clock self d) as (Hacc & Htime & _).
  fold self' in Hacc, Htime.
  rewrite Hlast, (elapsed_minutes_clock_back t _ Hstale) in Hacc.
  split; [| exact Htime].
  rewrite Hacc, calories_increment_zero. ring.
Qed.

(** ** A gap in the steps *)

(** X19: once more than 2.0 seconds have passed since the last accepted step,
    no later sample is accepted: a candidate peak outside the time window
    leaves [_last_step_time] where it was, so the gap only grows.  Over any
    samples later than that, [step_count] and [_last_step_time] stay and no
    step is reported. *)
Theorem step_counting_stops_after_gap {M : MathLib} self last samples :
  _last_step_time self = Some last ->
  Forall (fun s => last + 2.0 < sample_time (fst s) (snd s)) samples ->
  step_count (process_all self samples) = step_count self /\
  _last_step_time (process_all self samples) = Some last /\
  accepted_times self samples = [] /\
  map stepDetected (metrics_trace self samples) = map (fun _ => false) samples.
Proof.
  revert self.
  induction samples as [| [clock d] rest IH]; intros self Hlast Hlate.
  - cbn. auto.
  - inversion Hlate as [| ? ? Hnow Hrest]; subst. cbn [fst snd] in Hnow.
    cbn [process_all accepted_times metrics_trace map]. cbv zeta.
    destruct (process_step_cases clock self d)
      as [(_ & Hdet & Hl & Hcount)
         | [(_ & Hnone & _)
           | [l (_ & Hl & _ & Hhi & _)]]].
    + rewrite Hdet.
      destruct (IH (_process_activity_and_steps clock self d))
        as (IH1 & IH2 & IH3 & IH4); [congruence | exact Hrest |].
      rewrite IH1, IH2, IH3, IH4, Hcount. auto.
    + congruence.
    + exfalso. rewrite Hlast in Hl. injection Hl as <-.
      unfold _max_step_interval in Hhi. lra.
Qed.

(** ** The simulated heart rate *)

Lemma _update_heart_rate_rate clock d :
  heart_rate (_update_heart_rate clock d) =
  let target :=
    70 + 50 * (Qabs (current_angle d) / 90.0) + 10 * (fatigue_factor d * 0.1) in
  if heart_rate d <? target
  then Qmin target (heart_rate d + 2)
  else Qmax target (heart_rate d - 1).
Proof.
  unfold _update_heart_rate. destruct (last_beat_time d); reflexivity.
Qed.

(** The heart-rate update raises on the first call at a heart rate of 0, and
    on no other call. *)
Lemma DemoMode_update_heart_rate_cases clock d :
  (last_beat_time d = None /\ heart_rate d == 0 /\
   DemoMode_update_heart_rate clock d =
     hr_raised ZeroDivisionError
       {| running := running d; current_angle := current_angle d;
          fatigue_factor := fatigue_factor d; heart_rate := heart_rate d;
          last_beat_time := Some clock; beat_interval := beat_interval d |}) \/
  ((last_beat_time d = None -> ~ heart_rate d == 0) /\
   DemoMode_update_heart_rate clock d =
     hr_returned (_update_heart_rate clock d)).
Proof.
  unfold DemoMode_update_heart_rate.
  destruct (last_beat_time d) as [t |]; [right; split; [discriminate | reflexivity] |].
  destruct (Qeq_bool (heart_rate d) 0) eqn:Hzero.
  - left. apply Qeq_bool_iff in Hzero. auto.
  - right. split; [| reflexivity].
    intros _ H. apply Qeq_bool_iff in H. congruence.
Qed.

(** X20: the simulated heart rate.  The first update of a demo state whose
    heart rate is 0 raises [ZeroDivisionError]: the beat time is set, the
    beat interval is not, and the heart rate stays 0.  Every other update
    returns; it moves the heart rate towards its target (70, plus 50 per 90
    degrees of arm angle, plus the fatigue factor) by at most 2 upwards and 1
    downwards, and never past the target; the first update records the beat
    time and the beat interval [60 / heart_rate] of the rate before the
    update, later ones keep both; [running], [current_angle] and
    [fatigue_factor] are not assigned.  From a heart rate of 70 or more, with
    a fatigue factor that is not negative, the update returns and the rate
    stays at 70 or more. *)
Theorem simulated_heart_rate_call (clock : Q) (d : DemoMode) :
  let target :=
    70 + 50 * (Qabs (current_angle d) / 90.0) + 10 * (fatigue_factor d * 0.1) in
  let first_call_at_zero := last_beat_time d = None /\ heart_rate d == 0 in
  (first_call_at_zero ->
   exists d',
     DemoMode_update_heart_rate clock d = hr_raised ZeroDivisionError d' /\
     heart_rate d' = heart_rate d /\
     last_beat_time d' = Some clock /\
     beat_interval d' = beat_interval d /\
     running d' = running d /\ current_angle d' = current_angle d /\
     fatigue_factor d' = fatigue_factor d) /\
  (~ first_call_at_zero ->
   exists d',
     DemoMode_update_heart_rate clock d = hr_returned d' /\
     (running d' = running d /\ current_angle d' = current_angle d /\
      fatigue_factor d' = fatigue_factor d) /\
     (last_beat_time d = None ->
      last_beat_time d' = Some clock /\
      beat_interval d' = Some (60.0 / heart_rate d)) /\
     (forall t, last_beat_time d = Some t ->
      last_beat_time d' = Some t /\ beat_interval d' = beat_interval d) /\
     (heart_rate d < target ->
      heart_rate d < heart_rate d' /\ heart_rate d' <= target /\
      heart_rate d' <= heart_rate d + 2) /\
     (target <= heart_rate d ->
      target <= heart_rate d' /\ heart_rate d' <= heart_rate d /\
      heart_rate d - 1 <= heart_rate d')) /\
  (0 <= fatigue_factor d -> 70 <= heart_rate d ->
   exists d',
     DemoMode_update_heart_rate clock d = hr_returned d' /\
     70 <= heart_rate d').
Proof.
  intros target first_call_at_zero.
  pose proof (_update_heart_rate_rate clock d) as Hnew.
  cbv zeta in Hnew. fold target in Hnew.
  assert (Hangle : 0 <= Qabs (current_angle d) / 90.0).
  { apply Qle_shift_div_l; [reflexivity |].
    rewrite Qmult_0_l. apply Qabs_nonneg. }
  split; [| split].
  - intros [Hfirst Hzero].
    destruct (DemoMode_update_heart_rate_cases clock d)
      as [(_ & _ & Hraise) | (Hnot & _)];
      [| exfalso; exact (Hnot Hfirst Hzero)].
    eexists. split; [exact Hraise |]. cbn. auto 10.
  - intros Hreturns.
    destruct (DemoMode_update_heart_rate_cases clock d)
      as [(Hfirst & Hzero & _) | (_ & Hret)];
      [exfalso; apply Hreturns; split; assumption |].
    exists (_update_heart_rate clock d).
    split; [exact Hret |].
    split; [unfold _update_heart_rate; destruct (last_beat_time d); cbn; auto |].
    split; [intros Hfirst; unfold _update_heart_rate; rewrite Hfirst; cbn;
            auto |].
    split; [intros t Ht; unfold _update_heart_rate; rewrite Ht; cbn; auto |].
    split.
    + intros Hlow. rewrite Hnew. apply Qltb_lt in Hlow. rewrite Hlow.
      apply Qltb_lt in Hlow.
      split; [apply Q.min_glb_lt; lra |].
      split; [apply Q.le_min_l | apply Q.le_min_r].
    + intros Hhigh. rewrite Hnew. apply Qltb_ge in Hhigh. rewrite Hhigh.
      apply Qltb_ge in Hhigh.
      split; [apply Q.le_max_l |].
      split; [apply Q.max_lub; lra | apply Q.le_max_r].
  - intros Hfat Hhr.
    destruct (DemoMode_update_heart_rate_cases clock d)
      as [(_ & Hzero & _) | (_ & Hret)]; [exfalso; lra |].
    exists (_update_heart_rate clock d). split; [exact Hret |].
    rewrite Hnew.
    assert (Htarget : 70 <= target) by (unfold target; nra).
    destruct (heart_rate d <? target).
    + apply Q.min_glb; lra.
    + apply Qle_trans with target; [exact Htarget | apply Q.le_max_l].
Qed.

(** ** One rep, start to end *)

Section RepCycle.

Context {M : MathLib}.



End RepCycle.


(** ** The curl-height feedback *)

(** X22: the bicep-curl analyzer issues the "Perfect curl height" tag exactly
    on a call that finds the state [down] and a pitch from 90 to 120: the
    curl height is judged on the call that switches [down -> up], and on no
    other. *)
Theorem perfect_curl_height_tag clock self pitch roll sensor_data :
  let r := _analyze_bicep_curl clock self pitch roll sensor_data in
  In perfect_curl_height (feedback_of (snd r)) <->
  rep_state self = down /\ 90 <= pitch /\ pitch <= 120.
Proof.
  cbv zeta. unfold _analyze_bicep_curl, feedback_of, perfect_curl_height.
  unfold bicep_curl.min_curl, bicep_curl.max_curl, bicep_curl.target_curl.
  destruct (rep_state self) eqn:Hst; cbn [RepState_eqb andb].
  - destruct (pitch <? 20); destruct_ifs; cbn;
      (split; [intros H; repeat destruct H as [H | H]; try discriminate H;
               try contradiction
              | intros [H _]; discriminate H]).
  - destruct (pitch >? 60) eqn:H60; [| destruct_ifs; cbn;
      (split; [intros H; repeat destruct H as [H | H]; try discriminate H;
               try contradiction
              | intros (_ & H90 & _); apply Qgtb_le in H60; exfalso; lra])].
    destruct (pitch >? 120) eqn:H120.
    + destruct_ifs; cbn;
        (split; [intros H; repeat destruct H as [H | H]; try discriminate H;
                 try contradiction
                | intros (_ & _ & Hmax); apply Qgtb_gt in H120; exfalso; lra]).
    + destruct (pitch >=? 90) eqn:H90.
      * apply Qgeb_ge in H90. apply Qgtb_le in H120.
        destruct_ifs; cbn; (split; [intros _; auto | intros _; auto]).
      * destruct_ifs; cbn;
          (split; [intros H; repeat destruct H as [H | H]; try discriminate H;
                   try contradiction
                  | intros (_ & Hmin & _); exfalso;
                    assert (Hlt : pitch < 90)
                      by (apply Qleb_gt; exact H90); lra]).
Qed.

(** ** Instances *)

Lemma first_curl_returns :
  analyze_with_mesh (M := ExactSquares) (T := FlatTrig) 1 (init None)
    HumanMesh.initial_joints "bicep_curl" 10 0 None =
  Returned (fst first_curl_call) curled_joints (snd first_curl_call).
Proof. vm_compute. reflexivity. Defined.

Lemma analyze_score_range_witness :
  analyze_with_mesh (M := ExactSquares) (T := FlatTrig) 1 (init None)
    HumanMesh.initial_joints "bicep_curl" 10 0 None =
  Returned (fst first_curl_call) curled_joints (snd first_curl_call) /\
  (0 <= score_of (snd first_curl_call) <= 100)%Z.
Proof.
  split; [exact first_curl_returns |].
  exact (proj1 (analyze_score_range (M := ExactSquares) (T := FlatTrig) 1
                  (init None) HumanMesh.initial_joints "bicep_curl" 10 0 None
                  _ _ _ first_curl_returns)).
Defined.

Lemma no_rep_on_consecutive_calls_witness :
  let second :=
    analyze (M := ExactSquares) 2 (fst first_curl_call) "bicep_curl" 5 0 None in
  analyze_with_mesh (M := ExactSquares) (T := FlatTrig) 1 (init None)
    HumanMesh.initial_joints "bicep_curl" 10 0 None =
  Returned (fst first_curl_call) curled_joints (snd first_curl_call) /\
  analyze_with_mesh (M := ExactSquares) (T := FlatTrig) 2 (fst first_curl_call)
    curled_joints "bicep_curl" 5 0 None =
  Returned (fst second) curled_joints (snd second) /\
  rep_detected_of (snd first_curl_call) = true /\
  rep_detected_of (snd second) = false.
Proof.
  cbv zeta.
  assert (H2 : analyze_with_mesh (M := ExactSquares) (T := FlatTrig) 2
                 (fst first_curl_call) curled_joints "bicep_curl" 5 0 None =
               Returned
                 (fst (analyze (M := ExactSquares) 2 (fst first_curl_call)
                         "bicep_curl" 5 0 None))
                 curled_joints
                 (snd (analyze (M := ExactSquares) 2 (fst first_curl_call)
                         "bicep_curl" 5 0 None)))
    by (vm_compute; reflexivity).
  assert (Hrep : rep_detected_of (snd first_curl_call) = true)
    by (vm_compute; reflexivity).
  split; [exact first_curl_returns |]. split; [exact H2 |].
  split; [exact Hrep |].
  exact (no_rep_on_consecutive_calls (M := ExactSquares) (T := FlatTrig)
           1 (init None) HumanMesh.initial_joints "bicep_curl" 10 0 None
           _ _ _ 2 "bicep_curl" 5 0 None _ _ _ first_curl_returns H2 Hrep).
Defined.

Lemma analytics_skipped_witness :
  analyze_with_mesh (M := ExactSquares) (T := FlatTrig) 1 (init None)
    HumanMesh.initial_joints "bicep_curl" 10 0 None =
  Returned (fst first_curl_call) curled_joints (snd first_curl_call) /\
  (@None SensorData = None \/ dispatch "bicep_curl" = None) /\
  _step_buffer (fst first_curl_call) = [] /\
  latest_metrics (fst first_curl_call) = latest_metrics (init None).
Proof.
  split; [exact first_curl_returns |].
  split; [left; reflexivity |].
  destruct (analytics_skipped (M := ExactSquares) (T := FlatTrig) 1 (init None)
              HumanMesh.initial_joints "bicep_curl" 10 0 None _ _ _
              first_curl_returns (or_introl eq_refl))
    as (_ & _ & Hbuf & _ & _ & Hmetrics).
  split; [exact Hbuf | exact Hmetrics].
Defined.

Lemma range_of_motion_tracking_witness :
  analyze_with_mesh (M := ExactSquares) (T := FlatTrig) 1 (init None)
    HumanMesh.initial_joints "bicep_curl" 10 0 None =
  Returned (fst first_curl_call) curled_joints (snd first_curl_call) /\
  rep_detected_of (snd first_curl_call) = true /\
  range_of_motion (fst first_curl_call) = (0, 0).
Proof.
  assert (Hrep : rep_detected_of (snd first_curl_call) = true)
    by (vm_compute; reflexivity).
  split; [exact first_curl_returns |]. split; [exact Hrep |].
  exact (proj1 (range_of_motion_tracking (M := ExactSquares) (T := FlatTrig) 1
                  (init None) HumanMesh.initial_joints "bicep_curl" 10 0 None
                  _ _ _ first_curl_returns) Hrep).
Defined.

Lemma movement_history_window_witness :
  "bicep_curl"%string <> "squat"%string /\
  "bicep_curl"%string <> "pushup"%string /\
  List.length
    (movement_history
       (fst (analyze_all (M := ExactSquares) (init None) "bicep_curl"
               two_rep_session))) =
  Nat.min 20 (List.length two_rep_session).
Proof.
  assert (H1 : "bicep_curl"%string <> "squat"%string) by discriminate.
  assert (H2 : "bicep_curl"%string <> "pushup"%string) by discriminate.
  split; [exact H1 |]. split; [exact H2 |].
  exact (proj2 (movement_history_window (M := ExactSquares) None "bicep_curl"
                  two_rep_session H1 H2)).
Defined.

Lemma rep_durations_count_witness :
  "bicep_curl"%string <> "squat"%string /\
  "bicep_curl"%string <> "pushup"%string /\
  rep_count_of
    (snd (analyze_all (M := ExactSquares) (init None) "bicep_curl"
            two_rep_session)) = 2%nat /\
  List.length
    (rep_durations
       (fst (analyze_all (M := ExactSquares) (init None) "bicep_curl"
               two_rep_session))) =
  Nat.min 5
    (rep_count_of
       (snd (analyze_all (M := ExactSquares) (init None) "bicep_curl"
               two_rep_session)) - 1).
Proof.
  assert (H1 : "bicep_curl"%string <> "squat"%string) by discriminate.
  assert (H2 : "bicep_curl"%string <> "pushup"%string) by discriminate.
  split; [exact H1 |]. split; [exact H2 |].
  split; [vm_compute; reflexivity |].
  exact (proj1 (rep_durations_count (M := ExactSquares) None "bicep_curl"
                  two_rep_session H1 H2)).
Defined.

Lemma activity_without_classifier_witness :
  (activity_model (init None) = None \/ mode (init None) = workout) /\
  0.3 <= activityConfidence
           (latest_metrics
              (_process_activity_and_steps (M := ExactSquares) 1.0 (init None)
                 (at_rest 1.0))).
Proof.
  split; [left; reflexivity |].
  exact (proj1 (proj2
    (activity_without_classifier (M := ExactSquares) 1.0 (init None)
       (at_rest 1.0) (or_introl eq_refl)))).
Defined.

Lemma stale_sample_adds_no_calories_witness :
  let self :=
    _process_activity_and_steps (M := ExactSquares) 60 (init None)
      (at_rest_with_pulse 60 140) in
  _last_metric_time self = Some 60 /\
  sample_time 30 (at_rest_with_pulse 30 140) <= 60 /\
  _calories_accum
    (_process_activity_and_steps (M := ExactSquares) 30 self
       (at_rest_with_pulse 30 140)) == _calories_accum self.
Proof.
  cbv zeta.
  assert (Hlast : _last_metric_time
                    (_process_activity_and_steps (M := ExactSquares) 60
                       (init None) (at_rest_with_pulse 60 140)) = Some 60)
    by (vm_compute; reflexivity).
  assert (Hstale : sample_time 30 (at_rest_with_pulse 30 140) <= 60)
    by (vm_compute; discriminate).
  split; [exact Hlast |]. split; [exact Hstale |].
  exact (proj1 (stale_sample_adds_no_calories (M := ExactSquares) 30 _
                  (at_rest_with_pulse 30 140) 60 Hlast Hstale)).
Defined.

Lemma step_counting_stops_after_gap_witness :
  _last_step_time after_jolts = Some 4.0 /\
  Forall (fun s => 4.0 + 2.0 < sample_time (fst s) (snd s)) late_jolts /\
  step_count (process_all (M := ExactSquares) after_jolts late_jolts) =
  step_count after_jolts.
Proof.
  assert (Hlast : _last_step_time after_jolts = Some 4.0)
    by (vm_compute; reflexivity).
  assert (Hlate : Forall (fun s => 4.0 + 2.0 < sample_time (fst s) (snd s))
                    late_jolts)
    by (repeat constructor; vm_compute; reflexivity).
  split; [exact Hlast |]. split; [exact Hlate |].
  exact (proj1 (step_counting_stops_after_gap (M := ExactSquares) after_jolts
                  4.0 late_jolts Hlast Hlate)).
Defined.

(** In [late_jolts] the 3 g jolt is a candidate peak on the last sample, more
    than two seconds after the last accepted step: it is not accepted. *)
Example late_jolt_is_a_candidate :
  candidate_peak (M := ExactSquares)
    (_step_buffer (process_all (M := ExactSquares) after_jolts late_jolts))
  = true /\
  map stepDetected (metrics_trace (M := ExactSquares) after_jolts late_jolts) =
  [false; false; false; false; false; false; false; false].
Proof. split; vm_compute; reflexivity. Qed.

Lemma stability_variance_penalties_witness :
  _analyze_stability (with_history swinging_history) =
  (80%Z, ["⚠ Stabilize your movement - too much variation"%string]).
Proof.
  destruct (stability_variance_penalties (with_history swinging_history))
    as (_ & Hlong).
  destruct Hlong as (_ & Hpitch & _); [cbn; lia |].
  apply Hpitch; [vm_compute; reflexivity | vm_compute; discriminate].
Defined.

Lemma classifier_confined_witness :
  Forall (fun s => classifier_silent (M := ExactSquares)
                     (init (Some broken_model)) (snd s)) jolt_stream /\
  metrics_trace (M := ExactSquares) (init (Some broken_model)) jolt_stream =
  metrics_trace (M := ExactSquares)
    (set_activity_model None (init (Some broken_model))) jolt_stream.
Proof.
  assert (Hsilent : Forall (fun s => classifier_silent (M := ExactSquares)
                                       (init (Some broken_model)) (snd s))
                      jolt_stream).
  { repeat constructor; right; left; reflexivity. }
  split; [exact Hsilent |].
  exact (proj1 (proj2 (classifier_confined (M := ExactSquares)
                         (init (Some broken_model)) jolt_stream) Hsilent)).
Defined.

Lemma simulated_heart_rate_call_witness :
  (exists d',
     DemoMode_update_heart_rate 5 flat_demo = hr_raised ZeroDivisionError d' /\
     heart_rate d' = 0 /\ last_beat_time d' = Some 5 /\
     beat_interval d' = None) /\
  (exists d',
     DemoMode_update_heart_rate 5 fresh_demo = hr_returned d' /\
     70 <= heart_rate d').
Proof.
  split.
  - destruct (simulated_heart_rate_call 5 flat_demo) as (Hraise & _).
    destruct Hraise as (d' & Hd & Hrate & Hbeat & Hint & _);
      [split; reflexivity |].
    exists d'. auto.
  - destruct (simulated_heart_rate_call 5 fresh_demo) as (_ & _ & Hstays).
    apply Hstays; vm_compute; discriminate.
Defined.

(** ** The whole method on an unrecognized exercise name *)

(** The mesh update returns for every name but the two whose update method
    is missing. *)
Lemma mesh_update_returns {T : TrigLib} pitch roll exercise mesh :
  HumanMesh.skeleton mesh = HumanMesh.skeleton HumanMesh.initial_joints ->
  exercise <> "squat"%string ->
  exercise <> "pushup"%string ->
  exists mesh',
    HumanMesh.update_joint_positions pitch roll exercise mesh = Ok mesh'.
Proof.
  intros Hskel H2 H3. apply String.eqb_neq in H2, H3.
  unfold HumanMesh.update_joint_positions.
  rewrite H2, H3. cbv zeta.
  mesh_joints mesh Hskel.
  destruct (String.eqb exercise "bicep_curl");
    eexists; vm_compute; reflexivity.
Qed.

(** The whole method is [analyze_with_mesh] when the heart-rate update does
    not divide by zero. *)
Lemma FormAnalyzer_analyze_returns {M : MathLib} {T : TrigLib}
  clock self mesh exercise pitch roll sensor_data :
  (last_beat_time (demo_mode self) = None ->
   ~ heart_rate (demo_mode self) == 0) ->
  FormAnalyzer_analyze clock self mesh exercise pitch roll sensor_data =
  analyze_with_mesh clock self mesh exercise pitch roll sensor_data.
Proof.
  intros Hrate. unfold FormAnalyzer_analyze. cbv zeta.
  destruct (_ || _); [| reflexivity].
  destruct (DemoMode_update_heart_rate_cases clock (demo_mode self))
    as [(Hfirst & Hzero & _) | (_ & ->)]; [| reflexivity].
  exfalso. exact (Hrate Hfirst Hzero).
Qed.

(** When the heart-rate update raises, only the demo state has changed. *)
Lemma FormAnalyzer_analyze_cases {M : MathLib} {T : TrigLib}
  clock self mesh exercise pitch roll sensor_data :
  FormAnalyzer_analyze clock self mesh exercise pitch roll sensor_data =
    analyze_with_mesh clock self mesh exercise pitch roll sensor_data \/
  exists d,
    FormAnalyzer_analyze clock self mesh exercise pitch roll sensor_data =
      Raised ZeroDivisionError (set_demo_mode d self).
Proof.
  unfold FormAnalyzer_analyze. cbv zeta.
  destruct (_ || _); [| left; reflexivity].
  destruct (DemoMode_update_heart_rate_cases clock (demo_mode self))
    as [(_ & _ & ->) | (_ & ->)];
    [right; eexists; reflexivity | left; reflexivity].
Qed.

(** C8: the claim does not hold of the code for the names "squat" and
    "pushup".  Both are outside the four names of the dispatch, and for both
    the call of [analyze] raises instead of returning: the mesh update of
    line 471 calls [_update_squat] and [_update_pushup], which [HumanMesh]
    does not define, so the [else] branch of line 488 is not reached.  On a
    fresh analyzer [analyze('squat', 45, 0, None)] raises [AttributeError].
    For every other name outside the four the call returns score 0, the
    single tag and no rep, with [rep_state], [rep_durations] and
    [last_rep_time] as they were (on a mesh that carries the skeleton, when
    the demo heart-rate update does not divide by zero). *)
Theorem unrecognized_exercise_call {M : MathLib} {T : TrigLib}
  clock self mesh pitch roll sensor_data :
  let rate_not_zero :=
    last_beat_time (demo_mode self) = None ->
    ~ heart_rate (demo_mode self) == 0 in
  let call exercise :=
    FormAnalyzer_analyze clock self mesh exercise pitch roll sensor_data in
  (dispatch "squat" = None /\ dispatch "pushup" = None) /\
  (forall exercise,
      exercise = "squat"%string \/ exercise = "pushup"%string ->
      exists error self',
        call exercise = Raised error self' /\
        (rate_not_zero -> error = AttributeError) /\
        rep_state self' = rep_state self /\
        rep_durations self' = rep_durations self /\
        last_rep_time self' = last_rep_time self) /\
  FormAnalyzer_analyze 1 (init None) HumanMesh.initial_joints "squat" 45 0 None
    = Raised AttributeError (init None) /\
  (forall exercise,
      dispatch exercise = None ->
      exercise <> "squat"%string -> exercise <> "pushup"%string ->
      HumanMesh.skeleton mesh = HumanMesh.skeleton HumanMesh.initial_joints ->
      rate_not_zero ->
      exists self' mesh',
        call exercise =
          Returned self' mesh'
            (0%Z, ["Select a wrist-compatible exercise to begin"%string],
             false) /\
        rep_state self' = rep_state self /\
        rep_durations self' = rep_durations self /\
        last_rep_time self' = last_rep_time self).
Proof.
  intros rate_not_zero call.
  split; [split; reflexivity |].
  split; [| split].
  - intros exercise Hname. unfold call.
    assert (Hmesh : exists self',
               analyze_with_mesh clock self mesh exercise pitch roll sensor_data
                 = Raised AttributeError self' /\
               rep_state self' = rep_state self /\
               rep_durations self' = rep_durations self /\
               last_rep_time self' = last_rep_time self).
    { destruct Hname as [-> | ->]; unfold analyze_with_mesh;
        cbn [HumanMesh.update_joint_positions String.eqb Ascii.eqb Bool.eqb];
        eexists; (split; [reflexivity |]);
        destruct (_ || _); cbn; auto. }
    destruct Hmesh as (self' & Hraise & Hrep).
    destruct (FormAnalyzer_analyze_cases clock self mesh exercise pitch roll
                sensor_data) as [Heq | [d Heq]].
    + exists AttributeError, self'. rewrite Heq.
      split; [exact Hraise |]. split; [reflexivity | exact Hrep].
    + exists ZeroDivisionError, (set_demo_mode d self).
      split; [exact Heq |]. split; [| cbn; auto].
      intros Hrate. exfalso.
      rewrite (FormAnalyzer_analyze_returns clock self mesh exercise pitch roll
                 sensor_data Hrate), Hraise in Heq.
      discriminate Heq.
  - reflexivity.
  - intros exercise Hnone Hsquat Hpushup Hskel Hrate. unfold call.
    rewrite (FormAnalyzer_analyze_returns clock self mesh exercise pitch roll
               sensor_data Hrate).
    destruct (mesh_update_returns pitch roll exercise mesh Hskel Hsquat Hpushup)
      as [mesh' Hmesh].
    unfold analyze_with_mesh. rewrite Hmesh.
    assert (Hout : exercise <> "bicep_curl"%string /\
                   exercise <> "lateral_raise"%string /\
                   exercise <> "shoulder_press"%string /\
                   exercise <> "running"%string).
    { unfold dispatch in Hnone.
      repeat split; intros ->; discriminate Hnone. }
    destruct Hout as (H1 & H2 & H3 & H4).
    pose proof (analyze_else_branch clock self exercise pitch roll sensor_data
                  H1 H2 H3 H4) as Helse.
    cbv zeta in Helse.
    destruct (analyze clock self exercise pitch roll sensor_data)
      as [self' result].
    cbn [fst snd] in Helse. destruct Helse as (-> & Hrep).
    exists self', mesh'. split; [reflexivity | exact Hrep].
Qed.
